(** * Status reconciliation and redirect engine of grants-ui

    A shallow embedding of [src/server/status/status-helper.js] and of
    [validateGrantRedirectRules] from
    [src/server/common/forms/services/form.js], with the properties the
    specification states about them.

    Conventions of the embedding:
    - a JavaScript string is a [string] holding its UTF-8 text; [===] on
      strings is [=], [split(',')] and [startsWith('/')] act on the single
      byte of the separator, and [trim] removes the UTF-8 encodings of the
      ECMAScript WhiteSpace and LineTerminator code points;
    - [undefined] object fields are [None] in an [option];
    - a session state object is a [gmap string js_value];
    - asynchronous functions are run to completion: a computation takes the
      trace of external calls made so far and returns its outcome (a value
      or a thrown error) with the extended trace. *)

From Stdlib Require Import ZArith Ascii String.
From stdpp Require Import base option list strings gmap.

Local Open Scope string_scope.
Local Open Scope list_scope.

Set Warnings "-clear-no-such-hyp".

(** ** JavaScript strings *)

Module JS.

(** [s.split(sep)] for a one-character separator: the pieces between the
    occurrences of [sep]; the empty string splits into one empty piece. *)
Fixpoint split (sep : ascii) (s : string) : list string :=
  match s with
  | EmptyString => [EmptyString]
  | String c rest =>
      if Ascii.eqb c sep then EmptyString :: split sep rest
      else match split sep rest with
           | piece :: pieces => String c piece :: pieces
           | [] => [String c EmptyString]
           end
  end.

Definition bytes (codes : list nat) : string :=
  string_of_list_ascii (ascii_of_nat <$> codes).

(** UTF-8 encodings of the code points [String.prototype.trim] removes:
    TAB, LF, VT, FF, CR, SP, U+00A0, U+1680, U+2000..U+200A, U+2028,
    U+2029, U+202F, U+205F, U+3000 and U+FEFF. *)
Definition white_space : list string :=
  (bytes <$> [[9]; [10]; [11]; [12]; [13]; [32]; [194; 160]; [225; 154; 128]])
  ++ ((fun k => bytes [226; 128; 128 + k]) <$> seq 0 11)
  ++ (bytes <$> [[226; 128; 168]; [226; 128; 169]; [226; 128; 175];
                 [226; 129; 159]; [227; 128; 128]; [239; 187; 191]]).

Fixpoint strip_prefix (p s : string) : option string :=
  match p, s with
  | EmptyString, _ => Some s
  | String a p', String b s' => if Ascii.eqb a b then strip_prefix p' s' else None
  | String _ _, EmptyString => None
  end.

(** Removes one leading occurrence of one of the given sequences. *)
Fixpoint strip_any (ps : list string) (s : string) : option string :=
  match ps with
  | [] => None
  | p :: ps' =>
      match strip_prefix p s with
      | Some rest => Some rest
      | None => strip_any ps' s
      end
  end.

Fixpoint strip_all (fuel : nat) (ps : list string) (s : string) : string :=
  match fuel with
  | O => s
  | S fuel' =>
      match strip_any ps s with
      | Some rest => strip_all fuel' ps rest
      | None => s
      end
  end.

Definition trimStart (s : string) : string :=
  strip_all (String.length s) white_space s.

Definition trimEnd (s : string) : string :=
  String.rev (strip_all (String.length s) (String.rev <$> white_space) (String.rev s)).

Definition trim (s : string) : string := trimEnd (trimStart s).

(** [s.toLowerCase()] on the letters A to Z, the only cased characters of
    a reference number. *)
Definition toLowerCase_char (c : ascii) : ascii :=
  let n := nat_of_ascii c in
  if ((65 <=? n) && (n <=? 90))%nat then ascii_of_nat (n + 32) else c.

Fixpoint toLowerCase (s : string) : string :=
  match s with
  | EmptyString => EmptyString
  | String c rest => String (toLowerCase_char c) (toLowerCase rest)
  end.

(** [s.startsWith(p)] *)
Fixpoint startsWith (p s : string) : bool :=
  match p, s with
  | EmptyString, _ => true
  | String a p', String b s' => Ascii.eqb a b && startsWith p' s'
  | String _ _, EmptyString => false
  end.

End JS.

Arguments JS.startsWith : simpl never.

(** ** Errors and outcomes *)

(** An [Error] object: its message and the optional numeric [status]
    property the GAS client attaches to HTTP failures. *)
Record JsError := mkError {
  err_status : option Z;
  err_message : string
}.

Definition Error (msg : string) : JsError := mkError None msg.

Inductive outcome (A : Type) : Type :=
| Returned (a : A)
| Thrown (e : JsError).
Arguments Returned {A} a.
Arguments Thrown {A} e.

(** ** Redirect rules *)

(** A post-submission rule as it sits in the grant's metadata; a property
    the configuration leaves out is [None]. *)
Record RedirectRule := mkRule {
  fromGrantsStatus : option string;
  gasStatus : option string;
  toGrantsStatus : option string;
  toPath : option string
}.

Record PreSubmissionRule := mkPreRule {
  pre_toPath : option string
}.

Record GrantRedirectRules := mkRules {
  preSubmission : option (list PreSubmissionRule);
  postSubmission : option (list RedirectRule)
}.

(** [field || 'default'] *)
Definition or_default (field : option string) : string :=
  match field with
  | Some s => if decide (s = "") then "default" else s
  | None => "default"
  end.

(** [new Set((field || 'default').split(',').map((s) => s.trim()))] *)
Definition status_set (field : option string) : gset string :=
  list_to_set (JS.trim <$> JS.split "," (or_default field)).

(** The callback given to [redirectRules.find] in [mapStatusToUrl]. *)
Definition rule_matches (fromStatus gas : string) (rule : RedirectRule) : bool :=
  let fromStatuses := status_set (fromGrantsStatus rule) in
  let gasStatuses := status_set (gasStatus rule) in
  let fromMatch :=
    bool_decide (fromStatus ∈ fromStatuses) || bool_decide ("default" ∈ fromStatuses) in
  let gasMatch :=
    bool_decide (gas ∈ gasStatuses) || bool_decide ("default" ∈ gasStatuses) in
  fromMatch && gasMatch.

Definition mapStatusToUrl (fromStatus gas : string) (redirectRules : list RedirectRule)
  : outcome RedirectRule :=
  match List.find (rule_matches fromStatus gas) redirectRules with
  | Some rule => Returned rule
  | None =>
      Thrown (Error ("No redirect rule found for fromGrantsStatus=" +:+ fromStatus
                     +:+ " gasStatus=" +:+ gas))
  end.

(** ** JavaScript values held in the session state *)

#[warnings="-register-all"]
Inductive js_value : Type :=
| VUndefined
| VNull
| VBool (b : bool)
| VNum (n : Z)
| VStr (s : string)
| VArr (items : list js_value)
| VObj (fields : gmap string js_value).

(** Truthiness, as [!v] and [v || w] test it. *)
Definition truthy (v : js_value) : bool :=
  match v with
  | VUndefined | VNull => false
  | VBool b => b
  | VNum n => negb (n =? 0)%Z
  | VStr s => negb (String.eqb s "")
  | VArr _ | VObj _ => true
  end.

(** [v === 'literal'] *)
Definition is_string (v : js_value) (literal : string) : bool :=
  match v with
  | VStr s => bool_decide (s = literal)
  | _ => false
  end.

(** [v || {}] *)
Definition or_empty_object (v : js_value) : js_value :=
  if truthy v then v else VObj ∅.

(** [Object.keys(v).length] for a value that is neither [undefined] nor
    [null]: booleans and numbers have no own keys, a string one per
    character, an array one per item, an object one per field.  Only
    whether the count is zero is ever looked at, so the characters of a
    string are counted as bytes. *)
Definition Object_keys_length (v : js_value) : nat :=
  match v with
  | VUndefined | VNull | VBool _ | VNum _ => 0
  | VStr s => String.length s
  | VArr items => length items
  | VObj fields => size fields
  end.

Abbreviation js_object := (gmap string js_value).

(** [Object.keys(o)]; the order is immaterial to [some]. *)
Definition Object_keys (o : js_object) : list string := (map_to_list o).*1.

(** [o.key], [undefined] when the field is absent. *)
Definition get_field (o : js_object) (key : string) : js_value :=
  default VUndefined (o !! key).

(** Interpolation [`${v}`] of a possibly undefined string. *)
Definition template (v : option string) : string :=
  default "undefined" v.

(** [!s] for a possibly undefined string. *)
Definition falsy (v : option string) : bool :=
  match v with
  | Some s => String.eqb s ""
  | None => true
  end.

(** ** Requests, contexts and the outside world *)

(** [request.app.model?.def?.metadata] *)
Record Metadata := mkMetadata {
  submission_grantCode : option string;      (* metadata.submission?.grantCode *)
  tasklistId : option string;                (* null and undefined are [None] *)
  grantRedirectRules : option GrantRedirectRules
}.

Record Request := mkRequest {
  params_slug : option string;               (* request.params?.slug *)
  path : string;                             (* request.path *)
  metadata : option Metadata;                (* request.app.model?.def?.metadata *)
  credentials_sbi : option string            (* request.auth.credentials?.sbi *)
}.

Record Context := mkContext {
  paths : option (list string);
  referenceNumber : string;
  state : js_object
}.

(** [request.app.model?.def?.metadata?.grantRedirectRules] *)
Definition request_grantRedirectRules (request : Request) : option GrantRedirectRules :=
  metadata request ≫= grantRedirectRules.

(** [request.app.model?.def?.metadata?.submission?.grantCode] *)
Definition request_grantCode (request : Request) : option string :=
  metadata request ≫= submission_grantCode.

(** [request.app.model?.def?.metadata?.tasklistId] *)
Definition request_tasklistId (request : Request) : option string :=
  metadata request ≫= tasklistId.

(** [context.paths?.[0]] *)
Definition context_startPath (context : Context) : option string :=
  paths context ≫= head.

(** [grantRedirectRules?.postSubmission ?? []] *)
Definition postSubmission_or_empty (rules : option GrantRedirectRules) : list RedirectRule :=
  default [] (rules ≫= postSubmission).

(** What the Hapi toolkit hands back: [h.continue] or
    [h.redirect(url).takeover()]. *)
Inductive response : Type :=
| Continue
| Redirect (url : string).

(** Calls to the external collaborators, in the order they are made. *)
Inductive event : Type :=
| EvGetApplicationStatus (grantCode ref : string)
| EvSetState (newState : js_object)
| EvUpdateApplicationStatus (newStatus : option string) (key : string)
| EvLog (grantType referenceNumber error : string).

(** The collaborators of the status helper.  Each one answers a call with a
    value or with a thrown error. *)
Record Env := mkEnv {
  agreements_baseUrl : string;               (* agreements.get('baseUrl') *)
  getApplicationStatus : string → string → outcome string;
                                             (* the [status] of the JSON reply *)
  cache_setState : js_object → outcome unit;
  updateApplicationStatus : option string → string → outcome unit
}.

(** Modelled from the spec: the constant tables
    [common/constants/application-status.js] and
    [common/constants/status-codes.js] are not part of the sources at hand;
    the specification names the statuses and the tests use 404 for the
    not-found code. *)
Module ApplicationStatus.
Definition SUBMITTED : string := "SUBMITTED".
Definition REOPENED : string := "REOPENED".
Definition CLEARED : string := "CLEARED".
End ApplicationStatus.

Module statusCodes.
Definition notFound : Z := 404.
End statusCodes.

(** ** Computations with a trace and exceptions *)

Definition M (A : Type) : Type := list event → outcome A * list event.

Definition ret {A} (a : A) : M A := fun tr => (Returned a, tr).

Definition throw {A} (e : JsError) : M A := fun tr => (Thrown e, tr).

Definition bind {A B} (m : M A) (k : A → M B) : M B :=
  fun tr =>
    match m tr with
    | (Returned a, tr') => k a tr'
    | (Thrown e, tr') => (Thrown e, tr')
    end.

(** [try { m } catch (err) { handler(err) }] *)
Definition try_catch {A} (m : M A) (handler : JsError → M A) : M A :=
  fun tr =>
    match m tr with
    | (Returned a, tr') => (Returned a, tr')
    | (Thrown e, tr') => handler e tr'
    end.

(** A call to a collaborator: recorded, then answered. *)
Definition call {A} (ev : event) (answer : outcome A) : M A :=
  fun tr => (answer, tr ++ [ev]).

#[global] Instance M_ret : MRet M := @ret.
#[global] Instance M_bind : MBind M := λ A B k m, bind m k.

(** Reading a property of [undefined]. *)
Definition TypeError (what : string) : JsError :=
  Error ("Cannot read properties of undefined (reading '" +:+ what +:+ "')").

(** ** The status helper *)

Section StatusHelper.
Context (env : Env).

(** [persistStatus(request, newStatus, previousStatus, grantId)] *)
Definition persistStatus (request : Request) (newStatus : option string)
    (previousStatus : string) (grantId : option string) : M unit :=
  if decide (newStatus = Some previousStatus) then mret tt
  else
    let organisationId := credentials_sbi request in
    if decide (newStatus = Some "CLEARED") then
      let newState : js_object :=
        {[ "applicationStatus" := VStr ApplicationStatus.CLEARED ]} in
      call (EvSetState newState) (cache_setState env newState)
    else
      let key := template organisationId +:+ ":" +:+ template grantId in
      call (EvUpdateApplicationStatus newStatus key)
           (updateApplicationStatus env newStatus key).

(** [shouldContinueDefault(gasStatus, newStatus, previousStatus)] *)
Definition shouldContinueDefault (gas : string) (newStatus : option string)
    (previousStatus : string) : bool :=
  (bool_decide (gas = "AWAITING_AMENDMENTS")
     && bool_decide (newStatus = Some "REOPENED")
     && negb (bool_decide (previousStatus = "SUBMITTED")))
  || (bool_decide (gas = "APPLICATION_WITHDRAWN")
        && bool_decide (newStatus = Some "CLEARED")
        && negb (bool_decide (previousStatus ∈ ["SUBMITTED"; "REOPENED"]))).

(** [hasMeaningfulState(state)] *)
Definition hasMeaningfulState (state : js_object) : bool :=
  let baseStateKeys : gset string :=
    list_to_set ["$$__referenceNumber"; "applicationStatus"; "applicant"] in
  let farmPaymentsStateKeys : list string :=
    ["selectedLandParcel"; "payment"; "draftApplicationAnnualTotalPence"] in
  let baseStateKeys := foldl (fun keys key => {[ key ]} ∪ keys) baseStateKeys farmPaymentsStateKeys in
  let baseStateKeys :=
    if Nat.eqb (Object_keys_length (or_empty_object (get_field state "landParcels"))) 0
    then {[ "landParcels" ]} ∪ baseStateKeys
    else baseStateKeys in
  existsb (fun k => negb (bool_decide (k ∈ baseStateKeys))) (Object_keys state).

(** [isFormsStartPage(request, context)] *)
Definition isFormsStartPage (request : Request) (context : Context) : bool :=
  let slug := params_slug request in
  let startPath := context_startPath context in
  let currentPath := path request in
  if falsy slug || falsy startPath then false
  else bool_decide (currentPath = "/" +:+ template slug +:+ template startPath).

(** [isTasklistPage(request)] *)
Definition isTasklistPage (request : Request) : bool :=
  bool_decide (is_Some (request_tasklistId request)).

(** [preSubmissionRedirect(request, h, context)]; the property reads on
    [undefined] throw before the state is looked at. *)
Definition preSubmissionRedirect (request : Request) (context : Context) : M response :=
  let grantId := params_slug request in
  match request_grantRedirectRules request with
  | None => throw (TypeError "preSubmission")
  | Some rules =>
      match preSubmission rules with
      | None => throw (TypeError "0")
      | Some [] => throw (TypeError "toPath")
      | Some (preSubmissionRedirectRule :: _) =>
          match pre_toPath preSubmissionRedirectRule with
          | None => throw (TypeError "startsWith")
          | Some toPath =>
              let preSubmissionRedirectUrl :=
                if JS.startsWith "/" toPath
                then "/" +:+ template grantId +:+ toPath
                else "/" +:+ template grantId +:+ "/" +:+ toPath in
              if hasMeaningfulState (state context)
                 && isFormsStartPage request context
                 && negb (isTasklistPage request)
              then mret (Redirect preSubmissionRedirectUrl)
              else mret Continue
          end
      end
  end.

(** [shouldHandlePreSubmission(previousStatus)] *)
Definition shouldHandlePreSubmission (previousStatus : js_value) : bool :=
  negb (truthy previousStatus)
  || is_string previousStatus ApplicationStatus.CLEARED
  || is_string previousStatus ApplicationStatus.REOPENED.

(** [buildRedirectUrl(grantId, path)] *)
Definition buildRedirectUrl (grantId path : string) : string :=
  if JS.startsWith "/" path
  then "/" +:+ grantId +:+ path
  else "/" +:+ grantId +:+ "/" +:+ path.

(** A value or the error that explains its absence, as a computation. *)
Definition lift {A} (o : outcome A) : M A := fun tr => (o, tr).

(** [path.startsWith] on a [toPath] the rule may not have. *)
Definition required_path (toPath : option string) : M string :=
  match toPath with
  | Some p => mret p
  | None => throw (TypeError "startsWith")
  end.

(** The destination of a matched rule in [handlePostSubmission]:
    [rule.toPath === agreements.get('baseUrl') ? rule.toPath
     : buildRedirectUrl(grantId, rule.toPath)] *)
Definition redirectUrl_of_rule (grantId : option string) (rule : RedirectRule) : M string :=
  if decide (toPath rule = Some (agreements_baseUrl env))
  then mret (agreements_baseUrl env)
  else
    toPath ← required_path (toPath rule);
    mret (buildRedirectUrl (template grantId) toPath).

(** [handlePostSubmission(request, h, context, previousStatus, grantCode,
    grantRedirectRules)] *)
Definition handlePostSubmission (request : Request) (context : Context)
    (previousStatus grantCode : string)
    (grantRedirectRules : option GrantRedirectRules) : M response :=
  let grantId := params_slug request in
  let ref := JS.toLowerCase (referenceNumber context) in
  gas ← call (EvGetApplicationStatus grantCode ref)
             (getApplicationStatus env grantCode ref);
  let postSubmissionRules := postSubmission_or_empty grantRedirectRules in
  rule ← lift (mapStatusToUrl previousStatus gas postSubmissionRules);
  _ ← persistStatus request (toGrantsStatus rule) previousStatus grantId;
  if shouldContinueDefault gas (toGrantsStatus rule) previousStatus
  then mret Continue
  else
    redirectUrl ← redirectUrl_of_rule grantId rule;
    if decide (path request = redirectUrl)
    then mret Continue
    else mret (Redirect redirectUrl).

(** [handlePostSubmissionError(err, request, h, context, grantId,
    grantCode, grantRedirectRules)] *)
Definition handlePostSubmissionError (err : JsError) (request : Request)
    (context : Context) (grantId grantCode : string)
    (grantRedirectRules : option GrantRedirectRules) : M response :=
  if decide (err_status err = Some statusCodes.notFound) then mret Continue
  else
    _ ← call (EvLog grantCode (referenceNumber context) (err_message err))
             (Returned tt);
    fallbackRule ←
      lift (mapStatusToUrl "default" "default"
              (postSubmission_or_empty grantRedirectRules));
    toPath ← required_path (toPath fallbackRule);
    let fallbackUrl := buildRedirectUrl grantId toPath in
    if decide (path request = fallbackUrl)
    then mret Continue
    else mret (Redirect fallbackUrl).

(** [getGrantCode(request)] *)
Definition getGrantCode (request : Request) : outcome string :=
  match request_grantCode request with
  | Some grantCode =>
      if String.eqb grantCode ""
      then Thrown (Error "grantCode missing from request.app.model.def.metadata.submission")
      else Returned grantCode
  | None => Thrown (Error "grantCode missing from request.app.model.def.metadata.submission")
  end.

(** [formsStatusCallback(request, h, context)] *)
Definition formsStatusCallback (request : Request) (context : Context) : M response :=
  match params_slug request with
  | None => mret Continue
  | Some grantId =>
      if String.eqb grantId "" then mret Continue
      else
        grantCode ← lift (getGrantCode request);
        let previousStatus := get_field (state context) "applicationStatus" in
        let grantRedirectRules := request_grantRedirectRules request in
        if shouldHandlePreSubmission previousStatus
        then preSubmissionRedirect request context
        else
          match previousStatus with
          | VStr previousStatus =>
              if negb (bool_decide (previousStatus = "SUBMITTED")) then mret Continue
              else
                try_catch
                  (handlePostSubmission request context previousStatus grantCode
                     grantRedirectRules)
                  (fun err =>
                     handlePostSubmissionError err request context grantId grantCode
                       grantRedirectRules)
          | _ => mret Continue
          end
  end.

End StatusHelper.

(** ** Start-up validation of the rule tables *)

Module FormService.

(** Why [validateGrantRedirectRules] throws. *)
Inductive ConfigError : Type :=
| InvalidPreSubmissionRules      (* "Invalid redirect rules ... Expected one rule with toPath property." *)
| InvalidPostSubmissionRules     (* "Invalid redirect rules in form ..." *)
| NoPostSubmissionRules          (* "... no postSubmission redirect rules defined" *)
| MissingFallbackRule.           (* "... missing default/default fallback rule in postSubmission" *)

Inductive validation : Type :=
| Accepted
| Rejected (why : ConfigError).

(** [Joi.string().required()]: present and not empty. *)
Definition joi_string (v : option string) : bool :=
  negb (falsy v).

(** [Joi.string().pattern(/^\/.*/).required()] *)
Definition joi_path (v : option string) : bool :=
  match v with
  | Some p => negb (String.eqb p "") && JS.startsWith "/" p
  | None => false
  end.

Definition preSubmissionRuleSchema (rule : PreSubmissionRule) : bool :=
  joi_path (pre_toPath rule).

Definition postSubmissionRuleSchema (rule : RedirectRule) : bool :=
  joi_string (fromGrantsStatus rule)
  && joi_string (gasStatus rule)
  && joi_string (toGrantsStatus rule)
  && joi_path (toPath rule).

(** [validateGrantRedirectRules(form, definition)], on
    [definition.metadata]. *)
Definition validateGrantRedirectRules (definition_metadata : option Metadata) : validation :=
  let redirectRules := definition_metadata ≫= grantRedirectRules in
  let preSubmission := default [] (redirectRules ≫= preSubmission) in
  let postSubmission := default [] (redirectRules ≫= postSubmission) in
  if negb (forallb preSubmissionRuleSchema preSubmission && Nat.eqb (length preSubmission) 1)
  then Rejected InvalidPreSubmissionRules
  else if negb (forallb postSubmissionRuleSchema postSubmission)
  then Rejected InvalidPostSubmissionRules
  else if Nat.eqb (length postSubmission) 0
  then Rejected NoPostSubmissionRules
  else
    let hasFallbackRule :=
      existsb (fun rule =>
                 bool_decide (fromGrantsStatus rule = Some "default")
                 && bool_decide (gasStatus rule = Some "default"))
              postSubmission in
    if negb hasFallbackRule then Rejected MissingFallbackRule else Accepted.

End FormService.

(** ** Loading the forms at start-up *)

Module FormStartup.

(** [definition.metadata]: the whitelist variables beside the fields
    [Metadata] holds. *)
Record DefinitionMetadata := mkDefinitionMetadata {
  whitelistCrnEnvVar : option string;
  whitelistSbiEnvVar : option string;
  grant_metadata : Metadata
}.

Record FormDefinition := mkDefinition {
  definition_name : option string;           (* definition.name *)
  definition_metadata : option DefinitionMetadata
}.

(** A discovered form, as [discoverFormsFromYaml] lists it. *)
Record Form := mkForm {
  form_path : string;
  form_id : option string;
  form_slug : string;
  form_title : option string
}.

(** [process.env]: the variables that are set, with their values. *)
Abbreviation environment := (gmap string string).

(** The properties every object inherits from [Object.prototype], which
    [process.env] has as its prototype: reading one of these names on
    [process.env] finds the inherited function (for [__proto__] the
    prototype itself) when no variable of that name is set. *)
Definition Object_prototype_properties : list string :=
  ["constructor"; "__defineGetter__"; "__defineSetter__"; "hasOwnProperty";
   "__lookupGetter__"; "__lookupSetter__"; "isPrototypeOf"; "propertyIsEnumerable";
   "toString"; "valueOf"; "__proto__"; "toLocaleString"].

(** What [process.env[name]] evaluates to. *)
Inductive env_property : Type :=
  | EnvString (value : string)   (* the value of a variable that is set *)
  | EnvInherited                 (* a property of [Object.prototype] *)
  | EnvUndefined.

(** [process.env[name]]: the variable's own value first, then the prototype
    chain.  Names are compared as written. *)
Definition process_env_get (process_env : environment) (name : string) : env_property :=
  match process_env !! name with
  | Some value => EnvString value
  | None =>
      if bool_decide (name ∈ Object_prototype_properties) then EnvInherited
      else EnvUndefined
  end.

(** [!property] *)
Definition env_falsy (property : env_property) : bool :=
  match property with
  | EnvString value => String.eqb value ""
  | EnvInherited => false
  | EnvUndefined => true
  end.

(** [a || b] on possibly undefined strings. *)
Definition or_else (a b : option string) : option string :=
  if falsy a then b else a.

(** [definition.name || form.title || 'unnamed'] *)
Definition formName (form : Form) (definition : FormDefinition) : string :=
  default "unnamed" (or_else (or_else (definition_name definition) (form_title form))
                             (Some "unnamed")).

(** [validateWhitelistVariableCompleteness(whitelistCrnEnvVar,
    whitelistSbiEnvVar, form, definition)] *)
Definition validateWhitelistVariableCompleteness (crn sbi : option string)
    (form : Form) (definition : FormDefinition) : outcome unit :=
  if (negb (falsy crn) && falsy sbi) || (falsy crn && negb (falsy sbi)) then
    let missingVar := if negb (falsy crn) then "whitelistSbiEnvVar" else "whitelistCrnEnvVar" in
    let presentVar := if negb (falsy crn) then "whitelistCrnEnvVar" else "whitelistSbiEnvVar" in
    Thrown (Error ("Incomplete whitelist configuration in form " +:+ formName form definition
                   +:+ ": " +:+ presentVar +:+ " is defined but " +:+ missingVar
                   +:+ " is missing. Both CRN and SBI whitelist variables must be configured together."))
  else Returned tt.

(** [validateCrnEnvironmentVariable] and [validateSbiEnvironmentVariable],
    which differ in the first word of the message. *)
Definition validateEnvironmentVariable (kind : string) (process_env : environment)
    (envVar : option string) (form : Form) (definition : FormDefinition) : outcome unit :=
  if negb (falsy envVar) && env_falsy (process_env_get process_env (template envVar)) then
    Thrown (Error (kind +:+ " whitelist environment variable " +:+ template envVar
                   +:+ " is defined in form " +:+ formName form definition
                   +:+ " but not configured in environment"))
  else Returned tt.

Definition validateCrnEnvironmentVariable := validateEnvironmentVariable "CRN".
Definition validateSbiEnvironmentVariable := validateEnvironmentVariable "SBI".

(** One statement after another, the first throw ending the sequence. *)
Definition and_then (first : outcome unit) (next : outcome unit) : outcome unit :=
  match first with
  | Returned _ => next
  | Thrown e => Thrown e
  end.

(** [validateWhitelistConfiguration(form, definition)] *)
Definition validateWhitelistConfiguration (process_env : environment)
    (form : Form) (definition : FormDefinition) : outcome unit :=
  match definition_metadata definition with
  | Some metadata =>
      let crn := whitelistCrnEnvVar metadata in
      let sbi := whitelistSbiEnvVar metadata in
      and_then (validateWhitelistVariableCompleteness crn sbi form definition)
        (and_then (validateCrnEnvironmentVariable process_env crn form definition)
                  (validateSbiEnvironmentVariable process_env sbi form definition))
  | None => Returned tt
  end.

(** The placeholder the shared rules use for the agreements service. *)
Definition AGREEMENTS_PLACEHOLDER : string := "__AGREEMENTS_BASE_URL__".

(** The callback of [rules.postSubmission.map] in [loadSharedRedirectRules]:
    [{...rule, toPath: rule.toPath === '__AGREEMENTS_BASE_URL__'
       ? agreements.get('baseUrl') : rule.toPath}] *)
Definition resolve_placeholder (baseUrl : string) (rule : RedirectRule) : RedirectRule :=
  mkRule (fromGrantsStatus rule) (gasStatus rule) (toGrantsStatus rule)
         (if decide (toPath rule = Some AGREEMENTS_PLACEHOLDER)
          then Some baseUrl else toPath rule).

(** [loadSharedRedirectRules()], from the parsed [sharedRedirectRules] of the
    YAML file. *)
Definition loadSharedRedirectRules (baseUrl : string)
    (sharedRedirectRules : option GrantRedirectRules) : GrantRedirectRules :=
  let rules := default (mkRules None None) sharedRedirectRules in
  match postSubmission rules with
  | Some rulesPostSubmission =>
      mkRules (preSubmission rules) (Some (resolve_placeholder baseUrl <$> rulesPostSubmission))
  | None => rules
  end.



(** What [addAllForms] does besides returning. *)
Inductive loader_event : Type :=
| EvWarn (message : string)
| EvAddForm (form : Form).

(** [`${form.id}-${form.slug}`] *)
Definition form_key (form : Form) : string :=
  template (form_id form) +:+ "-" +:+ form_slug form.

(** The [forms.filter] of [addAllForms] with its set [addedForms]: the forms
    kept, the warnings logged and the set at the end. *)
Fixpoint filter_unique (addedForms : gset string) (forms : list Form)
  : list Form * list loader_event * gset string :=
  match forms with
  | [] => ([], [], addedForms)
  | form :: rest =>
      let key := form_key form in
      if decide (key ∈ addedForms) then
        let '(kept, warnings, final) := filter_unique addedForms rest in
        (kept,
         EvWarn ("Skipping duplicate form: " +:+ form_slug form +:+ " with id "
                 +:+ template (form_id form)) :: warnings,
         final)
      else
        let '(kept, warnings, final) := filter_unique ({[ key ]} ∪ addedForms) rest in
        (form :: kept, warnings, final)
  end.

(** The first rejection among the answers of [loader.addForm], in the order
    of the calls. *)
Fixpoint all_settled (answers : list (outcome unit)) : outcome unit :=
  match answers with
  | [] => Returned tt
  | Returned _ :: rest => all_settled rest
  | Thrown e :: _ => Thrown e
  end.

(** [addAllForms(loader, forms)]: its result and the warnings and
    [loader.addForm] calls it makes, in their order. *)
Definition addAllForms (loader_addForm : Form → outcome unit) (forms : list Form)
  : outcome nat * list loader_event :=
  let '(uniqueForms, warnings, addedForms) := filter_unique ∅ forms in
  let calls := EvAddForm <$> uniqueForms in
  match all_settled (loader_addForm <$> uniqueForms) with
  | Returned _ => (Returned (size addedForms), warnings ++ calls)
  | Thrown e => (Thrown e, warnings ++ calls)
  end.

End FormStartup.

(** ** Configuring a form definition *)

Module FormDefinitions.

(** [String.prototype.replace] with a string pattern, in three steps: the
    first occurrence of the pattern, the substitution the replacement text
    stands for, and the result. *)

(** The text before and after the first occurrence of [pattern] in [s]. *)
Fixpoint split_at_first (pattern s : string) : option (string * string) :=
  match JS.strip_prefix pattern s with
  | Some after => Some ("", after)
  | None =>
      match s with
      | EmptyString => None
      | String c rest =>
          match split_at_first pattern rest with
          | Some (before, after) => Some (String c before, after)
          | None => None
          end
      end
  end.

(** [GetSubstitution] without capture groups: [$$] is a dollar sign, [$&]
    the matched text, [$`] the text before it and [$'] the text after it;
    every other character stands for itself. *)
Fixpoint getSubstitution (matched before after template : string) : string :=
  match template with
  | EmptyString => EmptyString
  | String c rest =>
      if Ascii.eqb c "$" then
        match rest with
        | String d rest' =>
            if Ascii.eqb d "$" then String "$" (getSubstitution matched before after rest')
            else if Ascii.eqb d "&" then matched +:+ getSubstitution matched before after rest'
            else if Ascii.eqb d "`" then before +:+ getSubstitution matched before after rest'
            else if Ascii.eqb d "'" then after +:+ getSubstitution matched before after rest'
            else String "$" (getSubstitution matched before after rest)
        | EmptyString => String "$" EmptyString
        end
      else String c (getSubstitution matched before after rest)
  end.

(** [s.replace(pattern, replacement)] *)
Definition replace (pattern replacement s : string) : string :=
  match split_at_first pattern s with
  | Some (before, after) =>
      before +:+ getSubstitution pattern before after replacement +:+ after
  | None => s
  end.

(** A page of a definition, as far as its events go. *)
Record Options := mkOptions {
  url : option string
}.

Record EventHandler := mkHandler {
  options : option Options
}.

Record Events := mkEvents {
  onLoad : option EventHandler
}.

Record Page := mkPage {
  events : option Events
}.

Definition LOCAL_SCORING_URL : string :=
  "http://ffc-grants-scoring:3002/scoring/api/v1/adding-value/score?allowPartialScoring=true".

Definition with_url (newUrl : string) : Page :=
  mkPage (Some (mkEvents (Some (mkHandler (Some (mkOptions (Some newUrl))))))).

(** The body of the loop of [configureFormDefinition] for one page: the
    page afterwards, or the error of reading [url] on missing options, and
    the warnings logged.  A page whose events hold more than [onLoad] keeps
    them; they are not part of [Page]. *)
Definition configure_page (environment : string) (page : Page)
  : outcome Page * list string :=
  match events page with
  | None => (Returned page, [])
  | Some pageEvents =>
      match onLoad pageEvents with
      | None => (Returned page, ["Unexpected environment value: " +:+ environment])
      | Some handler =>
          match options handler with
          | None => (Thrown (TypeError "url"), [])
          | Some handlerOptions =>
              if negb (falsy (url handlerOptions))
                 && negb (bool_decide (environment = "local"))
              then (Returned (with_url (replace "cdpEnvironment" environment
                                          (template (url handlerOptions)))), [])
              else if negb (falsy (url handlerOptions))
                      && bool_decide (environment = "local")
              then (Returned (with_url LOCAL_SCORING_URL), [])
              else (Returned page, ["Unexpected environment value: " +:+ environment])
          end
      end
  end.

(** The loop over the pages. *)
Fixpoint configure_pages (environment : string) (pages : list Page)
  : outcome (list Page) * list string :=
  match pages with
  | [] => (Returned [], [])
  | page :: rest =>
      match configure_page environment page with
      | (Returned page', warnings) =>
          match configure_pages environment rest with
          | (Returned rest', warnings') => (Returned (page' :: rest'), warnings ++ warnings')
          | (Thrown e, warnings') => (Thrown e, warnings ++ warnings')
          end
      | (Thrown e, warnings) => (Thrown e, warnings)
      end
  end.

(** [configureFormDefinition(definition)], on [definition.pages], with the
    [cdpEnvironment] of the configuration. *)
Definition configureFormDefinition (environment : string) (pages : option (list Page))
  : outcome (option (list Page)) * list string :=
  match pages with
  | None => (Returned None, [])
  | Some pages =>
      match configure_pages environment pages with
      | (Returned pages', warnings) => (Returned (Some pages'), warnings)
      | (Thrown e, warnings) => (Thrown e, warnings)
      end
  end.

End FormDefinitions.

(** ** The fixtures of [status-helper.test.js] *)

Module Fixtures.

Definition AGREEMENTS_BASE_URL : string := "/agreement".

Definition postSubmissionRules : list RedirectRule :=
  [ mkRule (Some "SUBMITTED,REOPENED") (Some "APPLICATION_WITHDRAWN") (Some "CLEARED") (Some "/start");
    mkRule (Some "SUBMITTED") (Some "AWAITING_AMENDMENTS") (Some "REOPENED") (Some "/summary");
    mkRule (Some "REOPENED") (Some "default") (Some "REOPENED") (Some "/summary");
    mkRule (Some "SUBMITTED") (Some "OFFER_SENT,OFFER_WITHDRAWN,OFFER_ACCEPTED")
           (Some "SUBMITTED") (Some AGREEMENTS_BASE_URL);
    mkRule (Some "SUBMITTED") (Some "default") (Some "SUBMITTED") (Some "/confirmation");
    mkRule (Some "default") (Some "default") (Some "SUBMITTED") (Some "/confirmation") ].

Definition grantMetadata : Metadata :=
  mkMetadata (Some "grant-a-code") None
    (Some (mkRules (Some [mkPreRule (Some "/check-selected-land-actions")])
                   (Some postSubmissionRules))).

Definition request (slug currentPath : string) : Request :=
  mkRequest (Some slug) currentPath (Some grantMetadata) (Some "12345").

Definition context (state : js_object) : Context :=
  mkContext (Some ["/start"; "/confirmation"]) "REF-001" state.

Definition status_only (status : string) : js_object :=
  {[ "applicationStatus" := VStr status ]}.

(** GAS answers every query with the given status. *)
Definition gas_returns (status : string) : Env :=
  mkEnv AGREEMENTS_BASE_URL (fun _ _ => Returned status)
        (fun _ => Returned tt) (fun _ _ => Returned tt).

(** GAS fails every query with the given error. *)
Definition gas_throws (err : JsError) : Env :=
  mkEnv AGREEMENTS_BASE_URL (fun _ _ => Thrown err)
        (fun _ => Returned tt) (fun _ _ => Returned tt).

End Fixtures.

(** * Vocabulary of the properties *)

(** The trimmed pieces of a status field, in the order written. *)
Definition status_list (field : option string) : list string :=
  JS.trim <$> JS.split "," (or_default field).

(** A rule applies to a pair of statuses when each of its two fields lists
    the status or lists [default]. *)
Definition rule_applies (fromStatus gas : string) (rule : RedirectRule) : Prop :=
  (fromStatus ∈ status_list (fromGrantsStatus rule)
   ∨ "default" ∈ status_list (fromGrantsStatus rule))
  ∧ (gas ∈ status_list (gasStatus rule)
     ∨ "default" ∈ status_list (gasStatus rule)).

(** The condition as the specification words it: the GAS field of the rule
    is compared as a whole. *)
Definition rule_applies_whole_gas (fromStatus gas : string) (rule : RedirectRule) : Prop :=
  (fromStatus ∈ status_list (fromGrantsStatus rule)
   ∨ "default" ∈ status_list (fromGrantsStatus rule))
  ∧ (gasStatus rule = Some gas ∨ gasStatus rule = Some "default").

(** The universal fallback of a rule table. *)
Definition is_fallback (rule : RedirectRule) : Prop :=
  fromGrantsStatus rule = Some "default" ∧ gasStatus rule = Some "default".

(** The key [updateApplicationStatus] is given:
    [`${organisationId}:${grantId}`]. *)
Definition identity_key (request : Request) (grantId : option string) : string :=
  template (credentials_sbi request) +:+ ":" +:+ template grantId.

(** The state [persistStatus] hands to [setState] for CLEARED. *)
Definition cleared_state : js_object :=
  {[ "applicationStatus" := VStr "CLEARED" ]}.

(** The request is for a grant page: the route has a slug and the grant's
    metadata names its grant code. *)
Definition served (request : Request) (slug grantCode : string) : Prop :=
  params_slug request = Some slug ∧ slug ≠ ""
  ∧ request_grantCode request = Some grantCode ∧ grantCode ≠ "".

(** The post-submission rule table of the request's grant. *)
Definition post_rules (request : Request) : list RedirectRule :=
  postSubmission_or_empty (request_grantRedirectRules request).

Definition previous_status (context : Context) : js_value :=
  get_field (state context) "applicationStatus".

(** The GAS query of a request. *)
Definition gas_query (grantCode : string) (context : Context) : event :=
  EvGetApplicationStatus grantCode (JS.toLowerCase (referenceNumber context)).

(** The keys [hasMeaningfulState] always disregards. *)
Definition bookkeeping_keys : list string :=
  ["$$__referenceNumber"; "applicationStatus"; "applicant";
   "selectedLandParcel"; "payment"; "draftApplicationAnnualTotalPence"].

(** A [landParcels] value without a single entry. *)
Definition no_entries (v : js_value) : Prop :=
  Object_keys_length (or_empty_object v) = 0.

(** The state holds a field that is neither a bookkeeping key nor a
    [landParcels] without entries. *)
Definition meaningful_state (state : js_object) : Prop :=
  ∃ k v, state !! k = Some v
         ∧ (k ∉ bookkeeping_keys)
         ∧ ¬ (k = "landParcels" ∧ no_entries v).

(** The condition as the specification words it: any field beyond the
    reference number and the status. *)
Definition beyond_reference_and_status (state : js_object) : Prop :=
  ∃ k v, state !! k = Some v ∧ k ∉ ["$$__referenceNumber"; "applicationStatus"].

(** The request is for [/{slug}{startPath}], the first configured path. *)
Definition targets_start_page (request : Request) (context : Context) : Prop :=
  ∃ slug startPath,
    params_slug request = Some slug ∧ slug ≠ ""
    ∧ context_startPath context = Some startPath ∧ startPath ≠ ""
    ∧ path request = "/" +:+ slug +:+ startPath.

(** The previous status is unset (absent or otherwise falsy), CLEARED or
    REOPENED. *)
Definition pre_submission (previousStatus : js_value) : Prop :=
  truthy previousStatus = false
  ∨ previousStatus = VStr "CLEARED"
  ∨ previousStatus = VStr "REOPENED".

(** The grant's pre-submission rule list starts with a rule to [resumePath]. *)
Definition resumes_at (request : Request) (resumePath : string) : Prop :=
  ∃ rules others,
    request_grantRedirectRules request = Some rules
    ∧ preSubmission rules = Some (mkPreRule (Some resumePath) :: others).

(** The guard's three tests, together. *)
Definition should_resume (request : Request) (context : Context) : Prop :=
  meaningful_state (state context)
  ∧ targets_start_page request context
  ∧ request_tasklistId request = None.

(** The request at another path. *)
Definition with_path (url : string) (request : Request) : Request :=
  mkRequest (params_slug request) url (metadata request) (credentials_sbi request).

(** The destination of a rule to [toPath]: the agreements base URL as it
    is, any other path under the grant slug. *)
Definition destination (baseUrl slug toPath : string) : string :=
  if decide (toPath = baseUrl) then toPath else buildRedirectUrl slug toPath.

(** [definition.metadata?.grantRedirectRules?.preSubmission ?? []] *)
Definition configured_preSubmission (definition_metadata : option Metadata)
  : list PreSubmissionRule :=
  default [] ((definition_metadata ≫= grantRedirectRules) ≫= preSubmission).

(** [definition.metadata?.grantRedirectRules?.postSubmission ?? []] *)
Definition configured_postSubmission (definition_metadata : option Metadata)
  : list RedirectRule :=
  default [] ((definition_metadata ≫= grantRedirectRules) ≫= postSubmission).

(** The three kinds of external call. *)
Definition is_gas_query (ev : event) : Prop :=
  ∃ grantCode ref, ev = EvGetApplicationStatus grantCode ref.

Definition is_status_write (ev : event) : Prop :=
  (∃ newState, ev = EvSetState newState)
  ∨ (∃ newStatus key, ev = EvUpdateApplicationStatus newStatus key).

Definition is_log_entry (ev : event) : Prop :=
  ∃ grantType referenceNumber error, ev = EvLog grantType referenceNumber error.

(** The calls one reconciliation may make, in their order: nothing; or the
    GAS query, then at most one status write, then at most one log entry. *)
Definition reconciliation_calls (calls : list event) : Prop :=
  calls = []
  ∨ ∃ query, is_gas_query query
      ∧ (calls = [query]
         ∨ (∃ write, is_status_write write ∧ calls = [query; write])
         ∨ (∃ entry, is_log_entry entry ∧ calls = [query; entry])
         ∨ (∃ write entry, is_status_write write ∧ is_log_entry entry
                           ∧ calls = [query; write; entry])).

(** The string holds no occurrence of the character. *)
Definition free_of (c : ascii) (s : string) : Prop :=
  c ∉ list_ascii_of_string s.

(** [pieces.join(sep)] *)
Definition join (sep : string) (pieces : list string) : string :=
  String.concat sep pieces.

(** A possibly undefined string that is absent or empty. *)
Definition unset (v : option string) : Prop :=
  v = None ∨ v = Some "".

(** No variable of that name is set, and the name is one every object
    inherits from [Object.prototype]. *)
Definition inherited_name (process_env : FormStartup.environment) (name : string) : Prop :=
  process_env !! name = None ∧ name ∈ FormStartup.Object_prototype_properties.

(** The variable is named and [process.env] has something truthy under the
    name: a non-empty value the environment gives it or, when the
    environment gives it none, an inherited property. *)
Definition set_in (process_env : FormStartup.environment) (v : option string) : Prop :=
  ∃ name,
    v = Some name ∧ name ≠ ""
    ∧ ((∃ value, process_env !! name = Some value ∧ value ≠ "")
       ∨ inherited_name process_env name).

(** Both whitelist variables are left out, or both are named and set. *)
Definition whitelist_configured (process_env : FormStartup.environment)
    (metadata : FormStartup.DefinitionMetadata) : Prop :=
  (unset (FormStartup.whitelistCrnEnvVar metadata)
   ∧ unset (FormStartup.whitelistSbiEnvVar metadata))
  ∨ (set_in process_env (FormStartup.whitelistCrnEnvVar metadata)
     ∧ set_in process_env (FormStartup.whitelistSbiEnvVar metadata)).

(** The forms handed to [loader.addForm], in the order of the calls. *)
Definition added_forms (events : list FormStartup.loader_event) : list FormStartup.Form :=
  omap (fun ev => match ev with
                  | FormStartup.EvAddForm form => Some form
                  | FormStartup.EvWarn _ => None
                  end) events.

(** The warnings logged, in their order. *)
Definition warnings_logged (events : list FormStartup.loader_event) : list string :=
  omap (fun ev => match ev with
                  | FormStartup.EvWarn message => Some message
                  | FormStartup.EvAddForm _ => None
                  end) events.

(** [page.events?.onLoad?.options?.url] *)
Definition page_url (page : FormDefinitions.Page) : option string :=
  pageEvents ← FormDefinitions.events page;
  handler ← FormDefinitions.onLoad pageEvents;
  handlerOptions ← FormDefinitions.options handler;
  FormDefinitions.url handlerOptions.

(** The page has an [onLoad] handler without options. *)
Definition onLoad_without_options (page : FormDefinitions.Page) : Prop :=
  ∃ pageEvents,
    FormDefinitions.events page = Some pageEvents
    ∧ FormDefinitions.onLoad pageEvents = Some (FormDefinitions.mkHandler None).

(** The page has events but no [onLoad] URL to configure. *)
Definition events_without_url (page : FormDefinitions.Page) : Prop :=
  is_Some (FormDefinitions.events page) ∧ unset (page_url page).

#[local] Instance events_without_url_dec (page : FormDefinitions.Page) :
  Decision (events_without_url page).
Proof. unfold events_without_url, unset. apply _. Defined.

(** The pattern occurs in the string. *)
Definition occurs_in (pattern s : string) : Prop :=
  ∃ before after, s = before +:+ pattern +:+ after.

(** [s] is [before], the pattern and [after], and the pattern occurs nowhere
    earlier in [s]. *)
Definition first_occurrence (pattern before after s : string) : Prop :=
  s = before +:+ pattern +:+ after
  ∧ ∀ before' after',
      s = before' +:+ pattern +:+ after' →
      (String.length before ≤ String.length before')%nat.

(** The warning of [configureFormDefinition]. *)
Definition unexpected_environment (environment : string) : string :=
  "Unexpected environment value: " +:+ environment.

(** The error [getGrantCode] throws. *)
Definition grantCode_missing : JsError :=
  Error "grantCode missing from request.app.model.def.metadata.submission".

(** * Properties *)

(** Unfolds the operations of [M] so that a computation runs on its trace. *)
Create HintDb run.
#[local] Hint Unfold mbind M_bind bind mret M_ret ret call lift throw try_catch
  required_path : run.

Ltac run := autounfold with run; simpl.

(** ** The test-suite, replayed *)

(** 'redirects when newStatus path differs from current path' and
    'continues when request path matches redirect path' *)
Example received_redirects_to_confirmation :
  formsStatusCallback (Fixtures.gas_returns "RECEIVED")
    (Fixtures.request "grant-a" "/grant-a/start")
    (Fixtures.context (Fixtures.status_only "SUBMITTED")) []
  = (Returned (Redirect "/grant-a/confirmation"),
     [EvGetApplicationStatus "grant-a-code" "ref-001"])
  ∧ formsStatusCallback (Fixtures.gas_returns "RECEIVED")
      (Fixtures.request "grant-a" "/grant-a/confirmation")
      (Fixtures.context (Fixtures.status_only "SUBMITTED")) []
    = (Returned Continue, [EvGetApplicationStatus "grant-a-code" "ref-001"]).
Proof. by vm_compute. Qed.

(** 'updates status to REOPENED when awaiting amendments and previous is
    SUBMITTED' *)
Example awaiting_amendments_reopens :
  formsStatusCallback (Fixtures.gas_returns "AWAITING_AMENDMENTS")
    (Fixtures.request "grant-a" "/grant-a/start")
    (Fixtures.context (Fixtures.status_only "SUBMITTED")) []
  = (Returned (Redirect "/grant-a/summary"),
     [EvGetApplicationStatus "grant-a-code" "ref-001";
      EvUpdateApplicationStatus (Some "REOPENED") "12345:grant-a"]).
Proof. by vm_compute. Qed.

(** 'sets CLEARED state when GAS returns APPLICATION_WITHDRAWN from SUBMITTED
    grant status' *)
Example withdrawn_clears :
  formsStatusCallback (Fixtures.gas_returns "APPLICATION_WITHDRAWN")
    (Fixtures.request "grant-a" "/grant-a/start")
    (Fixtures.context (Fixtures.status_only "SUBMITTED")) []
  = (Returned Continue,
     [EvGetApplicationStatus "grant-a-code" "ref-001";
      EvSetState (Fixtures.status_only "CLEARED")]).
Proof. by vm_compute. Qed.

(** 'redirects farm-payments to /agreement when GAS status is OFFER_SENT' *)
Example offer_sent_goes_to_agreements :
  formsStatusCallback (Fixtures.gas_returns "OFFER_SENT")
    (Fixtures.request "farm-payments" "/farm-payments/start")
    (Fixtures.context (Fixtures.status_only "SUBMITTED")) []
  = (Returned (Redirect "/agreement"),
     [EvGetApplicationStatus "grant-a-code" "ref-001"]).
Proof. by vm_compute. Qed.

(** 'continues when getApplicationStatus throws 404' and 'redirects to
    fallback and logs on unexpected error' *)
Example gas_failures :
  formsStatusCallback (Fixtures.gas_throws (mkError (Some 404%Z) "not found"))
    (Fixtures.request "grant-a" "/grant-a/start")
    (Fixtures.context (Fixtures.status_only "SUBMITTED")) []
  = (Returned Continue, [EvGetApplicationStatus "grant-a-code" "ref-001"])
  ∧ formsStatusCallback (Fixtures.gas_throws (Error "server error"))
      (Fixtures.request "grant-a" "/grant-a/start")
      (Fixtures.context (Fixtures.status_only "SUBMITTED")) []
    = (Returned (Redirect "/grant-a/confirmation"),
       [EvGetApplicationStatus "grant-a-code" "ref-001";
        EvLog "grant-a-code" "REF-001" "server error"]).
Proof. by vm_compute. Qed.

(** 'redirects to "check answers" page if some saved state' *)
Example saved_state_resumes :
  formsStatusCallback (Fixtures.gas_returns "RECEIVED")
    (Fixtures.request "grant-a" "/grant-a/start")
    (Fixtures.context (<["question" := VStr "answer"]> (Fixtures.status_only "CLEARED"))) []
  = (Returned (Redirect "/grant-a/check-selected-land-actions"), []).
Proof. by vm_compute. Qed.

Example split_ex : JS.split "," "SUBMITTED, REOPENED" = ["SUBMITTED"; " REOPENED"].
Proof. reflexivity. Qed.

Example trim_ex : JS.trim "  REOPENED  " = "REOPENED".
Proof. by vm_compute. Qed.

Example buildRedirectUrl_ex :
  buildRedirectUrl "grant-a" "/summary" = "/grant-a/summary"
  ∧ buildRedirectUrl "grant-a" "summary" = "/grant-a/summary".
Proof. by vm_compute. Qed.

(** ** Trimming terminates within its fuel *)

Lemma strip_prefix_length (p s rest : string) :
  JS.strip_prefix p s = Some rest →
  String.length s = String.length p + String.length rest.
Proof.
  revert s. induction p as [|a p IH]; intros [|b s]; simpl; try done.
  - by intros [= <-].
  - by intros [= <-].
  - destruct (Ascii.eqb a b); [|done]. intros Hrest. by rewrite (IH _ Hrest).
Qed.

Lemma strip_any_shorter (ps : list string) (s rest : string) :
  Forall (fun p => p ≠ "") ps →
  JS.strip_any ps s = Some rest →
  (String.length rest < String.length s)%nat.
Proof.
  induction 1 as [|p ps Hp _ IH]; simpl; [done|].
  destruct (JS.strip_prefix p s) as [r|] eqn:Hstrip; [|exact IH].
  intros [= ->]. apply strip_prefix_length in Hstrip.
  destruct p; [done|]. simpl in Hstrip. lia.
Qed.

(** With fuel for every character, [strip_all] stops because nothing is
    left to strip, not because the fuel is spent. *)
Lemma strip_all_exhaustive (fuel : nat) (ps : list string) (s : string) :
  Forall (fun p => p ≠ "") ps →
  (String.length s ≤ fuel)%nat →
  JS.strip_any ps (JS.strip_all fuel ps s) = None.
Proof.
  intros Hps. revert s. induction fuel as [|fuel IH]; intros s Hlen; simpl.
  - destruct s; [|simpl in Hlen; lia].
    clear Hlen. induction Hps as [|p ps Hp _ IHps]; simpl; [done|].
    by destruct p.
  - destruct (JS.strip_any ps s) as [rest|] eqn:Hstrip; [|done].
    apply IH. apply (strip_any_shorter _ _ _ Hps) in Hstrip. lia.
Qed.

Lemma white_space_nonempty : Forall (fun p => p ≠ "") JS.white_space.
Proof. vm_compute. repeat constructor; discriminate. Qed.

Lemma trimStart_exhaustive (s : string) :
  JS.strip_any JS.white_space (JS.trimStart s) = None.
Proof. apply strip_all_exhaustive; [apply white_space_nonempty | done]. Qed.

(** ** Rule matching *)

Lemma status_set_list field x : x ∈ status_set field ↔ x ∈ status_list field.
Proof. unfold status_set, status_list. apply elem_of_list_to_set. Qed.

Lemma rule_matches_applies fromStatus gas rule :
  rule_matches fromStatus gas rule = true ↔ rule_applies fromStatus gas rule.
Proof.
  unfold rule_matches, rule_applies.
  rewrite andb_true_iff, !orb_true_iff, !bool_decide_eq_true, !status_set_list.
  reflexivity.
Qed.

Lemma rule_matches_not_applies fromStatus gas rule :
  rule_matches fromStatus gas rule = false ↔ ¬ rule_applies fromStatus gas rule.
Proof.
  rewrite <- rule_matches_applies. destruct (rule_matches _ _ _); split; intros H;
    try done; by destruct H.
Qed.

(** What [Array.prototype.find] returns: the first element the callback
    accepts, every earlier one being refused. *)
Lemma find_first {A} (P : A → bool) (l : list A) :
  match List.find P l with
  | Some x => ∃ l1 l2, l = l1 ++ x :: l2 ∧ P x = true ∧ Forall (fun y => P y = false) l1
  | None => Forall (fun y => P y = false) l
  end.
Proof.
  induction l as [|a l IH]; simpl.
  - constructor.
  - destruct (P a) eqn:Ha.
    + exists [], l. repeat split; [done | constructor].
    + destruct (List.find P l) as [x|].
      * destruct IH as (l1 & l2 & -> & Hx & Hl1).
        exists (a :: l1), l2. repeat split; [done | by constructor].
      * by constructor.
Qed.

Lemma fallback_applies fromStatus gas rule :
  is_fallback rule → rule_applies fromStatus gas rule.
Proof.
  intros [Hfrom Hgas]. unfold rule_applies. rewrite Hfrom, Hgas.
  split; right; vm_compute; left.
Qed.

(** When [mapStatusToUrl] throws, no rule of the table applies. *)
Lemma mapStatusToUrl_thrown (fromStatus gas : string) (rules : list RedirectRule) (e : JsError) :
  mapStatusToUrl fromStatus gas rules = Thrown e →
  ∀ r, r ∈ rules → ¬ rule_applies fromStatus gas r.
Proof.
  unfold mapStatusToUrl.
  pose proof (find_first (rule_matches fromStatus gas) rules) as Hfind.
  destruct (List.find _ rules) as [rule|]; [done|].
  intros _ r Hr. apply rule_matches_not_applies.
  rewrite Forall_forall in Hfind. by apply Hfind.
Qed.

(** C1 (as amended): [mapStatusToUrl] returns the first rule, in declaration
    order, whose from-list (the comma-separated [fromGrantsStatus], trimmed,
    an absent or empty field standing for [default]) contains the previous
    status or [default] and whose gas-list (the comma-separated [gasStatus],
    read the same way) contains the GAS status or [default]; no earlier rule
    applies, and it throws exactly when no rule applies. *)
Theorem mapStatusToUrl_first_applicable (fromStatus gas : string) (rules : list RedirectRule) :
  match mapStatusToUrl fromStatus gas rules with
  | Returned rule =>
      ∃ earlier later,
        rules = earlier ++ rule :: later
        ∧ rule_applies fromStatus gas rule
        ∧ ∀ r, r ∈ earlier → ¬ rule_applies fromStatus gas r
  | Thrown _ => ∀ r, r ∈ rules → ¬ rule_applies fromStatus gas r
  end.
Proof.
  pose proof (mapStatusToUrl_thrown fromStatus gas rules) as Hthrown.
  unfold mapStatusToUrl in *.
  pose proof (find_first (rule_matches fromStatus gas) rules) as Hfind.
  destruct (List.find _ rules) as [rule|].
  - destruct Hfind as (earlier & later & Hsplit & Hrule & Hearlier).
    exists earlier, later. split; [done|]. split; [by apply rule_matches_applies|].
    intros r Hr. apply rule_matches_not_applies.
    rewrite Forall_forall in Hearlier. by apply Hearlier.
  - by eapply Hthrown.
Qed.

(** C1 (counterexample): with the rule table of the test-suite, a SUBMITTED
    application whose GAS status is OFFER_SENT is given the offer rule,
    although that rule's [gasStatus] neither equals the GAS status nor is
    [default]. *)
Lemma mapStatusToUrl_gas_list_counterexample :
  let offer :=
    mkRule (Some "SUBMITTED") (Some "OFFER_SENT,OFFER_WITHDRAWN,OFFER_ACCEPTED")
           (Some "SUBMITTED") (Some "/agreement") in
  let fallback :=
    mkRule (Some "default") (Some "default") (Some "SUBMITTED") (Some "/confirmation") in
  mapStatusToUrl "SUBMITTED" "OFFER_SENT" [offer; fallback] = Returned offer
  ∧ ¬ rule_applies_whole_gas "SUBMITTED" "OFFER_SENT" offer
  ∧ rule_applies_whole_gas "SUBMITTED" "OFFER_SENT" fallback.
Proof.
  split; [by vm_compute|]. split.
  - intros [_ [H|H]]; discriminate H.
  - split; right; [vm_compute; left | reflexivity].
Qed.

(** C2: a rule table that holds a default/default rule makes
    [mapStatusToUrl] return a rule for every pair of statuses; it never
    throws there, so the error branch needs a table without the fallback. *)
Theorem mapStatusToUrl_total_with_fallback (fromStatus gas : string)
    (rules : list RedirectRule)
    (Hfallback : ∃ r, r ∈ rules ∧ is_fallback r) :
  (∃ rule, mapStatusToUrl fromStatus gas rules = Returned rule)
  ∧ (∀ e, mapStatusToUrl fromStatus gas rules ≠ Thrown e).
Proof.
  destruct Hfallback as (r & Hr & Hfb).
  pose proof (mapStatusToUrl_thrown fromStatus gas rules) as Hthrown.
  destruct (mapStatusToUrl fromStatus gas rules) as [rule|e].
  - split; [by exists rule | done].
  - exfalso. apply (Hthrown e eq_refl r Hr). by apply fallback_applies.
Qed.

(** A witness of C2 on the fallback rule alone and a status GAS has never
    sent before. *)
Lemma mapStatusToUrl_total_with_fallback_witness :
  (∃ r, r ∈ [mkRule (Some "default") (Some "default") (Some "SUBMITTED") (Some "/confirmation")]
        ∧ is_fallback r)
  ∧ (∃ rule,
        mapStatusToUrl "SUBMITTED" "SOMETHING_NEW"
          [mkRule (Some "default") (Some "default") (Some "SUBMITTED") (Some "/confirmation")]
        = Returned rule)
  ∧ (∀ e,
        mapStatusToUrl "SUBMITTED" "SOMETHING_NEW"
          [mkRule (Some "default") (Some "default") (Some "SUBMITTED") (Some "/confirmation")]
        ≠ Thrown e).
Proof.
  assert (∃ r, r ∈ [mkRule (Some "default") (Some "default") (Some "SUBMITTED") (Some "/confirmation")]
               ∧ is_fallback r) as Hfallback.
  { eexists. split; [left | split; reflexivity]. }
  split; [exact Hfallback|].
  exact (mapStatusToUrl_total_with_fallback "SUBMITTED" "SOMETHING_NEW" _ Hfallback).
Defined.

(** ** Persisting the status *)

(** C4: [persistStatus] writes nothing when the new status equals the
    previous one; otherwise CLEARED is written by one [setState] of the
    state [{applicationStatus: CLEARED}] and by no [updateApplicationStatus],
    and any other status by one [updateApplicationStatus] with the key
    [organisationId:grantId] and by no [setState]. *)
Theorem persistStatus_writes (env : Env) (request : Request)
    (newStatus : option string) (previousStatus : string)
    (grantId : option string) (tr : list event) :
  (newStatus = Some previousStatus →
     persistStatus env request newStatus previousStatus grantId tr = (Returned tt, tr))
  ∧ (newStatus ≠ Some previousStatus → newStatus = Some "CLEARED" →
       persistStatus env request newStatus previousStatus grantId tr
       = (cache_setState env cleared_state, tr ++ [EvSetState cleared_state]))
  ∧ (newStatus ≠ Some previousStatus → newStatus ≠ Some "CLEARED" →
       persistStatus env request newStatus previousStatus grantId tr
       = (updateApplicationStatus env newStatus (identity_key request grantId),
          tr ++ [EvUpdateApplicationStatus newStatus (identity_key request grantId)])).
Proof.
  unfold persistStatus. repeat split.
  - intros ->. by rewrite decide_True.
  - intros Hne ->. rewrite decide_False by done. by rewrite decide_True.
  - intros Hne Hnc. by rewrite !decide_False.
Qed.

(** A witness of C4: SUBMITTED stays SUBMITTED without a write, SUBMITTED
    becomes CLEARED through [setState] and REOPENED through
    [updateApplicationStatus]. *)
Lemma persistStatus_writes_witness :
  persistStatus (Fixtures.gas_returns "RECEIVED") (Fixtures.request "grant-a" "/grant-a/start")
    (Some "SUBMITTED") "SUBMITTED" (Some "grant-a") [] = (Returned tt, [])
  ∧ persistStatus (Fixtures.gas_returns "APPLICATION_WITHDRAWN")
      (Fixtures.request "grant-a" "/grant-a/start")
      (Some "CLEARED") "SUBMITTED" (Some "grant-a") []
    = (Returned tt, [EvSetState cleared_state])
  ∧ persistStatus (Fixtures.gas_returns "AWAITING_AMENDMENTS")
      (Fixtures.request "grant-a" "/grant-a/start")
      (Some "REOPENED") "SUBMITTED" (Some "grant-a") []
    = (Returned tt, [EvUpdateApplicationStatus (Some "REOPENED") "12345:grant-a"]).
Proof.
  split; [|split].
  - apply (persistStatus_writes (Fixtures.gas_returns "RECEIVED")
             (Fixtures.request "grant-a" "/grant-a/start")
             (Some "SUBMITTED") "SUBMITTED" (Some "grant-a") []).
    reflexivity.
  - apply (persistStatus_writes (Fixtures.gas_returns "APPLICATION_WITHDRAWN")
             (Fixtures.request "grant-a" "/grant-a/start")
             (Some "CLEARED") "SUBMITTED" (Some "grant-a") []);
      [discriminate | reflexivity].
  - apply (persistStatus_writes (Fixtures.gas_returns "AWAITING_AMENDMENTS")
             (Fixtures.request "grant-a" "/grant-a/start")
             (Some "REOPENED") "SUBMITTED" (Some "grant-a") []);
      discriminate.
Defined.

(** ** The orchestrator *)

Lemma eqb_empty_false (s : string) : s ≠ "" → String.eqb s "" = false.
Proof. intros Hs. by apply String.eqb_neq. Qed.

Lemma served_grantCode request slug grantCode :
  served request slug grantCode → getGrantCode request = Returned grantCode.
Proof.
  intros (_ & _ & Hcode & Hne). unfold getGrantCode. rewrite Hcode.
  by rewrite eqb_empty_false.
Qed.

(** With status SUBMITTED the orchestrator is the post-submission handler
    under its error handler, and the status it hands over is SUBMITTED. *)
Lemma formsStatusCallback_submitted env request context slug grantCode tr :
  served request slug grantCode →
  previous_status context = VStr "SUBMITTED" →
  formsStatusCallback env request context tr
  = try_catch
      (handlePostSubmission env request context "SUBMITTED" grantCode
         (request_grantRedirectRules request))
      (fun err =>
         handlePostSubmissionError err request context slug grantCode
           (request_grantRedirectRules request)) tr.
Proof.
  intros Hserved Hprev. pose proof (served_grantCode _ _ _ Hserved) as Hcode.
  destruct Hserved as (Hslug & Hne & _).
  unfold formsStatusCallback. rewrite Hslug, (eqb_empty_false _ Hne).
  run. rewrite Hcode. fold (previous_status context). rewrite Hprev. reflexivity.
Qed.

(** The pre-submission guard reads the request and the state only. *)
Lemma preSubmissionRedirect_pure request context tr :
  snd (preSubmissionRedirect request context tr) = tr.
Proof.
  unfold preSubmissionRedirect. run.
  repeat case_match; reflexivity.
Qed.

(** Whenever the guard is in charge, the orchestrator calls nobody. *)
Lemma formsStatusCallback_pre_trace env request context tr :
  shouldHandlePreSubmission (previous_status context) = true →
  snd (formsStatusCallback env request context tr) = tr.
Proof.
  intros Hpre. unfold formsStatusCallback.
  destruct (params_slug request) as [grantId|]; [|done].
  destruct (String.eqb grantId ""); [done|]. run.
  destruct (getGrantCode request); [|done].
  fold (previous_status context). rewrite Hpre.
  apply preSubmissionRedirect_pure.
Qed.

(** The failing GAS call, seen from the orchestrator. *)
Lemma formsStatusCallback_gas_failure env request context slug grantCode err tr :
  served request slug grantCode →
  previous_status context = VStr "SUBMITTED" →
  getApplicationStatus env grantCode (JS.toLowerCase (referenceNumber context)) = Thrown err →
  formsStatusCallback env request context tr
  = handlePostSubmissionError err request context slug grantCode
      (request_grantRedirectRules request) (tr ++ [gas_query grantCode context]).
Proof.
  intros Hserved Hprev Hgas.
  rewrite (formsStatusCallback_submitted _ _ _ _ _ _ Hserved Hprev).
  unfold handlePostSubmission. run. by rewrite Hgas.
Qed.

(** The failing GAS call as [handlePostSubmissionError] treats it: with the
    not-found code 404 the orchestrator returns continue and logs nothing;
    on any other error it logs the failure with the grant code, the
    reference number and the error message, matches the rule table with
    (default, default), passes the fallback rule's path to
    [buildRedirectUrl] and redirects there unless the request path already
    equals that destination, in which case it returns continue. *)
Theorem gas_failure_fallback (env : Env) (request : Request) (context : Context)
    (slug grantCode : string) (err : JsError) (tr : list event)
    (Hserved : served request slug grantCode)
    (Hprev : previous_status context = VStr "SUBMITTED")
    (Hgas : getApplicationStatus env grantCode (JS.toLowerCase (referenceNumber context))
            = Thrown err) :
  (err_status err = Some 404%Z →
     formsStatusCallback env request context tr
     = (Returned Continue, tr ++ [gas_query grantCode context]))
  ∧ (err_status err ≠ Some 404%Z →
     ∀ fallbackRule fallbackPath,
       mapStatusToUrl "default" "default" (post_rules request) = Returned fallbackRule →
       toPath fallbackRule = Some fallbackPath →
       formsStatusCallback env request context tr
       = (Returned (if decide (path request = buildRedirectUrl slug fallbackPath)
                    then Continue
                    else Redirect (buildRedirectUrl slug fallbackPath)),
          tr ++ [gas_query grantCode context;
                 EvLog grantCode (referenceNumber context) (err_message err)])).
Proof.
  rewrite (formsStatusCallback_gas_failure _ _ _ _ _ _ _ Hserved Hprev Hgas).
  unfold handlePostSubmissionError, statusCodes.notFound. split.
  - intros H404. by rewrite decide_True.
  - intros Hother fallbackRule p Hmatch Hpath.
    rewrite decide_False by done. run.
    unfold post_rules in Hmatch. rewrite Hmatch, Hpath.
    rewrite <- app_assoc. simpl. by destruct (decide _).
Qed.

(** An instance: the server error of the test-suite on the start page of
    grant-a. *)
Lemma gas_failure_fallback_witness :
  served (Fixtures.request "grant-a" "/grant-a/start") "grant-a" "grant-a-code"
  ∧ previous_status (Fixtures.context (Fixtures.status_only "SUBMITTED")) = VStr "SUBMITTED"
  ∧ getApplicationStatus (Fixtures.gas_throws (Error "server error")) "grant-a-code"
      (JS.toLowerCase (referenceNumber (Fixtures.context (Fixtures.status_only "SUBMITTED"))))
    = Thrown (Error "server error")
  ∧ formsStatusCallback (Fixtures.gas_throws (Error "server error"))
      (Fixtures.request "grant-a" "/grant-a/start")
      (Fixtures.context (Fixtures.status_only "SUBMITTED")) []
    = (Returned (Redirect "/grant-a/confirmation"),
       [EvGetApplicationStatus "grant-a-code" "ref-001";
        EvLog "grant-a-code" "REF-001" "server error"]).
Proof.
  assert (served (Fixtures.request "grant-a" "/grant-a/start") "grant-a" "grant-a-code")
    as Hserved by (repeat split; discriminate).
  split; [exact Hserved|]. split; [reflexivity|]. split; [reflexivity|].
  refine (proj2 (gas_failure_fallback (Fixtures.gas_throws (Error "server error"))
                   (Fixtures.request "grant-a" "/grant-a/start")
                   (Fixtures.context (Fixtures.status_only "SUBMITTED"))
                   "grant-a" "grant-a-code" (Error "server error") []
                   Hserved eq_refl eq_refl) _
                (mkRule (Some "default") (Some "default") (Some "SUBMITTED") (Some "/confirmation"))
                "/confirmation" _ eq_refl).
  - discriminate.
  - by vm_compute.
Defined.

(** C3 (the code departs from the claim): the fallback destination is not
    computed the way the success path computes it.  For a grant whose
    fallback rule points at the agreements service, on the agreements page:
    a successful reconciliation continues, the rule's destination being the
    base URL itself as [handlePostSubmission] computes it; when GAS fails
    with a server error, [handlePostSubmissionError] leaves the comparison
    with the base URL out and redirects the applicant to the slug-prefixed
    path [/farm-payments/agreement]. *)
Lemma gas_failure_destination_divergence :
  let fallbackRule :=
    mkRule (Some "default") (Some "default") (Some "SUBMITTED")
           (Some Fixtures.AGREEMENTS_BASE_URL) in
  let request :=
    mkRequest (Some "farm-payments") "/agreement"
      (Some (mkMetadata (Some "grant-a-code") None
               (Some (mkRules (Some [mkPreRule (Some "/check-selected-land-actions")])
                              (Some [fallbackRule])))))
      (Some "12345") in
  let context := Fixtures.context (Fixtures.status_only "SUBMITTED") in
  formsStatusCallback (Fixtures.gas_returns "OFFER_SENT") request context []
  = (Returned Continue, [EvGetApplicationStatus "grant-a-code" "ref-001"])
  ∧ redirectUrl_of_rule (Fixtures.gas_throws (Error "server error"))
      (Some "farm-payments") fallbackRule []
    = (Returned (path request), [])
  ∧ formsStatusCallback (Fixtures.gas_throws (Error "server error")) request context []
    = (Returned (Redirect "/farm-payments/agreement"),
       [EvGetApplicationStatus "grant-a-code" "ref-001";
        EvLog "grant-a-code" "REF-001" "server error"]).
Proof. by vm_compute. Qed.

(** ** The pre-submission guard *)

Lemma Object_keys_lookup (o : js_object) (k : string) :
  k ∈ Object_keys o ↔ ∃ v, o !! k = Some v.
Proof.
  unfold Object_keys. rewrite list_elem_of_fmap. split.
  - intros ([k' v] & -> & Hin). exists v. by apply elem_of_map_to_list.
  - intros (v & Hv). exists (k, v). split; [done|]. by apply elem_of_map_to_list.
Qed.

Lemma hasMeaningfulState_spec (state : js_object) :
  hasMeaningfulState state = true ↔ meaningful_state state.
Proof.
  unfold hasMeaningfulState, meaningful_state, no_entries, bookkeeping_keys.
  rewrite existsb_exists. simpl.
  split.
  - intros (k & Hin & Hk). apply list_elem_of_In, Object_keys_lookup in Hin.
    destruct Hin as (v & Hv). exists k, v. split; [done|].
    apply negb_true_iff, bool_decide_eq_false in Hk.
    unfold get_field in Hk.
    split.
    + intros Hbook. apply Hk. case_match; set_solver.
    + intros [-> Hnone]. apply Hk. rewrite Hv. simpl.
      rewrite Hnone. simpl. set_solver.
  - intros (k & v & Hv & Hbook & Hland). exists k. split.
    + apply list_elem_of_In, Object_keys_lookup. by exists v.
    + apply negb_true_iff, bool_decide_eq_false. intros Hin.
      unfold get_field in Hin.
      destruct (Nat.eqb _ 0) eqn:Hcount.
      * apply elem_of_union in Hin as [Hin|Hin]; [|set_solver].
        apply elem_of_singleton in Hin. subst k. apply Hland. split; [done|].
        rewrite Hv in Hcount. simpl in Hcount. by apply Nat.eqb_eq.
      * set_solver.
Qed.

Lemma falsy_false (v : option string) :
  falsy v = false ↔ ∃ s, v = Some s ∧ s ≠ "".
Proof.
  destruct v as [s|]; simpl.
  - rewrite String.eqb_neq. split; [intros Hs; by exists s | by intros (? & [= <-] & ?)].
  - split; [done | by intros (? & ? & _)].
Qed.

Lemma isFormsStartPage_spec (request : Request) (context : Context) :
  isFormsStartPage request context = true ↔ targets_start_page request context.
Proof.
  unfold isFormsStartPage, targets_start_page.
  destruct (falsy (params_slug request)) eqn:Hslug; simpl.
  - split; [done|]. intros (slug & startPath & Hs & Hne & _).
    rewrite Hs in Hslug. simpl in Hslug. by apply String.eqb_eq in Hslug.
  - destruct (falsy (context_startPath context)) eqn:Hstart.
    + split; [done|]. intros (slug & startPath & _ & _ & Hs & Hne & _).
      rewrite Hs in Hstart. simpl in Hstart. by apply String.eqb_eq in Hstart.
    + apply falsy_false in Hslug as (slug & Hs & Hne).
      apply falsy_false in Hstart as (startPath & Hp & Hpne).
      rewrite Hs, Hp, bool_decide_eq_true. simpl. split.
      * intros Hpath. by exists slug, startPath.
      * by intros (? & ? & [= <-] & _ & [= <-] & _ & Hpath).
Qed.

Lemma isTasklistPage_spec (request : Request) :
  isTasklistPage request = false ↔ request_tasklistId request = None.
Proof.
  unfold isTasklistPage. rewrite bool_decide_eq_false, <- eq_None_not_Some. reflexivity.
Qed.

Lemma shouldHandlePreSubmission_spec (previousStatus : js_value) :
  shouldHandlePreSubmission previousStatus = true ↔ pre_submission previousStatus.
Proof.
  unfold shouldHandlePreSubmission, pre_submission, is_string,
    ApplicationStatus.CLEARED, ApplicationStatus.REOPENED.
  rewrite !orb_true_iff, negb_true_iff.
  destruct previousStatus; simpl; rewrite ?bool_decide_eq_true;
    intuition (try discriminate; try congruence).
Qed.

Lemma guard_tests_spec (request : Request) (context : Context) :
  hasMeaningfulState (state context) && isFormsStartPage request context
    && negb (isTasklistPage request) = true
  ↔ should_resume request context.
Proof.
  unfold should_resume.
  rewrite !andb_true_iff, negb_true_iff, hasMeaningfulState_spec,
    isFormsStartPage_spec, isTasklistPage_spec.
  tauto.
Qed.

(** What the orchestrator answers while the guard is in charge. *)
Lemma formsStatusCallback_guard env request context slug grantCode resumePath tr :
  served request slug grantCode →
  resumes_at request resumePath →
  pre_submission (previous_status context) →
  formsStatusCallback env request context tr
  = (Returned (if hasMeaningfulState (state context) && isFormsStartPage request context
                    && negb (isTasklistPage request)
               then Redirect (buildRedirectUrl slug resumePath)
               else Continue), tr).
Proof.
  intros Hserved (rules & others & Hrules & Hpre) Hprev.
  pose proof (served_grantCode _ _ _ Hserved) as Hcode.
  destruct Hserved as (Hslug & Hne & _).
  apply shouldHandlePreSubmission_spec in Hprev.
  unfold formsStatusCallback. rewrite Hslug, (eqb_empty_false _ Hne).
  run. rewrite Hcode. fold (previous_status context). rewrite Hprev.
  unfold preSubmissionRedirect. rewrite Hrules, Hpre, Hslug. run.
  unfold buildRedirectUrl. by repeat case_match.
Qed.

(** Closes [k ∉ [k1; ...; kn]] for distinct literal keys. *)
Ltac not_listed :=
  let Hin := fresh "Hin" in
  intros Hin;
  repeat (apply elem_of_cons in Hin as [Hin|Hin]; [discriminate Hin|]);
  by apply elem_of_nil in Hin.

(** C8 (as amended): for a served grant whose pre-submission rule list
    starts with the resume rule, and a previous status that is unset, CLEARED
    or REOPENED, the orchestrator redirects to [/{slug}{resumePath}] exactly
    when the state holds a key other than [$$__referenceNumber],
    [applicationStatus], [applicant], [selectedLandParcel], [payment],
    [draftApplicationAnnualTotalPence] and a [landParcels] without entries,
    the slug and the first configured path are not empty and the request
    path is [/{slug}{firstPath}], and the journey has no tasklist id;
    otherwise it returns continue.  Either way it calls nobody: the trace is
    left as it was. *)
Theorem preSubmission_guard_decision (env : Env) (request : Request) (context : Context)
    (slug grantCode resumePath : string) (tr : list event)
    (Hserved : served request slug grantCode)
    (Hresume : resumes_at request resumePath)
    (Hprev : pre_submission (previous_status context)) :
  (should_resume request context →
     formsStatusCallback env request context tr
     = (Returned (Redirect (buildRedirectUrl slug resumePath)), tr))
  ∧ (¬ should_resume request context →
     formsStatusCallback env request context tr = (Returned Continue, tr)).
Proof.
  rewrite (formsStatusCallback_guard _ _ _ _ _ _ _ Hserved Hresume Hprev).
  rewrite <- guard_tests_spec.
  destruct (_ && _ && _); split; intros H; done.
Qed.

(** A witness of C8: 'redirects to "check answers" page if some saved
    state', for a CLEARED application. *)
Lemma preSubmission_guard_decision_witness :
  served (Fixtures.request "grant-a" "/grant-a/start") "grant-a" "grant-a-code"
  ∧ resumes_at (Fixtures.request "grant-a" "/grant-a/start") "/check-selected-land-actions"
  ∧ pre_submission
      (previous_status
         (Fixtures.context (<["question" := VStr "answer"]> (Fixtures.status_only "CLEARED"))))
  ∧ should_resume (Fixtures.request "grant-a" "/grant-a/start")
      (Fixtures.context (<["question" := VStr "answer"]> (Fixtures.status_only "CLEARED")))
  ∧ formsStatusCallback (Fixtures.gas_returns "RECEIVED")
      (Fixtures.request "grant-a" "/grant-a/start")
      (Fixtures.context (<["question" := VStr "answer"]> (Fixtures.status_only "CLEARED"))) []
    = (Returned (Redirect "/grant-a/check-selected-land-actions"), []).
Proof.
  assert (served (Fixtures.request "grant-a" "/grant-a/start") "grant-a" "grant-a-code")
    as Hserved by (repeat split; discriminate).
  assert (resumes_at (Fixtures.request "grant-a" "/grant-a/start") "/check-selected-land-actions")
    as Hresume by (eexists _, _; split; reflexivity).
  assert (pre_submission
            (previous_status
               (Fixtures.context (<["question" := VStr "answer"]> (Fixtures.status_only "CLEARED")))))
    as Hprev by (right; left; reflexivity).
  assert (should_resume (Fixtures.request "grant-a" "/grant-a/start")
            (Fixtures.context (<["question" := VStr "answer"]> (Fixtures.status_only "CLEARED"))))
    as Hshould.
  { split; [|split].
    - exists "question", (VStr "answer"). split; [reflexivity|]. split.
      + not_listed.
      + intros [Hk _]. discriminate Hk.
    - exists "grant-a", "/start". repeat split; discriminate.
    - reflexivity. }
  split; [exact Hserved|]. split; [exact Hresume|]. split; [exact Hprev|].
  split; [exact Hshould|].
  exact (proj1 (preSubmission_guard_decision (Fixtures.gas_returns "RECEIVED")
                  (Fixtures.request "grant-a" "/grant-a/start")
                  (Fixtures.context (<["question" := VStr "answer"]> (Fixtures.status_only "CLEARED")))
                  "grant-a" "grant-a-code" "/check-selected-land-actions" []
                  Hserved Hresume Hprev) Hshould).
Defined.

(** C8 (counterexample): a CLEARED application whose state holds the
    applicant's details besides the status, on the start page of a journey
    without tasklist.  The state has a field beyond the reference number and
    the status, yet the orchestrator continues. *)
Lemma applicant_only_state_counterexample :
  let state : js_object :=
    <["applicant" := VObj {[ "name" := VStr "A Farmer" ]}]> (Fixtures.status_only "CLEARED") in
  let request := Fixtures.request "grant-a" "/grant-a/start" in
  let context := Fixtures.context state in
  pre_submission (previous_status context)
  ∧ beyond_reference_and_status state
  ∧ targets_start_page request context
  ∧ request_tasklistId request = None
  ∧ formsStatusCallback (Fixtures.gas_returns "RECEIVED") request context []
    = (Returned Continue, []).
Proof.
  cbv zeta. split; [right; left; reflexivity|]. split.
  { exists "applicant", (VObj {[ "name" := VStr "A Farmer" ]}). split; [reflexivity|].
    not_listed. }
  split.
  { exists "grant-a", "/start". repeat split; discriminate. }
  split; [reflexivity | by vm_compute].
Qed.

(** ** A reopened application *)

Lemma reopened_pre_submission (context : Context) :
  previous_status context = VStr "REOPENED" → pre_submission (previous_status context).
Proof. intros ->. right. by right. Qed.

(** C5 (as amended): when the previous status is REOPENED the orchestrator
    calls neither GAS nor the persistence writes, whatever GAS would have
    answered: its trace is left as it was.  It answers as the pre-submission
    guard does: for a served grant with a resume rule it redirects to the
    resume path when the state is meaningful, the request is for the start
    page and the journey is no tasklist, and returns continue otherwise. *)
Theorem reopened_left_to_guard (env : Env) (request : Request) (context : Context)
    (tr : list event)
    (Hprev : previous_status context = VStr "REOPENED") :
  snd (formsStatusCallback env request context tr) = tr
  ∧ (∀ slug grantCode resumePath,
       served request slug grantCode →
       resumes_at request resumePath →
       (should_resume request context →
          fst (formsStatusCallback env request context tr)
          = Returned (Redirect (buildRedirectUrl slug resumePath)))
       ∧ (¬ should_resume request context →
          fst (formsStatusCallback env request context tr) = Returned Continue)).
Proof.
  pose proof (reopened_pre_submission _ Hprev) as Hpre. split.
  - apply formsStatusCallback_pre_trace. by apply shouldHandlePreSubmission_spec.
  - intros slug grantCode resumePath Hserved Hresume.
    rewrite (formsStatusCallback_guard _ _ _ _ _ _ _ Hserved Hresume Hpre).
    rewrite <- guard_tests_spec. simpl.
    destruct (_ && _ && _); split; intros H; done.
Qed.

(** A witness of C5: 'continues when gasStatus is AWAITING_AMENDMENTS and
    previousStatus is REOPENED'. *)
Lemma reopened_left_to_guard_witness :
  previous_status (Fixtures.context (Fixtures.status_only "REOPENED")) = VStr "REOPENED"
  ∧ formsStatusCallback (Fixtures.gas_returns "AWAITING_AMENDMENTS")
      (Fixtures.request "grant-a" "/grant-a/start")
      (Fixtures.context (Fixtures.status_only "REOPENED")) []
    = (Returned Continue, []).
Proof.
  split; [reflexivity|].
  pose proof (reopened_left_to_guard (Fixtures.gas_returns "AWAITING_AMENDMENTS")
                (Fixtures.request "grant-a" "/grant-a/start")
                (Fixtures.context (Fixtures.status_only "REOPENED")) [] eq_refl)
    as [Htrace Hanswer].
  apply injective_projections; [|exact Htrace].
  refine (proj2 (Hanswer "grant-a" "grant-a-code" "/check-selected-land-actions" _ _) _).
  - repeat split; discriminate.
  - eexists _, _; split; reflexivity.
  - intros (Hmeaningful & _). apply hasMeaningfulState_spec in Hmeaningful.
    vm_compute in Hmeaningful. discriminate Hmeaningful.
Defined.

(** C5 (counterexample): a REOPENED application with a saved answer, on the
    start page, while GAS would answer AWAITING_AMENDMENTS: the orchestrator
    redirects to the resume page instead of continuing. *)
Lemma reopened_with_answers_counterexample :
  let context :=
    Fixtures.context (<["question" := VStr "answer"]> (Fixtures.status_only "REOPENED")) in
  previous_status context = VStr "REOPENED"
  ∧ formsStatusCallback (Fixtures.gas_returns "AWAITING_AMENDMENTS")
      (Fixtures.request "grant-a" "/grant-a/start") context []
    = (Returned (Redirect "/grant-a/check-selected-land-actions"), []).
Proof. by vm_compute. Qed.

(** ** Post-submission reconciliation *)

Lemma startsWith_slash (p : string) :
  JS.startsWith "/" p = true ↔ ∃ rest, p = "/" +:+ rest.
Proof.
  destruct p as [|c p].
  - change (JS.startsWith "/" "") with false. split; [done | by intros (? & ?)].
  - change (JS.startsWith "/" (String c p)) with (Ascii.eqb "/" c && true).
    rewrite andb_true_r. destruct (Ascii.eqb_spec "/" c) as [Hc|Hc].
    + subst c. split; [by exists p | done].
    + split; [done|]. intros (rest & Hrest). injection Hrest as Hc' _. congruence.
Qed.

Lemma buildRedirectUrl_rooted (slug rest : string) :
  buildRedirectUrl slug ("/" +:+ rest) = "/" +:+ slug +:+ "/" +:+ rest.
Proof. reflexivity. Qed.

Lemma buildRedirectUrl_relative (slug p : string) :
  (∀ rest, p ≠ "/" +:+ rest) → buildRedirectUrl slug p = "/" +:+ slug +:+ "/" +:+ p.
Proof.
  intros Hrel. unfold buildRedirectUrl.
  destruct (JS.startsWith "/" p) eqn:Hstart; [|done].
  apply startsWith_slash in Hstart as (rest & ->). by destruct (Hrel rest).
Qed.

Lemma redirectUrl_of_rule_destination env slug rule p tr :
  toPath rule = Some p →
  redirectUrl_of_rule env (Some slug) rule tr
  = (Returned (destination (agreements_baseUrl env) slug p), tr).
Proof.
  intros Hp. unfold redirectUrl_of_rule, destination. rewrite Hp.
  destruct (decide (Some p = Some (agreements_baseUrl env))) as [[= ->]|Hne].
  - by rewrite decide_True.
  - rewrite decide_False by congruence. reflexivity.
Qed.

Lemma shouldContinueDefault_submitted (gas : string) (newStatus : option string) :
  shouldContinueDefault gas newStatus "SUBMITTED" = false.
Proof.
  unfold shouldContinueDefault.
  rewrite (bool_decide_eq_true_2 ("SUBMITTED" = "SUBMITTED")) by done.
  rewrite (bool_decide_eq_true_2 ("SUBMITTED" ∈ ["SUBMITTED"; "REOPENED"])) by left.
  simpl. by rewrite !andb_false_r.
Qed.

(** The run of [handlePostSubmission] for a SUBMITTED application once GAS
    has answered, a rule has matched and the status has been persisted. *)
Lemma handlePostSubmission_success env request context grantCode rules slug
    gas rule p tr tr' :
  params_slug request = Some slug →
  getApplicationStatus env grantCode (JS.toLowerCase (referenceNumber context)) = Returned gas →
  mapStatusToUrl "SUBMITTED" gas (postSubmission_or_empty rules) = Returned rule →
  persistStatus env request (toGrantsStatus rule) "SUBMITTED" (Some slug)
    (tr ++ [gas_query grantCode context]) = (Returned tt, tr') →
  toPath rule = Some p →
  handlePostSubmission env request context "SUBMITTED" grantCode rules tr
  = (Returned (if decide (path request = destination (agreements_baseUrl env) slug p)
               then Continue
               else Redirect (destination (agreements_baseUrl env) slug p)), tr').
Proof.
  intros Hslug Hgas Hrule Hpersist Hp.
  unfold handlePostSubmission. run. rewrite Hgas, Hrule, Hslug. simpl.
  unfold gas_query in Hpersist. rewrite Hpersist.
  rewrite shouldContinueDefault_submitted.
  rewrite (redirectUrl_of_rule_destination _ _ _ _ _ Hp).
  by destruct (decide _).
Qed.

(** [handlePostSubmission] starts with the GAS query. *)
Lemma handlePostSubmission_queries_gas env request context previousStatus grantCode rules tr :
  ∃ later,
    snd (handlePostSubmission env request context previousStatus grantCode rules tr)
    = tr ++ gas_query grantCode context :: later.
Proof.
  unfold handlePostSubmission, persistStatus, redirectUrl_of_rule. run.
  destruct (getApplicationStatus env grantCode _) as [gas|e]; [|by exists []].
  destruct (mapStatusToUrl _ _ _) as [rule|e]; simpl; [|by exists []].
  destruct (decide (toGrantsStatus rule = Some previousStatus)).
  - exists []. repeat case_match; simplify_eq; done.
  - destruct (decide (toGrantsStatus rule = Some "CLEARED")); simpl;
      eexists [_]; rewrite <- app_assoc; simpl;
      repeat case_match; simplify_eq; done.
Qed.

(** Neither the persisted status nor a rule's destination depends on the
    path of the request or on the calls made before. *)
Lemma persistStatus_with_path env request url newStatus previousStatus grantId tr tr2 :
  fst (persistStatus env (with_path url request) newStatus previousStatus grantId tr2)
  = fst (persistStatus env request newStatus previousStatus grantId tr).
Proof. unfold persistStatus. by repeat case_match. Qed.

Lemma redirectUrl_of_rule_fst env grantId rule tr tr2 :
  fst (redirectUrl_of_rule env grantId rule tr2) = fst (redirectUrl_of_rule env grantId rule tr).
Proof.
  unfold redirectUrl_of_rule. run.
  destruct (decide _); [done|]. by destruct (toPath rule).
Qed.

Lemma redirectUrl_of_rule_snd env grantId rule tr :
  snd (redirectUrl_of_rule env grantId rule tr) = tr.
Proof.
  unfold redirectUrl_of_rule. run.
  destruct (decide _); [done|]. by destruct (toPath rule).
Qed.

(** Going where [handlePostSubmission] sent the applicant and reconciling
    again continues; an error it throws is thrown at every path. *)
Lemma handlePostSubmission_revisit env request context previousStatus grantCode rules tr tr2 url :
  match fst (handlePostSubmission env request context previousStatus grantCode rules tr) with
  | Returned (Redirect target) =>
      fst (handlePostSubmission env (with_path target request) context previousStatus
             grantCode rules tr2) = Returned Continue
  | Returned Continue => True
  | Thrown e =>
      fst (handlePostSubmission env (with_path url request) context previousStatus
             grantCode rules tr2) = Thrown e
  end.
Proof.
  unfold handlePostSubmission. run.
  destruct (getApplicationStatus env grantCode _) as [gas|e]; [|done].
  destruct (mapStatusToUrl _ _ _) as [rule|e]; simpl; [|done].
  pose proof (persistStatus_with_path env request) as Hpersist.
  destruct (persistStatus env request _ _ _ (tr ++ _)) as [[[]|e] tr1] eqn:Hp1.
  - assert (∀ u, ∃ tr3, persistStatus env (with_path u request) (toGrantsStatus rule)
                          previousStatus (params_slug request)
                          (tr2 ++ [EvGetApplicationStatus grantCode
                                     (JS.toLowerCase (referenceNumber context))])
                        = (Returned tt, tr3)) as Hsame.
    { intros u.
      specialize (Hpersist u (toGrantsStatus rule) previousStatus (params_slug request)
                    (tr ++ [EvGetApplicationStatus grantCode
                              (JS.toLowerCase (referenceNumber context))])
                    (tr2 ++ [EvGetApplicationStatus grantCode
                               (JS.toLowerCase (referenceNumber context))])).
      rewrite Hp1 in Hpersist. simpl in Hpersist.
      destruct (persistStatus env (with_path u request) _ _ _ _) as [o tr3].
      simpl in Hpersist. subst o. by exists tr3. }
    destruct (shouldContinueDefault _ _ _); [done|].
    pose proof (redirectUrl_of_rule_fst env (params_slug request) rule tr1) as Hdest.
    destruct (redirectUrl_of_rule env (params_slug request) rule tr1) as [[dest|e] tr4] eqn:Hd.
    + destruct (decide (path request = dest)); simpl; [done|].
      destruct (Hsame dest) as [tr3 ->].
      specialize (Hdest tr3). simpl in Hdest.
      destruct (redirectUrl_of_rule env _ rule tr3) as [o tr5]. simpl in Hdest. subst o.
      by rewrite decide_True.
    + simpl. destruct (Hsame url) as [tr3 ->].
      specialize (Hdest tr3). simpl in Hdest.
      destruct (redirectUrl_of_rule env _ rule tr3) as [o tr5]. simpl in Hdest. by subst o.
  - simpl.
    specialize (Hpersist url (toGrantsStatus rule) previousStatus (params_slug request)
                  (tr ++ [EvGetApplicationStatus grantCode
                            (JS.toLowerCase (referenceNumber context))])
                  (tr2 ++ [EvGetApplicationStatus grantCode
                             (JS.toLowerCase (referenceNumber context))])).
    rewrite Hp1 in Hpersist. simpl in Hpersist.
    destruct (persistStatus env (with_path url request) _ _ _ _) as [o tr3].
    simpl in Hpersist. by subst o.
Qed.

(** The same for the error handler. *)
Lemma handlePostSubmissionError_revisit err request context grantId grantCode rules tr tr2 :
  match fst (handlePostSubmissionError err request context grantId grantCode rules tr) with
  | Returned (Redirect target) =>
      fst (handlePostSubmissionError err (with_path target request) context grantId
             grantCode rules tr2) = Returned Continue
  | _ => True
  end.
Proof.
  unfold handlePostSubmissionError. run.
  destruct (decide (err_status err = _)); [done|].
  destruct (mapStatusToUrl _ _ _) as [rule|e]; simpl; [|done].
  destruct (toPath rule) as [p|]; simpl; [|done].
  destruct (decide (path request = _)); simpl; [done|].
  by rewrite decide_True.
Qed.

Lemma served_with_path request slug grantCode url :
  served request slug grantCode → served (with_path url request) slug grantCode.
Proof. by intros (? & ? & ? & ?). Qed.

(** The successful reconciliation of a SUBMITTED application, seen from the
    orchestrator. *)
Lemma formsStatusCallback_success env request context slug grantCode gas rule p tr tr' :
  served request slug grantCode →
  previous_status context = VStr "SUBMITTED" →
  getApplicationStatus env grantCode (JS.toLowerCase (referenceNumber context)) = Returned gas →
  mapStatusToUrl "SUBMITTED" gas (post_rules request) = Returned rule →
  persistStatus env request (toGrantsStatus rule) "SUBMITTED" (Some slug)
    (tr ++ [gas_query grantCode context]) = (Returned tt, tr') →
  toPath rule = Some p →
  formsStatusCallback env request context tr
  = (Returned (if decide (path request = destination (agreements_baseUrl env) slug p)
               then Continue
               else Redirect (destination (agreements_baseUrl env) slug p)), tr').
Proof.
  intros Hserved Hprev Hgas Hrule Hpersist Hp.
  rewrite (formsStatusCallback_submitted _ _ _ _ _ _ Hserved Hprev).
  destruct Hserved as (Hslug & _). unfold try_catch.
  by rewrite (handlePostSubmission_success _ _ _ _ _ _ _ _ _ _ _ Hslug Hgas Hrule Hpersist Hp).
Qed.

(** C6: for a SUBMITTED application of a served grant, (1) when GAS has
    answered, a rule has matched and the status has been persisted, a request
    whose path equals the rule's destination gets continue, not a redirect;
    (2) whenever the orchestrator redirects, the same reconciliation run on
    the request for that destination returns continue. *)
Theorem reconciliation_idempotent (env : Env) (request : Request) (context : Context)
    (slug grantCode : string) (tr : list event)
    (Hserved : served request slug grantCode)
    (Hprev : previous_status context = VStr "SUBMITTED") :
  (∀ gas rule p tr',
     getApplicationStatus env grantCode (JS.toLowerCase (referenceNumber context))
     = Returned gas →
     mapStatusToUrl "SUBMITTED" gas (post_rules request) = Returned rule →
     persistStatus env request (toGrantsStatus rule) "SUBMITTED" (Some slug)
       (tr ++ [gas_query grantCode context]) = (Returned tt, tr') →
     toPath rule = Some p →
     path request = destination (agreements_baseUrl env) slug p →
     formsStatusCallback env request context tr = (Returned Continue, tr'))
  ∧ (∀ target,
       fst (formsStatusCallback env request context tr) = Returned (Redirect target) →
       ∀ tr2,
         fst (formsStatusCallback env (with_path target request) context tr2)
         = Returned Continue).
Proof.
  split.
  - intros gas rule p tr' Hgas Hrule Hpersist Hp Hthere.
    rewrite (formsStatusCallback_success _ _ _ _ _ _ _ _ _ _
               Hserved Hprev Hgas Hrule Hpersist Hp).
    by rewrite decide_True.
  - intros target Hfirst tr2.
    rewrite (formsStatusCallback_submitted _ _ _ _ _ _
               (served_with_path _ _ _ target Hserved) Hprev).
    rewrite (formsStatusCallback_submitted _ _ _ _ _ _ Hserved Hprev) in Hfirst.
    unfold try_catch in *.
    pose proof (handlePostSubmission_revisit env request context "SUBMITTED" grantCode
                  (request_grantRedirectRules request) tr tr2 target) as Hpost.
    change (request_grantRedirectRules (with_path target request))
      with (request_grantRedirectRules request).
    destruct (handlePostSubmission env request _ _ _ _ tr) as [[answer|e] tr1].
    + simpl in Hfirst, Hpost. injection Hfirst as ->.
      destruct (handlePostSubmission env (with_path target request) _ _ _ _ tr2)
        as [o tr3]. simpl in Hpost. by subst o.
    + simpl in Hpost.
      destruct (handlePostSubmission env (with_path target request) _ _ _ _ tr2)
        as [o tr3]. simpl in Hpost. subst o.
      pose proof (handlePostSubmissionError_revisit e request context slug grantCode
                    (request_grantRedirectRules request) tr1 tr3) as Hhandler.
      by rewrite Hfirst in Hhandler.
Qed.

(** A witness of C6: GAS returns RECEIVED; from the start page the applicant
    is sent to the confirmation page, and there the reconciliation
    continues. *)
Lemma reconciliation_idempotent_witness :
  served (Fixtures.request "grant-a" "/grant-a/start") "grant-a" "grant-a-code"
  ∧ previous_status (Fixtures.context (Fixtures.status_only "SUBMITTED")) = VStr "SUBMITTED"
  ∧ fst (formsStatusCallback (Fixtures.gas_returns "RECEIVED")
           (Fixtures.request "grant-a" "/grant-a/start")
           (Fixtures.context (Fixtures.status_only "SUBMITTED")) [])
    = Returned (Redirect "/grant-a/confirmation")
  ∧ fst (formsStatusCallback (Fixtures.gas_returns "RECEIVED")
           (with_path "/grant-a/confirmation" (Fixtures.request "grant-a" "/grant-a/start"))
           (Fixtures.context (Fixtures.status_only "SUBMITTED")) [])
    = Returned Continue.
Proof.
  assert (served (Fixtures.request "grant-a" "/grant-a/start") "grant-a" "grant-a-code")
    as Hserved by (repeat split; discriminate).
  assert (fst (formsStatusCallback (Fixtures.gas_returns "RECEIVED")
                 (Fixtures.request "grant-a" "/grant-a/start")
                 (Fixtures.context (Fixtures.status_only "SUBMITTED")) [])
          = Returned (Redirect "/grant-a/confirmation")) as Hfirst by (by vm_compute).
  split; [exact Hserved|]. split; [reflexivity|]. split; [exact Hfirst|].
  exact (proj2 (reconciliation_idempotent (Fixtures.gas_returns "RECEIVED")
                  (Fixtures.request "grant-a" "/grant-a/start")
                  (Fixtures.context (Fixtures.status_only "SUBMITTED"))
                  "grant-a" "grant-a-code" [] Hserved eq_refl)
               "/grant-a/confirmation" Hfirst []).
Defined.

(** ** The redirect destination *)

(** C9: [buildRedirectUrl] puts the grant slug before the rule's path, a
    path that starts with a slash becoming [/{slug}{path}] and any other
    [/{slug}/{path}]; the destination of a matched rule is its [toPath]
    unchanged when that equals the agreements base URL and the result of
    [buildRedirectUrl] otherwise; and a successful reconciliation that does
    not find the applicant there redirects to this destination. *)
Theorem redirect_destination (env : Env) (slug : string) :
  (∀ rest, buildRedirectUrl slug ("/" +:+ rest) = "/" +:+ slug +:+ ("/" +:+ rest))
  ∧ (∀ p, (∀ rest, p ≠ "/" +:+ rest) →
          buildRedirectUrl slug p = "/" +:+ slug +:+ "/" +:+ p)
  ∧ (∀ rule tr,
       toPath rule = Some (agreements_baseUrl env) →
       redirectUrl_of_rule env (Some slug) rule tr = (Returned (agreements_baseUrl env), tr))
  ∧ (∀ rule p tr,
       toPath rule = Some p → p ≠ agreements_baseUrl env →
       redirectUrl_of_rule env (Some slug) rule tr = (Returned (buildRedirectUrl slug p), tr))
  ∧ (∀ request context grantCode gas rule p tr tr',
       served request slug grantCode →
       previous_status context = VStr "SUBMITTED" →
       getApplicationStatus env grantCode (JS.toLowerCase (referenceNumber context))
       = Returned gas →
       mapStatusToUrl "SUBMITTED" gas (post_rules request) = Returned rule →
       persistStatus env request (toGrantsStatus rule) "SUBMITTED" (Some slug)
         (tr ++ [gas_query grantCode context]) = (Returned tt, tr') →
       toPath rule = Some p →
       ∀ dest,
         redirectUrl_of_rule env (Some slug) rule tr' = (Returned dest, tr') →
         path request ≠ dest →
         formsStatusCallback env request context tr = (Returned (Redirect dest), tr')).
Proof.
  split; [intros rest; apply buildRedirectUrl_rooted|].
  split; [intros p; apply buildRedirectUrl_relative|].
  split; [|split].
  - intros rule tr Hp. rewrite (redirectUrl_of_rule_destination _ _ _ _ _ Hp).
    unfold destination. by rewrite decide_True.
  - intros rule p tr Hp Hne. rewrite (redirectUrl_of_rule_destination _ _ _ _ _ Hp).
    unfold destination. by rewrite decide_False.
  - intros request context grantCode gas rule p tr tr' Hserved Hprev Hgas Hrule Hpersist
      Hp dest Hdest Hne.
    rewrite (redirectUrl_of_rule_destination _ _ _ _ _ Hp) in Hdest.
    injection Hdest as <-.
    rewrite (formsStatusCallback_success _ _ _ _ _ _ _ _ _ _
               Hserved Hprev Hgas Hrule Hpersist Hp).
    by rewrite decide_False.
Qed.

(** A witness of C9: the confirmation rule under grant-a, and the offer rule
    whose path is the agreements base URL. *)
Lemma redirect_destination_witness :
  redirectUrl_of_rule (Fixtures.gas_returns "RECEIVED") (Some "grant-a")
    (mkRule (Some "SUBMITTED") (Some "default") (Some "SUBMITTED") (Some "/confirmation")) []
  = (Returned "/grant-a/confirmation", [])
  ∧ redirectUrl_of_rule (Fixtures.gas_returns "OFFER_SENT") (Some "grant-a")
      (mkRule (Some "SUBMITTED") (Some "OFFER_SENT") (Some "SUBMITTED")
              (Some Fixtures.AGREEMENTS_BASE_URL)) []
    = (Returned "/agreement", []).
Proof.
  split.
  - refine (proj1 (proj2 (proj2 (proj2
              (redirect_destination (Fixtures.gas_returns "RECEIVED") "grant-a"))))
              (mkRule (Some "SUBMITTED") (Some "default") (Some "SUBMITTED")
                      (Some "/confirmation"))
              "/confirmation" [] eq_refl _).
    discriminate.
  - exact (proj1 (proj2 (proj2
              (redirect_destination (Fixtures.gas_returns "OFFER_SENT") "grant-a")))
              (mkRule (Some "SUBMITTED") (Some "OFFER_SENT") (Some "SUBMITTED")
                      (Some Fixtures.AGREEMENTS_BASE_URL))
              [] eq_refl).
Defined.

(** ** Who reaches the post-submission handler *)

Lemma formsStatusCallback_not_submitted env request context tr :
  previous_status context ≠ VStr "SUBMITTED" →
  snd (formsStatusCallback env request context tr) = tr.
Proof.
  intros Hprev. unfold formsStatusCallback.
  destruct (params_slug request) as [grantId|]; [|done].
  destruct (String.eqb grantId ""); [done|]. run.
  destruct (getGrantCode request); [|done].
  fold (previous_status context).
  destruct (shouldHandlePreSubmission (previous_status context)).
  - apply preSubmissionRedirect_pure.
  - destruct (previous_status context) as [| | | |s| |]; try done.
    destruct (decide (s = "SUBMITTED")) as [->|Hs]; [done|].
    by rewrite (bool_decide_eq_false_2 _ Hs).
Qed.

Lemma handlePostSubmission_continue env request context grantCode rules tr tr' :
  handlePostSubmission env request context "SUBMITTED" grantCode rules tr
  = (Returned Continue, tr') →
  ∃ gas rule,
    getApplicationStatus env grantCode (JS.toLowerCase (referenceNumber context))
    = Returned gas
    ∧ mapStatusToUrl "SUBMITTED" gas (postSubmission_or_empty rules) = Returned rule
    ∧ fst (redirectUrl_of_rule env (params_slug request) rule tr') = Returned (path request).
Proof.
  unfold handlePostSubmission. run.
  destruct (getApplicationStatus env grantCode _) as [gas|e]; [|done].
  destruct (mapStatusToUrl _ _ _) as [rule|e] eqn:Hrule; simpl; [|done].
  destruct (persistStatus env request _ _ _ _) as [[[]|e] tr1]; [|done].
  rewrite shouldContinueDefault_submitted.
  pose proof (redirectUrl_of_rule_snd env (params_slug request) rule tr1) as Hsnd.
  destruct (redirectUrl_of_rule env (params_slug request) rule tr1) as [[dest|e] tr2] eqn:Hd;
    [|done].
  simpl in Hsnd. subst tr2.
  destruct (decide (path request = dest)) as [<-|]; [|done].
  intros [= <-]. exists gas, rule. by rewrite Hd.
Qed.

(** With any status that is neither SUBMITTED nor left to the guard, the
    orchestrator continues. *)
Lemma formsStatusCallback_other_status env request context slug grantCode tr :
  served request slug grantCode →
  ¬ pre_submission (previous_status context) →
  previous_status context ≠ VStr "SUBMITTED" →
  formsStatusCallback env request context tr = (Returned Continue, tr).
Proof.
  intros Hserved Hguard Hprev.
  pose proof (served_grantCode _ _ _ Hserved) as Hcode.
  destruct Hserved as (Hslug & Hne & _).
  unfold formsStatusCallback. rewrite Hslug, (eqb_empty_false _ Hne).
  run. rewrite Hcode. fold (previous_status context).
  destruct (shouldHandlePreSubmission (previous_status context)) eqn:Hpre.
  - by apply shouldHandlePreSubmission_spec in Hpre.
  - destruct (previous_status context) as [| | | |s| |]; try done.
    destruct (decide (s = "SUBMITTED")) as [->|Hs]; [done|].
    by rewrite (bool_decide_eq_false_2 _ Hs).
Qed.

(** With a status left to the guard, the orchestrator is the guard. *)
Lemma formsStatusCallback_diverted env request context slug grantCode tr :
  served request slug grantCode →
  pre_submission (previous_status context) →
  formsStatusCallback env request context tr = preSubmissionRedirect request context tr.
Proof.
  intros Hserved Hguard.
  pose proof (served_grantCode _ _ _ Hserved) as Hcode.
  destruct Hserved as (Hslug & Hne & _).
  apply shouldHandlePreSubmission_spec in Hguard.
  unfold formsStatusCallback. rewrite Hslug, (eqb_empty_false _ Hne).
  run. rewrite Hcode. fold (previous_status context). by rewrite Hguard.
Qed.

(** C10: the orchestrator reaches [handlePostSubmission] with the previous
    status SUBMITTED only.  For a served grant (1) an unset, CLEARED or
    REOPENED status is handed to the pre-submission guard, (2) any other
    status than SUBMITTED gets continue, and (3) SUBMITTED gets
    [handlePostSubmission], called with SUBMITTED, under the error handler;
    (4) every run of [handlePostSubmission] starts by querying GAS, and
    (5) with a previous status other than SUBMITTED the orchestrator calls
    nobody.  Consequently (6) [shouldContinueDefault] is false on every such
    invocation, and (7) when [handlePostSubmission] continues there, a rule
    has matched and its destination is the request's own path. *)
Theorem post_submission_only_when_submitted (env : Env) (request : Request)
    (context : Context) (tr : list event) :
  (∀ slug grantCode,
     served request slug grantCode →
     pre_submission (previous_status context) →
     formsStatusCallback env request context tr = preSubmissionRedirect request context tr)
  ∧ (∀ slug grantCode,
       served request slug grantCode →
       ¬ pre_submission (previous_status context) →
       previous_status context ≠ VStr "SUBMITTED" →
       formsStatusCallback env request context tr = (Returned Continue, tr))
  ∧ (∀ slug grantCode,
       served request slug grantCode →
       previous_status context = VStr "SUBMITTED" →
       formsStatusCallback env request context tr
       = try_catch
           (handlePostSubmission env request context "SUBMITTED" grantCode
              (request_grantRedirectRules request))
           (fun err =>
              handlePostSubmissionError err request context slug grantCode
                (request_grantRedirectRules request)) tr)
  ∧ (∀ previousStatus grantCode rules,
       ∃ later,
         snd (handlePostSubmission env request context previousStatus grantCode rules tr)
         = tr ++ gas_query grantCode context :: later)
  ∧ (previous_status context ≠ VStr "SUBMITTED" →
     snd (formsStatusCallback env request context tr) = tr)
  ∧ (∀ gas newStatus, shouldContinueDefault gas newStatus "SUBMITTED" = false)
  ∧ (∀ grantCode rules tr',
       handlePostSubmission env request context "SUBMITTED" grantCode rules tr
       = (Returned Continue, tr') →
       ∃ gas rule,
         getApplicationStatus env grantCode (JS.toLowerCase (referenceNumber context))
         = Returned gas
         ∧ mapStatusToUrl "SUBMITTED" gas (postSubmission_or_empty rules) = Returned rule
         ∧ fst (redirectUrl_of_rule env (params_slug request) rule tr')
           = Returned (path request)).
Proof.
  split; [intros slug grantCode; apply formsStatusCallback_diverted|].
  split; [intros slug grantCode; apply formsStatusCallback_other_status|].
  split; [intros slug grantCode; apply formsStatusCallback_submitted|].
  split; [intros; apply handlePostSubmission_queries_gas|].
  split; [apply formsStatusCallback_not_submitted|].
  split; [apply shouldContinueDefault_submitted|].
  intros grantCode rules tr'. apply handlePostSubmission_continue.
Qed.

(** A witness of C10: an application that is already REOPENED leaves the
    trace empty although GAS would answer AWAITING_AMENDMENTS. *)
Lemma post_submission_only_when_submitted_witness :
  previous_status (Fixtures.context (Fixtures.status_only "REOPENED")) ≠ VStr "SUBMITTED"
  ∧ snd (formsStatusCallback (Fixtures.gas_returns "AWAITING_AMENDMENTS")
           (Fixtures.request "grant-a" "/grant-a/summary")
           (Fixtures.context (Fixtures.status_only "REOPENED")) []) = [].
Proof.
  assert (previous_status (Fixtures.context (Fixtures.status_only "REOPENED"))
          ≠ VStr "SUBMITTED") as Hprev by discriminate.
  split; [exact Hprev|].
  exact (proj1 (proj2 (proj2 (proj2 (proj2
                  (post_submission_only_when_submitted
                     (Fixtures.gas_returns "AWAITING_AMENDMENTS")
                     (Fixtures.request "grant-a" "/grant-a/summary")
                     (Fixtures.context (Fixtures.status_only "REOPENED")) [])))))
               Hprev).
Defined.

(** ** Start-up validation *)

(** Every accepted definition has one pre-submission rule, a post-submission
    rule and the fallback among the latter. *)
Lemma validateGrantRedirectRules_accepted (definition_metadata : option Metadata) :
  FormService.validateGrantRedirectRules definition_metadata = FormService.Accepted →
  length (configured_preSubmission definition_metadata) = 1
  ∧ configured_postSubmission definition_metadata ≠ []
  ∧ ∃ r, r ∈ configured_postSubmission definition_metadata ∧ is_fallback r.
Proof.
  unfold FormService.validateGrantRedirectRules.
  fold (configured_preSubmission definition_metadata).
  fold (configured_postSubmission definition_metadata).
  destruct (forallb _ (configured_preSubmission _) && _) eqn:Hpre; [|done].
  destruct (forallb _ (configured_postSubmission _)); [|done].
  destruct (Nat.eqb (length (configured_postSubmission _)) 0) eqn:Hlen; [done|].
  destruct (existsb _ _) eqn:Hfb; [|done]. intros _.
  apply andb_true_iff in Hpre as [_ Hone]. apply Nat.eqb_eq in Hone.
  apply Nat.eqb_neq in Hlen.
  split; [done|]. split; [by intros Hnil; rewrite Hnil in Hlen|].
  apply existsb_exists in Hfb as (r & Hin & Hr).
  apply andb_true_iff in Hr as [Hfrom Hgas].
  apply bool_decide_eq_true in Hfrom, Hgas.
  exists r. split; [by apply list_elem_of_In | by split].
Qed.

(** C7: [validateGrantRedirectRules] throws for every definition whose
    pre-submission rule list does not hold exactly one rule, whose
    post-submission rule list is empty, or whose post-submission rule list
    has no rule with [fromGrantsStatus] and [gasStatus] both [default]. *)
Theorem validateGrantRedirectRules_rejects (definition_metadata : option Metadata)
    (Hbad : length (configured_preSubmission definition_metadata) ≠ 1
            ∨ configured_postSubmission definition_metadata = []
            ∨ ¬ (∃ r, r ∈ configured_postSubmission definition_metadata ∧ is_fallback r)) :
  ∃ why,
    FormService.validateGrantRedirectRules definition_metadata = FormService.Rejected why.
Proof.
  pose proof (validateGrantRedirectRules_accepted definition_metadata) as Hok.
  destruct (FormService.validateGrantRedirectRules definition_metadata) as [|why].
  - destruct (Hok eq_refl) as (Hone & Hsome & Hfb).
    by destruct Hbad as [Hpre|[Hnil|Hno]].
  - by exists why.
Qed.

(** A witness of C7: the "good definition" of [form.test.js], whose only
    post-submission rule is SUBMITTED/RECEIVED, has no fallback and is
    rejected. *)
Lemma validateGrantRedirectRules_rejects_witness :
  ¬ (∃ r, r ∈ configured_postSubmission
              (Some (mkMetadata None None
                 (Some (mkRules (Some [mkPreRule (Some "/start")])
                          (Some [mkRule (Some "SUBMITTED") (Some "RECEIVED")
                                        (Some "SUBMITTED") (Some "/confirmation")])))))
          ∧ is_fallback r)
  ∧ ∃ why,
      FormService.validateGrantRedirectRules
        (Some (mkMetadata None None
           (Some (mkRules (Some [mkPreRule (Some "/start")])
                    (Some [mkRule (Some "SUBMITTED") (Some "RECEIVED")
                                  (Some "SUBMITTED") (Some "/confirmation")])))))
      = FormService.Rejected why.
Proof.
  assert (¬ (∃ r, r ∈ configured_postSubmission
              (Some (mkMetadata None None
                 (Some (mkRules (Some [mkPreRule (Some "/start")])
                          (Some [mkRule (Some "SUBMITTED") (Some "RECEIVED")
                                        (Some "SUBMITTED") (Some "/confirmation")])))))
          ∧ is_fallback r)) as Hno.
  { intros (r & Hin & Hfrom & _).
    apply elem_of_cons in Hin as [->|Hin]; [discriminate Hfrom|].
    by apply elem_of_nil in Hin. }
  split; [exact Hno|].
  apply validateGrantRedirectRules_rejects. right. right. exact Hno.
Defined.

(** A validated rule table never lets [mapStatusToUrl] throw. *)
Lemma validated_rules_total (definition_metadata : option Metadata) (fromStatus gas : string) :
  FormService.validateGrantRedirectRules definition_metadata = FormService.Accepted →
  ∃ rule,
    mapStatusToUrl fromStatus gas (configured_postSubmission definition_metadata)
    = Returned rule.
Proof.
  intros Hok. apply validateGrantRedirectRules_accepted in Hok as (_ & _ & r & Hin & Hfb).
  pose proof (mapStatusToUrl_thrown fromStatus gas
                (configured_postSubmission definition_metadata)) as Hthrown.
  destruct (mapStatusToUrl _ _ _) as [rule|e]; [by exists rule|].
  destruct (Hthrown e eq_refl r Hin). by apply fallback_applies.
Qed.

(** * Further properties of the status helper *)

(** ** What a validated grant guarantees *)

(** An accepted definition has rule lists that satisfy their schemas. *)
Lemma validateGrantRedirectRules_schemas (definition_metadata : option Metadata) :
  FormService.validateGrantRedirectRules definition_metadata = FormService.Accepted →
  Forall (fun rule => FormService.preSubmissionRuleSchema rule = true)
         (configured_preSubmission definition_metadata)
  ∧ Forall (fun rule => FormService.postSubmissionRuleSchema rule = true)
           (configured_postSubmission definition_metadata).
Proof.
  unfold FormService.validateGrantRedirectRules.
  fold (configured_preSubmission definition_metadata).
  fold (configured_postSubmission definition_metadata).
  destruct (forallb _ (configured_preSubmission _)) eqn:Hpre; [|done].
  destruct (forallb _ (configured_postSubmission _)) eqn:Hpost;
    [|by destruct (negb _)].
  intros _. split; apply Forall_forall; intros rule Hin.
  - rewrite forallb_forall in Hpre. by apply Hpre, list_elem_of_In.
  - rewrite forallb_forall in Hpost. by apply Hpost, list_elem_of_In.
Qed.

Lemma joi_path_some (v : option string) :
  FormService.joi_path v = true → ∃ p, v = Some p ∧ JS.startsWith "/" p = true.
Proof.
  destruct v as [p|]; simpl; [|done].
  intros [_ Hstart]%andb_true_iff. by exists p.
Qed.

(** The guard of a validated grant has its resume rule. *)
Lemma validated_resumes_at (request : Request) :
  FormService.validateGrantRedirectRules (metadata request) = FormService.Accepted →
  ∃ resumePath, resumes_at request resumePath.
Proof.
  intros Hok.
  pose proof (validateGrantRedirectRules_accepted _ Hok) as (Hone & _ & _).
  pose proof (validateGrantRedirectRules_schemas _ Hok) as [Hpre _].
  unfold configured_preSubmission in *. unfold resumes_at, request_grantRedirectRules.
  destruct (metadata request ≫= grantRedirectRules) as [rules|]; [|done].
  simpl in *. destruct (preSubmission rules) as [[|[toPath] others]|] eqn:Hrules; try done.
  apply Forall_cons in Hpre as [Hrule _].
  apply joi_path_some in Hrule as (p & Hp & _). simpl in Hp. subst toPath.
  by exists p, rules, others.
Qed.

(** The rule table of a validated grant answers (default, default) with a
    rule that has a path. *)
Lemma validated_fallback_path (request : Request) :
  FormService.validateGrantRedirectRules (metadata request) = FormService.Accepted →
  ∃ rule p,
    mapStatusToUrl "default" "default" (post_rules request) = Returned rule
    ∧ toPath rule = Some p.
Proof.
  intros Hok.
  pose proof (validateGrantRedirectRules_accepted _ Hok) as (_ & _ & r & Hin & Hfb).
  pose proof (validateGrantRedirectRules_schemas _ Hok) as [_ Hpost].
  change (configured_postSubmission (metadata request)) with (post_rules request) in *.
  pose proof (mapStatusToUrl_thrown "default" "default" (post_rules request)) as Hthrown.
  pose proof (find_first (rule_matches "default" "default") (post_rules request)) as Hfind.
  unfold mapStatusToUrl in *.
  destruct (List.find _ (post_rules request)) as [rule|].
  - destruct Hfind as (earlier & later & Hsplit & _).
    assert (rule ∈ post_rules request) as Hrule by (rewrite Hsplit; set_solver).
    rewrite Forall_forall in Hpost. specialize (Hpost rule Hrule).
    unfold FormService.postSubmissionRuleSchema in Hpost.
    apply andb_true_iff in Hpost as [_ Hpath].
    apply joi_path_some in Hpath as (p & Hp & _). by exists rule, p.
  - destruct (Hthrown _ eq_refl r Hin). by apply fallback_applies.
Qed.

(** X1: for a grant whose rules passed the start-up validation and whose
    metadata names a grant code, [formsStatusCallback] always answers with
    continue or a redirect; it never throws, whatever the previous status,
    the session state, the request path and the answers or failures of GAS
    and of the session store. *)
Theorem validated_grant_never_throws (env : Env) (request : Request) (context : Context)
    (slug grantCode : string) (tr : list event)
    (Hserved : served request slug grantCode)
    (Hvalid : FormService.validateGrantRedirectRules (metadata request)
              = FormService.Accepted) :
  ∃ answer, fst (formsStatusCallback env request context tr) = Returned answer.
Proof.
  destruct (validated_resumes_at _ Hvalid) as [resumePath Hresume].
  destruct (validated_fallback_path _ Hvalid) as (fallbackRule & p & Hfallback & Hp).
  destruct (shouldHandlePreSubmission (previous_status context)) eqn:Hguard.
  - apply shouldHandlePreSubmission_spec in Hguard.
    rewrite (formsStatusCallback_guard _ _ _ _ _ _ _ Hserved Hresume Hguard). by eexists.
  - assert (¬ pre_submission (previous_status context)) as Hnot.
    { intros H. apply shouldHandlePreSubmission_spec in H. congruence. }
    destruct (previous_status context) as [| | | |s| |] eqn:Hprev;
      try (rewrite (formsStatusCallback_other_status _ _ _ _ _ _ Hserved);
           [by eexists | by rewrite Hprev | by rewrite Hprev]).
    destruct (decide (s = "SUBMITTED")) as [->|Hs].
    + rewrite (formsStatusCallback_submitted _ _ _ _ _ _ Hserved Hprev).
      unfold try_catch.
      destruct (handlePostSubmission env request context _ _ _ tr) as [[answer|e] tr1];
        [by eexists|].
      unfold handlePostSubmissionError.
      destruct (decide (err_status e = _)); [by eexists|]. run.
      unfold post_rules in Hfallback. rewrite Hfallback, Hp.
      destruct (decide (path request = _)); by eexists.
    + rewrite (formsStatusCallback_other_status _ _ _ _ _ _ Hserved);
        [by eexists | by rewrite Hprev | rewrite Hprev; congruence].
Qed.

(** A witness of X1: the grant of the test-suite passes the validation, and
    a GAS outage still gets an answer. *)
Lemma validated_grant_never_throws_witness :
  served (Fixtures.request "grant-a" "/grant-a/start") "grant-a" "grant-a-code"
  ∧ FormService.validateGrantRedirectRules
      (metadata (Fixtures.request "grant-a" "/grant-a/start")) = FormService.Accepted
  ∧ ∃ answer,
      fst (formsStatusCallback (Fixtures.gas_throws (Error "server error"))
             (Fixtures.request "grant-a" "/grant-a/start")
             (Fixtures.context (Fixtures.status_only "SUBMITTED")) [])
      = Returned answer.
Proof.
  assert (served (Fixtures.request "grant-a" "/grant-a/start") "grant-a" "grant-a-code")
    as Hserved by (repeat split; discriminate).
  assert (FormService.validateGrantRedirectRules
            (metadata (Fixtures.request "grant-a" "/grant-a/start")) = FormService.Accepted)
    as Hvalid by (by vm_compute).
  split; [exact Hserved|]. split; [exact Hvalid|].
  exact (validated_grant_never_throws (Fixtures.gas_throws (Error "server error"))
           (Fixtures.request "grant-a" "/grant-a/start")
           (Fixtures.context (Fixtures.status_only "SUBMITTED"))
           "grant-a" "grant-a-code" [] Hserved Hvalid).
Defined.

(** ** Where the orchestrator sends the applicant *)

Lemma buildRedirectUrl_under_slug (slug p : string) :
  ∃ rest, buildRedirectUrl slug p = "/" +:+ slug +:+ "/" +:+ rest.
Proof.
  unfold buildRedirectUrl. destruct (JS.startsWith "/" p) eqn:Hstart.
  - apply startsWith_slash in Hstart as (rest & ->). by exists rest.
  - by exists p.
Qed.

Lemma preSubmissionRedirect_target request context slug tr url :
  params_slug request = Some slug →
  fst (preSubmissionRedirect request context tr) = Returned (Redirect url) →
  ∃ p, url = buildRedirectUrl slug p.
Proof.
  intros Hslug. unfold preSubmissionRedirect. rewrite Hslug. run.
  destruct (request_grantRedirectRules request) as [rules|]; [|done].
  destruct (preSubmission rules) as [[|[[p|]] others]|]; try done. simpl.
  destruct (_ && _ && _); [|done]. intros [= <-]. by exists p.
Qed.

Lemma handlePostSubmission_target env request context previousStatus grantCode rules slug
    tr url :
  params_slug request = Some slug →
  fst (handlePostSubmission env request context previousStatus grantCode rules tr)
  = Returned (Redirect url) →
  url = agreements_baseUrl env ∨ ∃ p, url = buildRedirectUrl slug p.
Proof.
  intros Hslug. unfold handlePostSubmission, redirectUrl_of_rule. rewrite Hslug. run.
  destruct (getApplicationStatus env grantCode _) as [gas|e]; [|done].
  destruct (mapStatusToUrl _ _ _) as [rule|e]; simpl; [|done].
  destruct (persistStatus env request _ _ _ _) as [[[]|e] tr1]; [|done].
  destruct (shouldContinueDefault _ _ _); [done|].
  destruct (decide (toPath rule = _)).
  - destruct (decide (path request = _)); [done|]. intros [= <-]. by left.
  - destruct (toPath rule) as [p|]; simpl; [|done].
    destruct (decide (path request = _)); [done|]. intros [= <-]. right. by exists p.
Qed.

Lemma handlePostSubmissionError_target err request context grantId grantCode rules tr url :
  fst (handlePostSubmissionError err request context grantId grantCode rules tr)
  = Returned (Redirect url) →
  ∃ p, url = buildRedirectUrl grantId p.
Proof.
  unfold handlePostSubmissionError. run.
  destruct (decide (err_status err = _)); [done|].
  destruct (mapStatusToUrl _ _ _) as [rule|e]; simpl; [|done].
  destruct (toPath rule) as [p|]; simpl; [|done].
  destruct (decide (path request = _)); [done|]. intros [= <-]. by exists p.
Qed.

(** X2: every redirect the orchestrator issues for a served grant goes
    either to the agreements base URL or to a path under the grant's own
    slug, [/{slug}/...]; no rule can send the applicant elsewhere. *)
Theorem redirects_stay_under_slug (env : Env) (request : Request) (context : Context)
    (slug grantCode url : string) (tr : list event)
    (Hserved : served request slug grantCode)
    (Hredirect : fst (formsStatusCallback env request context tr)
                 = Returned (Redirect url)) :
  url = agreements_baseUrl env ∨ ∃ rest, url = "/" +:+ slug +:+ "/" +:+ rest.
Proof.
  assert (params_slug request = Some slug) as Hslug by apply Hserved.
  assert ((∃ p, url = buildRedirectUrl slug p) →
          url = agreements_baseUrl env ∨ ∃ rest, url = "/" +:+ slug +:+ "/" +:+ rest)
    as Hunder.
  { intros (p & ->). right. apply buildRedirectUrl_under_slug. }
  destruct (shouldHandlePreSubmission (previous_status context)) eqn:Hguard.
  - apply shouldHandlePreSubmission_spec in Hguard.
    rewrite (formsStatusCallback_diverted _ _ _ _ _ _ Hserved Hguard) in Hredirect.
    by apply Hunder, (preSubmissionRedirect_target _ _ _ _ _ Hslug Hredirect).
  - assert (¬ pre_submission (previous_status context)) as Hnot.
    { intros H. apply shouldHandlePreSubmission_spec in H. congruence. }
    destruct (previous_status context) as [| | | |s| |] eqn:Hprev;
      try (rewrite (formsStatusCallback_other_status _ _ _ _ _ _ Hserved) in Hredirect;
           [done | by rewrite Hprev | by rewrite Hprev]).
    destruct (decide (s = "SUBMITTED")) as [->|Hs].
    + rewrite (formsStatusCallback_submitted _ _ _ _ _ _ Hserved Hprev) in Hredirect.
      unfold try_catch in Hredirect.
      pose proof (handlePostSubmission_target env request context "SUBMITTED" grantCode
                    (request_grantRedirectRules request) slug tr url Hslug) as Hpost.
      destruct (handlePostSubmission env request context _ _ _ tr) as [[answer|e] tr1].
      * destruct (Hpost Hredirect) as [->|Hp]; [by left | by apply Hunder].
      * by apply Hunder, (handlePostSubmissionError_target _ _ _ _ _ _ _ _ Hredirect).
    + rewrite (formsStatusCallback_other_status _ _ _ _ _ _ Hserved) in Hredirect;
        [done | by rewrite Hprev | rewrite Hprev; congruence].
Qed.

(** A witness of X2: the redirect to the confirmation page of grant-a. *)
Lemma redirects_stay_under_slug_witness :
  served (Fixtures.request "grant-a" "/grant-a/start") "grant-a" "grant-a-code"
  ∧ fst (formsStatusCallback (Fixtures.gas_returns "RECEIVED")
           (Fixtures.request "grant-a" "/grant-a/start")
           (Fixtures.context (Fixtures.status_only "SUBMITTED")) [])
    = Returned (Redirect "/grant-a/confirmation")
  ∧ ("/grant-a/confirmation" = agreements_baseUrl (Fixtures.gas_returns "RECEIVED")
     ∨ ∃ rest, "/grant-a/confirmation" = "/" +:+ "grant-a" +:+ "/" +:+ rest).
Proof.
  assert (served (Fixtures.request "grant-a" "/grant-a/start") "grant-a" "grant-a-code")
    as Hserved by (repeat split; discriminate).
  assert (fst (formsStatusCallback (Fixtures.gas_returns "RECEIVED")
                 (Fixtures.request "grant-a" "/grant-a/start")
                 (Fixtures.context (Fixtures.status_only "SUBMITTED")) [])
          = Returned (Redirect "/grant-a/confirmation")) as Hredirect by (by vm_compute).
  split; [exact Hserved|]. split; [exact Hredirect|].
  exact (redirects_stay_under_slug (Fixtures.gas_returns "RECEIVED")
           (Fixtures.request "grant-a" "/grant-a/start")
           (Fixtures.context (Fixtures.status_only "SUBMITTED"))
           "grant-a" "grant-a-code" "/grant-a/confirmation" [] Hserved Hredirect).
Defined.

(** ** What one reconciliation calls *)

Lemma persistStatus_calls env request newStatus previousStatus grantId tr :
  snd (persistStatus env request newStatus previousStatus grantId tr) = tr
  ∨ ∃ write, is_status_write write
      ∧ snd (persistStatus env request newStatus previousStatus grantId tr) = tr ++ [write].
Proof.
  unfold persistStatus.
  destruct (decide (newStatus = Some previousStatus)); [by left|]. right.
  destruct (decide (newStatus = Some "CLEARED")).
  - eexists. split; [left; by eexists | done].
  - eexists. split; [right; by eexists _, _ | done].
Qed.

Lemma handlePostSubmission_calls env request context previousStatus grantCode rules tr :
  snd (handlePostSubmission env request context previousStatus grantCode rules tr)
  = tr ++ [gas_query grantCode context]
  ∨ ∃ write, is_status_write write
      ∧ snd (handlePostSubmission env request context previousStatus grantCode rules tr)
        = tr ++ [gas_query grantCode context; write].
Proof.
  unfold handlePostSubmission. run.
  destruct (getApplicationStatus env grantCode _) as [gas|e]; [|by left].
  destruct (mapStatusToUrl _ _ _) as [rule|e]; simpl; [|by left].
  pose proof (persistStatus_calls env request (toGrantsStatus rule) previousStatus
                (params_slug request) (tr ++ [gas_query grantCode context])) as Hpersist.
  unfold gas_query in *.
  destruct (persistStatus env request _ _ _ _) as [[[]|e] tr1]; simpl in Hpersist.
  - assert (tr1 = tr ++ [EvGetApplicationStatus grantCode
                           (JS.toLowerCase (referenceNumber context))]
            ∨ ∃ write, is_status_write write
                ∧ tr1 = tr ++ [EvGetApplicationStatus grantCode
                                 (JS.toLowerCase (referenceNumber context)); write])
      as Hshape.
    { destruct Hpersist as [->|(write & Hwrite & ->)]; [by left|].
      right. exists write. split; [done|]. by rewrite <- app_assoc. }
    clear Hpersist.
    destruct (shouldContinueDefault _ _ _); [exact Hshape|].
    pose proof (redirectUrl_of_rule_snd env (params_slug request) rule tr1) as Hsnd.
    destruct (redirectUrl_of_rule env _ rule tr1) as [[dest|e] tr2];
      simpl in Hsnd; subst tr2; [|exact Hshape].
    destruct (decide _); exact Hshape.
  - destruct Hpersist as [->|(write & Hwrite & ->)]; [by left|].
    right. exists write. split; [done|]. by rewrite <- app_assoc.
Qed.

Lemma handlePostSubmissionError_calls err request context grantId grantCode rules tr :
  snd (handlePostSubmissionError err request context grantId grantCode rules tr) = tr
  ∨ ∃ entry, is_log_entry entry
      ∧ snd (handlePostSubmissionError err request context grantId grantCode rules tr)
        = tr ++ [entry].
Proof.
  unfold handlePostSubmissionError. run.
  destruct (decide (err_status err = _)); [by left|]. right.
  eexists. split; [by eexists _, _, _|].
  destruct (mapStatusToUrl _ _ _) as [rule|e]; simpl; [|done].
  destruct (toPath rule) as [p|]; simpl; [|done].
  by destruct (decide (path request = _)).
Qed.

(** X3: one run of [formsStatusCallback] makes no external call at all, or
    it queries GAS once and then makes at most one status write followed by
    at most one log entry; it never writes or logs before it has queried
    GAS, and never does either twice. *)
Theorem reconciliation_calls_in_order (env : Env) (request : Request) (context : Context)
    (tr : list event) :
  ∃ calls,
    snd (formsStatusCallback env request context tr) = tr ++ calls
    ∧ reconciliation_calls calls.
Proof.
  assert (∀ o : outcome response * list event, snd o = tr →
            ∃ calls, snd o = tr ++ calls ∧ reconciliation_calls calls) as Hnone.
  { intros o ->. exists []. split; [by rewrite app_nil_r | by left]. }
  unfold formsStatusCallback.
  destruct (params_slug request) as [grantId|]; [|by apply Hnone].
  destruct (String.eqb grantId ""); [by apply Hnone|]. run.
  destruct (getGrantCode request) as [grantCode|e]; [|by apply Hnone].
  destruct (shouldHandlePreSubmission _);
    [apply Hnone, preSubmissionRedirect_pure|].
  destruct (get_field (state context) "applicationStatus") as [| | | |s| |];
    try by apply Hnone.
  destruct (negb (bool_decide (s = "SUBMITTED"))); [by apply Hnone|].
  pose proof (handlePostSubmission_calls env request context s grantCode
                (request_grantRedirectRules request) tr) as Hpost.
  destruct (handlePostSubmission env request context s grantCode _ tr)
    as [[answer|e] tr1]; simpl in Hpost.
  - destruct Hpost as [->|(write & Hwrite & ->)]; eexists; (split; [done|]);
      right; exists (gas_query grantCode context);
      (split; [by eexists _, _|]); [by left | right; left; by exists write].
  - pose proof (handlePostSubmissionError_calls e request context grantId grantCode
                  (request_grantRedirectRules request) tr1) as Hhandler.
    destruct Hhandler as [->|(entry & Hentry & ->)];
      destruct Hpost as [->|(write & Hwrite & ->)];
      rewrite <- ?app_assoc; simpl; eexists; (split; [done|]);
      right; exists (gas_query grantCode context); (split; [by eexists _, _|]).
    + by left.
    + right; left. by exists write.
    + right; right; left. by exists entry.
    + right; right; right. by exists write, entry.
Qed.

(** ** Requests the orchestrator cannot reconcile *)

(** X4: without a slug on the route the orchestrator continues and calls
    nobody, even when the grant code is missing; with a slug and without a
    grant code it throws the configuration error before it looks at the
    status, for every previous status, and calls nobody either. *)
Theorem slug_and_grantCode_come_first (env : Env) (request : Request) (context : Context)
    (tr : list event) :
  (falsy (params_slug request) = true →
     formsStatusCallback env request context tr = (Returned Continue, tr))
  ∧ (falsy (params_slug request) = false →
     falsy (request_grantCode request) = true →
     formsStatusCallback env request context tr = (Thrown grantCode_missing, tr)).
Proof.
  unfold formsStatusCallback, falsy, getGrantCode. split.
  - destruct (params_slug request) as [slug|]; [|done]. by intros ->.
  - destruct (params_slug request) as [slug|]; [|done]. intros -> Hcode. run.
    destruct (request_grantCode request) as [grantCode|]; [|done]. by rewrite Hcode.
Qed.

(** A witness of X4: the request of 'throws an error if grantCode is
    missing', here for a CLEARED application. *)
Lemma slug_and_grantCode_come_first_witness :
  formsStatusCallback (Fixtures.gas_returns "RECEIVED")
    (mkRequest (Some "grant-a") "/grant-a/start"
       (Some (mkMetadata None None (grantRedirectRules Fixtures.grantMetadata)))
       (Some "12345"))
    (Fixtures.context (Fixtures.status_only "CLEARED")) []
  = (Thrown grantCode_missing, []).
Proof.
  apply (slug_and_grantCode_come_first (Fixtures.gas_returns "RECEIVED")
           (mkRequest (Some "grant-a") "/grant-a/start"
              (Some (mkMetadata None None (grantRedirectRules Fixtures.grantMetadata)))
              (Some "12345"))
           (Fixtures.context (Fixtures.status_only "CLEARED")) []);
    reflexivity.
Defined.

(** Without an applicable rule [mapStatusToUrl] throws, and its message
    names the two statuses. *)
Lemma mapStatusToUrl_no_rule (fromStatus gas : string) (rules : list RedirectRule) :
  (∀ r, r ∈ rules → ¬ rule_applies fromStatus gas r) →
  mapStatusToUrl fromStatus gas rules
  = Thrown (Error ("No redirect rule found for fromGrantsStatus=" +:+ fromStatus
                   +:+ " gasStatus=" +:+ gas)).
Proof.
  intros Hnone. unfold mapStatusToUrl.
  pose proof (find_first (rule_matches fromStatus gas) rules) as Hfind.
  destruct (List.find _ rules) as [rule|]; [|done].
  destruct Hfind as (earlier & later & -> & Hrule & _).
  apply rule_matches_applies in Hrule. destruct (Hnone rule); [set_solver | done].
Qed.

(** X5: when the post-submission handler fails with anything but a 404 (GAS
    is down, no rule matches the GAS status, the status write fails) and no
    rule of the table applies to (default, default), the failure is logged
    and the orchestrator then throws the matcher's error, "No redirect rule
    found for fromGrantsStatus=default gasStatus=default", in place of the
    original one. *)
Theorem failure_without_fallback_throws (env : Env) (request : Request) (context : Context)
    (slug grantCode : string) (err : JsError) (tr tr1 : list event)
    (Hserved : served request slug grantCode)
    (Hprev : previous_status context = VStr "SUBMITTED")
    (Hfails : handlePostSubmission env request context "SUBMITTED" grantCode
                (request_grantRedirectRules request) tr = (Thrown err, tr1))
    (Hother : err_status err ≠ Some 404%Z)
    (Hnone : ∀ r, r ∈ post_rules request → ¬ rule_applies "default" "default" r) :
  formsStatusCallback env request context tr
  = (Thrown (Error "No redirect rule found for fromGrantsStatus=default gasStatus=default"),
     tr1 ++ [EvLog grantCode (referenceNumber context) (err_message err)]).
Proof.
  rewrite (formsStatusCallback_submitted _ _ _ _ _ _ Hserved Hprev).
  unfold try_catch. rewrite Hfails.
  unfold handlePostSubmissionError, statusCodes.notFound.
  rewrite decide_False by done. run.
  fold (post_rules request).
  by rewrite (mapStatusToUrl_no_rule "default" "default" (post_rules request) Hnone).
Qed.

(** A witness of X5: 'throws when no redirect rule matches the
    combination'. *)
Lemma failure_without_fallback_throws_witness :
  formsStatusCallback (Fixtures.gas_returns "UNEXPECTED_STATUS")
    (mkRequest (Some "grant-a") "/grant-a/start"
       (Some (mkMetadata (Some "grant-a-code") None
                (Some (mkRules (Some [mkPreRule (Some "/check-selected-land-actions")])
                         (Some [mkRule (Some "SUBMITTED") (Some "KNOWN_STATUS") None
                                       (Some "/known")])))))
       (Some "12345"))
    (Fixtures.context (Fixtures.status_only "SUBMITTED")) []
  = (Thrown (Error "No redirect rule found for fromGrantsStatus=default gasStatus=default"),
     [EvGetApplicationStatus "grant-a-code" "ref-001";
      EvLog "grant-a-code" "REF-001"
        "No redirect rule found for fromGrantsStatus=SUBMITTED gasStatus=UNEXPECTED_STATUS"]).
Proof.
  refine (failure_without_fallback_throws (Fixtures.gas_returns "UNEXPECTED_STATUS")
            (mkRequest (Some "grant-a") "/grant-a/start"
               (Some (mkMetadata (Some "grant-a-code") None
                        (Some (mkRules (Some [mkPreRule (Some "/check-selected-land-actions")])
                                 (Some [mkRule (Some "SUBMITTED") (Some "KNOWN_STATUS") None
                                               (Some "/known")])))))
               (Some "12345"))
            (Fixtures.context (Fixtures.status_only "SUBMITTED"))
            "grant-a" "grant-a-code"
            (Error "No redirect rule found for fromGrantsStatus=SUBMITTED gasStatus=UNEXPECTED_STATUS")
            [] [EvGetApplicationStatus "grant-a-code" "ref-001"] _ eq_refl _ _ _).
  - repeat split; discriminate.
  - by vm_compute.
  - discriminate.
  - intros r Hin. apply elem_of_cons in Hin as [->|Hin]; [|by apply elem_of_nil in Hin].
    apply rule_matches_not_applies. by vm_compute.
Defined.

(** ** The no-regression cases inside the post-submission handler *)

(** X6: once GAS has answered, a rule has matched and its status has been
    persisted, [handlePostSubmission] called for an application that is not
    SUBMITTED returns continue in the two no-regression cases
    (AWAITING_AMENDMENTS to REOPENED; APPLICATION_WITHDRAWN to CLEARED from a
    status that is not REOPENED either), whatever the request path and even
    for a rule without [toPath]: the cases suppress the redirect only, the
    persistence step has already run. *)
Theorem no_regression_suppresses_redirect (env : Env) (request : Request)
    (context : Context) (previousStatus grantCode gas : string)
    (rules : option GrantRedirectRules) (rule : RedirectRule) (tr tr' : list event)
    (Hgas : getApplicationStatus env grantCode (JS.toLowerCase (referenceNumber context))
            = Returned gas)
    (Hrule : mapStatusToUrl previousStatus gas (postSubmission_or_empty rules)
             = Returned rule)
    (Hpersist : persistStatus env request (toGrantsStatus rule) previousStatus
                  (params_slug request) (tr ++ [gas_query grantCode context])
                = (Returned tt, tr'))
    (Hcase : (gas = "AWAITING_AMENDMENTS" ∧ toGrantsStatus rule = Some "REOPENED"
              ∧ previousStatus ≠ "SUBMITTED")
             ∨ (gas = "APPLICATION_WITHDRAWN" ∧ toGrantsStatus rule = Some "CLEARED"
                ∧ previousStatus ≠ "SUBMITTED" ∧ previousStatus ≠ "REOPENED")) :
  handlePostSubmission env request context previousStatus grantCode rules tr
  = (Returned Continue, tr').
Proof.
  unfold handlePostSubmission. run. rewrite Hgas, Hrule. simpl.
  unfold gas_query in Hpersist. rewrite Hpersist.
  assert (shouldContinueDefault gas (toGrantsStatus rule) previousStatus = true) as ->;
    [|done].
  unfold shouldContinueDefault.
  destruct Hcase as [(-> & -> & Hprev)|(-> & -> & Hsub & Hre)].
  - rewrite (bool_decide_eq_false_2 _ Hprev). by vm_compute.
  - apply orb_true_iff. right.
    rewrite (bool_decide_eq_false_2 (previousStatus ∈ _)); [by vm_compute|].
    intros Hin. apply elem_of_cons in Hin as [->|Hin]; [done|].
    apply elem_of_cons in Hin as [->|Hin]; [done|]. by apply elem_of_nil in Hin.
Qed.

(** A witness of X6: the handler called for an application that is already
    REOPENED, on the start page, far from the rule's /summary. *)
Lemma no_regression_suppresses_redirect_witness :
  handlePostSubmission (Fixtures.gas_returns "AWAITING_AMENDMENTS")
    (Fixtures.request "grant-a" "/grant-a/start")
    (Fixtures.context (Fixtures.status_only "REOPENED")) "REOPENED" "grant-a-code"
    (grantRedirectRules Fixtures.grantMetadata) []
  = (Returned Continue, [EvGetApplicationStatus "grant-a-code" "ref-001"]).
Proof.
  refine (no_regression_suppresses_redirect (Fixtures.gas_returns "AWAITING_AMENDMENTS")
            (Fixtures.request "grant-a" "/grant-a/start")
            (Fixtures.context (Fixtures.status_only "REOPENED")) "REOPENED" "grant-a-code"
            "AWAITING_AMENDMENTS" (grantRedirectRules Fixtures.grantMetadata)
            (mkRule (Some "REOPENED") (Some "default") (Some "REOPENED") (Some "/summary"))
            [] [EvGetApplicationStatus "grant-a-code" "ref-001"] eq_refl _ _ _).
  - by vm_compute.
  - by vm_compute.
  - left. repeat split. discriminate.
Defined.

(** ** More on rule matching *)

(** X7: rules declared after the first applicable one never change the
    result: a table extended at its end gives the same rule whenever the
    shorter table gives one, and when the shorter table has no applicable
    rule the answer is that of the added rules alone. *)
Theorem mapStatusToUrl_extension (fromStatus gas : string) (rules more : list RedirectRule) :
  (∀ rule, mapStatusToUrl fromStatus gas rules = Returned rule →
           mapStatusToUrl fromStatus gas (rules ++ more) = Returned rule)
  ∧ (∀ e, mapStatusToUrl fromStatus gas rules = Thrown e →
          mapStatusToUrl fromStatus gas (rules ++ more) = mapStatusToUrl fromStatus gas more).
Proof.
  unfold mapStatusToUrl.
  assert (List.find (rule_matches fromStatus gas) (rules ++ more)
          = match List.find (rule_matches fromStatus gas) rules with
            | Some rule => Some rule
            | None => List.find (rule_matches fromStatus gas) more
            end) as ->.
  { induction rules as [|r rules IH]; simpl; [done|]. by destruct (rule_matches _ _ r). }
  split.
  - intros rule. by destruct (List.find _ rules).
  - intros e. by destruct (List.find _ rules).
Qed.

(** A witness of X7: a custom rule put before the table of the test-suite
    wins, the table put after it changes nothing. *)
Lemma mapStatusToUrl_extension_witness :
  mapStatusToUrl "SUBMITTED" "RECEIVED"
    ([mkRule (Some "SUBMITTED") (Some "RECEIVED") None (Some "/custom-path")]
     ++ Fixtures.postSubmissionRules)
  = Returned (mkRule (Some "SUBMITTED") (Some "RECEIVED") None (Some "/custom-path")).
Proof.
  apply (mapStatusToUrl_extension "SUBMITTED" "RECEIVED"
           [mkRule (Some "SUBMITTED") (Some "RECEIVED") None (Some "/custom-path")]
           Fixtures.postSubmissionRules).
  by vm_compute.
Defined.

(** X8: a rule that leaves [fromGrantsStatus] and [gasStatus] out, or has
    them empty, applies to every pair of statuses; at the head of a table it
    is the rule returned for every pair. *)
Theorem rule_without_statuses_matches_all (fromStatus gas : string) (rule : RedirectRule)
    (rules : list RedirectRule)
    (Hfrom : falsy (fromGrantsStatus rule) = true)
    (Hgas : falsy (gasStatus rule) = true) :
  rule_applies fromStatus gas rule
  ∧ mapStatusToUrl fromStatus gas (rule :: rules) = Returned rule.
Proof.
  assert (∀ field, falsy field = true → "default" ∈ status_list field) as Hdefault.
  { intros [s|]; simpl; [|intros _; by vm_compute; left].
    intros ->%String.eqb_eq. vm_compute. left. }
  assert (rule_applies fromStatus gas rule) as Happlies.
  { split; right; by apply Hdefault. }
  split; [done|].
  unfold mapStatusToUrl. simpl.
  by rewrite (proj2 (rule_matches_applies fromStatus gas rule) Happlies).
Qed.

(** A witness of X8: 'uses default when redirect rule has no
    fromGrantsStatus or gasStatus'. *)
Lemma rule_without_statuses_matches_all_witness :
  rule_applies "SUBMITTED" "RECEIVED" (mkRule None None (Some "SUBMITTED") (Some "/confirmation"))
  ∧ mapStatusToUrl "SUBMITTED" "RECEIVED"
      [mkRule None None (Some "SUBMITTED") (Some "/confirmation")]
    = Returned (mkRule None None (Some "SUBMITTED") (Some "/confirmation")).
Proof.
  exact (rule_without_statuses_matches_all "SUBMITTED" "RECEIVED"
           (mkRule None None (Some "SUBMITTED") (Some "/confirmation")) [] eq_refl eq_refl).
Defined.

(** ** Splitting and trimming a status field *)

Lemma append_cons (a : ascii) (s t : string) : String a s +:+ t = String a (s +:+ t).
Proof. reflexivity. Qed.

Lemma split_not_nil (sep : ascii) (s : string) : JS.split sep s ≠ [].
Proof.
  destruct s as [|c s]; simpl; [done|].
  destruct (Ascii.eqb c sep); [done|]. by destruct (JS.split sep s).
Qed.

Lemma join_cons (sep piece : string) (pieces : list string) :
  pieces ≠ [] → join sep (piece :: pieces) = piece +:+ sep +:+ join sep pieces.
Proof. by destruct pieces. Qed.

Lemma free_of_cons (sep c : ascii) (s : string) :
  free_of sep (String c s) ↔ sep ≠ c ∧ free_of sep s.
Proof. unfold free_of. simpl. by rewrite not_elem_of_cons. Qed.

Lemma join_split (sep : ascii) (s : string) :
  join (String sep "") (JS.split sep s) = s.
Proof.
  induction s as [|c s IH]; [done|]. simpl.
  pose proof (split_not_nil sep s) as Hne.
  destruct (Ascii.eqb_spec c sep) as [->|Hc].
  - rewrite join_cons by done. by rewrite IH.
  - destruct (JS.split sep s) as [|piece pieces]; [done|].
    destruct pieces as [|next pieces].
    + simpl in *. by rewrite IH.
    + rewrite join_cons in IH by done. rewrite join_cons by done.
      by rewrite append_cons, IH.
Qed.

Lemma split_free (sep : ascii) (s : string) :
  Forall (free_of sep) (JS.split sep s).
Proof.
  induction s as [|c s IH]; simpl.
  - repeat constructor. unfold free_of. simpl. apply not_elem_of_nil.
  - destruct (Ascii.eqb_spec c sep) as [->|Hc].
    + constructor; [|done]. unfold free_of. simpl. apply not_elem_of_nil.
    + destruct (JS.split sep s) as [|piece pieces].
      * repeat constructor. apply free_of_cons. split; [done|].
        unfold free_of. simpl. apply not_elem_of_nil.
      * apply Forall_cons in IH as [Hpiece Hpieces]. constructor; [|done].
        apply free_of_cons. by split.
Qed.

Lemma split_free_piece (sep : ascii) (piece : string) :
  free_of sep piece → JS.split sep piece = [piece].
Proof.
  induction piece as [|c piece IH]; [done|].
  intros [Hc Hfree]%free_of_cons. simpl.
  destruct (Ascii.eqb_spec c sep) as [->|_]; [done|]. by rewrite IH.
Qed.

Lemma split_append (sep : ascii) (piece rest : string) :
  free_of sep piece →
  JS.split sep (piece +:+ String sep rest) = piece :: JS.split sep rest.
Proof.
  induction piece as [|c piece IH]; intros Hfree.
  - change ("" +:+ String sep rest) with (String sep rest). simpl.
    by rewrite Ascii.eqb_refl.
  - apply free_of_cons in Hfree as [Hc Hfree]. rewrite append_cons. simpl.
    destruct (Ascii.eqb_spec c sep) as [->|_]; [done|]. by rewrite IH.
Qed.

Lemma split_join (sep : ascii) (pieces : list string) :
  pieces ≠ [] → Forall (free_of sep) pieces →
  JS.split sep (join (String sep "") pieces) = pieces.
Proof.
  induction pieces as [|piece pieces IH]; [done|]. intros _ [Hpiece Hpieces]%Forall_cons.
  destruct pieces as [|next pieces].
  - by apply split_free_piece.
  - rewrite join_cons by done. change (String sep "" +:+ ?t) with (String sep t).
    rewrite split_append by done. by rewrite IH.
Qed.

(** X9: the entries [split] cuts a status field into contain no separator
    and, joined by the separator, give the field back; conversely, a
    non-empty list of separator-free entries joined by the separator splits
    into exactly those entries.  So a field lists what is written between its
    commas, empty entries included. *)
Theorem split_round_trip (sep : ascii) :
  (∀ s, join (String sep "") (JS.split sep s) = s
        ∧ Forall (free_of sep) (JS.split sep s)
        ∧ JS.split sep s ≠ [])
  ∧ (∀ pieces, pieces ≠ [] → Forall (free_of sep) pieces →
               JS.split sep (join (String sep "") pieces) = pieces).
Proof.
  split.
  - intros s. split; [apply join_split|]. split; [apply split_free | apply split_not_nil].
  - apply split_join.
Qed.

(** A witness of X9: the offer statuses of the shared rule. *)
Lemma split_round_trip_witness :
  JS.split "," (join "," ["OFFER_SENT"; "OFFER_WITHDRAWN"; "OFFER_ACCEPTED"])
  = ["OFFER_SENT"; "OFFER_WITHDRAWN"; "OFFER_ACCEPTED"].
Proof.
  apply (split_round_trip ","); [done|].
  repeat constructor; unfold free_of; simpl;
    (intros Hin; repeat (apply elem_of_cons in Hin as [Hin|Hin]; [discriminate Hin|]);
     by apply elem_of_nil in Hin).
Defined.

Lemma trimStart_space (s : string) : JS.trimStart (String " " s) = JS.trimStart s.
Proof.
  unfold JS.trimStart.
  change (String.length (String " " s)) with (S (String.length s)).
  assert (JS.strip_any JS.white_space (String " " s) = Some s) as Hstrip
    by reflexivity.
  cbn [JS.strip_all]. by rewrite Hstrip.
Qed.

Lemma trim_space (s : string) : JS.trim (String " " s) = JS.trim s.
Proof. unfold JS.trim. by rewrite trimStart_space. Qed.

Lemma split_cons_other (sep c : ascii) (s : string) :
  c ≠ sep →
  JS.split sep (String c s)
  = match JS.split sep s with
    | piece :: pieces => String c piece :: pieces
    | [] => [String c ""]
    end.
Proof. intros Hc. simpl. by destruct (Ascii.eqb_spec c sep). Qed.

(** What [split(',')] makes of entries joined by a comma and a space. *)
Lemma split_spaced (entry : string) (entries : list string) :
  Forall (free_of ",") (entry :: entries) →
  JS.split "," (join ", " (entry :: entries)) = entry :: (String " " <$> entries).
Proof.
  revert entry. induction entries as [|next entries IH]; intros entry Hfree.
  - apply Forall_cons in Hfree as [Hentry _]. by apply split_free_piece.
  - apply Forall_cons in Hfree as [Hentry Hfree].
    rewrite join_cons by done.
    change (", " +:+ ?t) with (String "," (String " " t)).
    rewrite split_append by done. f_equal.
    rewrite split_cons_other by discriminate. by rewrite (IH next Hfree).
Qed.

(** X10: a status field written as entries separated by a comma, or by a
    comma and a space, lists exactly those entries, provided no entry holds a
    comma or has white space at its ends and the field is not empty; an
    empty or absent field lists [default] alone. *)
Theorem status_list_entries (entries : list string)
    (Hfree : Forall (free_of ",") entries)
    (Htrimmed : Forall (fun entry => JS.trim entry = entry) entries) :
  (join "," entries ≠ "" → status_list (Some (join "," entries)) = entries)
  ∧ (join ", " entries ≠ "" → status_list (Some (join ", " entries)) = entries)
  ∧ status_list (Some "") = ["default"]
  ∧ status_list None = ["default"].
Proof.
  assert (∀ l : list string, Forall (fun entry => JS.trim entry = entry) l →
                             JS.trim <$> l = l) as Htrim.
  { induction 1 as [|e l He _ IH]; csimpl; [done|]. by rewrite He, IH. }
  split; [|split; [|split; by vm_compute]].
  - intros Hne. unfold status_list, or_default. rewrite decide_False by done.
    destruct entries as [|entry entries]; [done|].
    change (join "," (entry :: entries)) with (join (String "," "") (entry :: entries)).
    rewrite split_join by done. by apply Htrim.
  - intros Hne. unfold status_list, or_default. rewrite decide_False by done.
    destruct entries as [|entry entries]; [done|].
    rewrite split_spaced by done.
    apply Forall_cons in Htrimmed as [Hentry Hentries]. csimpl. rewrite Hentry. f_equal.
    rewrite <- list_fmap_compose.
    rewrite <- (Htrim entries Hentries) at 2.
    apply list_fmap_ext. intros _ e _. simpl. apply trim_space.
Qed.

(** A witness of X10: "SUBMITTED, REOPENED". *)
Lemma status_list_entries_witness :
  status_list (Some (join ", " ["SUBMITTED"; "REOPENED"])) = ["SUBMITTED"; "REOPENED"].
Proof.
  refine (proj1 (proj2 (status_list_entries ["SUBMITTED"; "REOPENED"] _ _)) _).
  - repeat constructor; unfold free_of; simpl;
      (intros Hin; repeat (apply elem_of_cons in Hin as [Hin|Hin]; [discriminate Hin|]);
       by apply elem_of_nil in Hin).
  - repeat constructor; by vm_compute.
  - discriminate.
Defined.

(** * Properties of the start-up loading *)

(** ** The whitelist configuration *)

Lemma falsy_unset (v : option string) : falsy v = true ↔ unset v.
Proof.
  unfold unset. destruct v as [s|]; simpl.
  - rewrite String.eqb_eq. split; [intros ->; by right | by intros [?|[= ->]]].
  - split; [by left | done].
Qed.

Lemma env_falsy_get (process_env : FormStartup.environment) (name : string) :
  FormStartup.env_falsy (FormStartup.process_env_get process_env name) = false
  ↔ (∃ value, process_env !! name = Some value ∧ value ≠ "")
    ∨ inherited_name process_env name.
Proof.
  unfold FormStartup.process_env_get, inherited_name.
  destruct (process_env !! name) as [value|]; simpl.
  - rewrite String.eqb_neq. split.
    + intros Hvalue. left. by exists value.
    + by intros [(value' & [= <-] & Hvalue)|[[=] _]].
  - destruct (decide (name ∈ FormStartup.Object_prototype_properties)) as [Hin|Hout].
    + rewrite bool_decide_eq_true_2 by done. simpl. split; [by right | done].
    + rewrite bool_decide_eq_false_2 by done. simpl. split; [done|].
      by intros [(value & [=] & _)|[_ Hin]].
Qed.

Lemma validateEnvironmentVariable_returns kind process_env envVar form definition :
  FormStartup.validateEnvironmentVariable kind process_env envVar form definition
  = Returned tt
  ↔ unset envVar ∨ set_in process_env envVar.
Proof.
  unfold FormStartup.validateEnvironmentVariable.
  destruct (falsy envVar) eqn:Hvar; simpl.
  - apply falsy_unset in Hvar. split; [by left | done].
  - apply falsy_false in Hvar as (name & -> & Hname). simpl.
    destruct (FormStartup.env_falsy (FormStartup.process_env_get process_env name))
      eqn:Hvalue.
    + split; [done|]. intros [[?|[= ->]]|(name' & [= <-] & _ & Hset)]; try done.
      apply env_falsy_get in Hset. congruence.
    + apply env_falsy_get in Hvalue. split; [|done]. intros _. right. by exists name.
Qed.

Lemma validateWhitelistConfiguration_returns (process_env : FormStartup.environment)
    (form : FormStartup.Form) (definition : FormStartup.FormDefinition) :
  FormStartup.validateWhitelistConfiguration process_env form definition = Returned tt
  ↔ ∀ metadata,
      FormStartup.definition_metadata definition = Some metadata →
      whitelist_configured process_env metadata.
Proof.
  unfold FormStartup.validateWhitelistConfiguration, whitelist_configured.
  destruct (FormStartup.definition_metadata definition) as [metadata|];
    [|split; [by intros _ ? | done]].
  pose proof (validateEnvironmentVariable_returns "CRN" process_env
                (FormStartup.whitelistCrnEnvVar metadata) form definition) as Hcrn.
  pose proof (validateEnvironmentVariable_returns "SBI" process_env
                (FormStartup.whitelistSbiEnvVar metadata) form definition) as Hsbi.
  unfold FormStartup.validateCrnEnvironmentVariable,
    FormStartup.validateSbiEnvironmentVariable,
    FormStartup.validateWhitelistVariableCompleteness.
  pose proof (falsy_unset (FormStartup.whitelistCrnEnvVar metadata)) as Hc.
  pose proof (falsy_unset (FormStartup.whitelistSbiEnvVar metadata)) as Hs.
  assert (∀ v, set_in process_env v → falsy v = false) as Hset.
  { intros v (name & -> & Hname & _). apply falsy_false. by exists name. }
  destruct (falsy (FormStartup.whitelistCrnEnvVar metadata)) eqn:Ec;
    destruct (falsy (FormStartup.whitelistSbiEnvVar metadata)) eqn:Es; simpl.
  - destruct (FormStartup.validateEnvironmentVariable "CRN" _ _ _ _) as [[]|e].
    + simpl. rewrite Hsbi. split; [|by intros; left; apply Hs].
      intros _ m [= <-]. left. split; [by apply Hc | by apply Hs].
    + simpl. split; [done|]. intros _.
      assert (@Thrown unit e = Returned tt) as [=]. apply Hcrn. left. by apply Hc.
  - split; [done|]. intros H. destruct (H metadata eq_refl) as [[_ Hu]|[Hci _]].
    + apply Hs in Hu. discriminate.
    + apply Hset in Hci. congruence.
  - split; [done|]. intros H. destruct (H metadata eq_refl) as [[Hu _]|[_ Hsi]].
    + apply Hc in Hu. discriminate.
    + apply Hset in Hsi. congruence.
  - destruct (FormStartup.validateEnvironmentVariable "CRN" _ _ _ _) as [[]|e] eqn:Ecrn;
      simpl.
    + rewrite Hsbi. split.
      * intros [Hu|Hsi] m [= <-]; [apply Hs in Hu; discriminate|].
        right. split; [|done]. destruct (proj1 Hcrn eq_refl) as [Hu|Hci]; [|done].
        apply Hc in Hu. discriminate.
      * intros H. destruct (H metadata eq_refl) as [[Hu _]|[_ Hsi]]; [|by right].
        apply Hc in Hu. discriminate.
    + split; [done|]. intros H. destruct (H metadata eq_refl) as [[Hu _]|[Hci _]].
      * apply Hc in Hu. discriminate.
      * assert (@Thrown unit e = Returned tt) as [=]. apply Hcrn. by right.
Qed.

(** X11: [validateWhitelistConfiguration] returns without throwing exactly
    when the definition has no metadata, or names neither whitelist
    variable, or names both and [process.env] has something truthy under
    each name: a non-empty value of the variable or, when the variable is
    not set, a property [process.env] inherits from [Object.prototype] (a
    variable named [toString] or [constructor] passes with nothing set).
    An accepted form therefore never has a CRN whitelist without an SBI
    whitelist or the other way round, and each whitelist variable it names,
    unless the name is an inherited one, is set to a non-empty value. *)
Theorem whitelist_accepted_iff (process_env : FormStartup.environment)
    (form : FormStartup.Form) (definition : FormStartup.FormDefinition) :
  (FormStartup.validateWhitelistConfiguration process_env form definition = Returned tt
   ↔ ∀ metadata,
       FormStartup.definition_metadata definition = Some metadata →
       whitelist_configured process_env metadata)
  ∧ (FormStartup.validateWhitelistConfiguration process_env form definition = Returned tt →
     ∀ metadata,
       FormStartup.definition_metadata definition = Some metadata →
       (unset (FormStartup.whitelistCrnEnvVar metadata)
        ↔ unset (FormStartup.whitelistSbiEnvVar metadata))
       ∧ ∀ name,
           FormStartup.whitelistCrnEnvVar metadata = Some name
           ∨ FormStartup.whitelistSbiEnvVar metadata = Some name →
           name ≠ "" →
           name ∉ FormStartup.Object_prototype_properties →
           ∃ value, process_env !! name = Some value ∧ value ≠ "").
Proof.
  split; [apply validateWhitelistConfiguration_returns|].
  intros Haccepted metadata Hmetadata.
  pose proof (proj1 (validateWhitelistConfiguration_returns _ _ _) Haccepted
                metadata Hmetadata) as Hconfigured.
  assert (∀ v, set_in process_env v → ¬ unset v) as Hnamed.
  { intros v (name & -> & Hname & _) [?|?]; congruence. }
  assert (∀ v name, set_in process_env v → v = Some name →
            name ∉ FormStartup.Object_prototype_properties →
            ∃ value, process_env !! name = Some value ∧ value ≠ "") as Hvalue.
  { intros v name (name' & -> & _ & [Hown|[_ Hinherited]]) [= ->] Hout; done. }
  destruct Hconfigured as [[Hcrn Hsbi]|[Hcrn Hsbi]].
  - split; [done|]. intros name [Hname|Hname] Hne _.
    + rewrite Hname in Hcrn. destruct Hcrn; congruence.
    + rewrite Hname in Hsbi. destruct Hsbi; congruence.
  - split.
    + split; intros Hunset; [by destruct (Hnamed _ Hcrn) | by destruct (Hnamed _ Hsbi)].
    + intros name [Hname|Hname] _ Hout; eauto.
Qed.

(** The names [process.env] inherits pass with nothing set, where any other
    name is rejected; and a variable set to the empty string hides the
    inherited property. *)
Example whitelist_inherited_names :
  let form := FormStartup.mkForm "path/to/form.yaml" (Some "form-id") "form-slug" (Some "Form") in
  let definition crn sbi :=
    FormStartup.mkDefinition (Some "form")
      (Some (FormStartup.mkDefinitionMetadata (Some crn) (Some sbi)
               (mkMetadata None None None))) in
  FormStartup.validateWhitelistConfiguration ∅ form (definition "toString" "constructor")
  = Returned tt
  ∧ FormStartup.validateWhitelistConfiguration ∅ form (definition "CRN_LIST" "SBI_LIST")
    = Thrown (Error "CRN whitelist environment variable CRN_LIST is defined in form form but not configured in environment")
  ∧ FormStartup.validateWhitelistConfiguration {[ "toString" := "" ]} form
      (definition "toString" "constructor")
    = Thrown (Error "CRN whitelist environment variable toString is defined in form form but not configured in environment").
Proof. by vm_compute. Qed.


(** ** Registering the forms *)

(** What the filter of [addAllForms] keeps, from any set of keys seen so
    far. *)
Lemma filter_unique_spec (seen : gset string) (forms kept : list FormStartup.Form)
    (warnings : list FormStartup.loader_event) (final : gset string) :
  FormStartup.filter_unique seen forms = (kept, warnings, final) →
  sublist kept forms
  ∧ NoDup (FormStartup.form_key <$> kept)
  ∧ (∀ form, form ∈ kept → FormStartup.form_key form ∉ seen)
  ∧ final = list_to_set (FormStartup.form_key <$> kept) ∪ seen
  ∧ (∀ form, form ∈ forms → FormStartup.form_key form ∈ final)
  ∧ length warnings + length kept = length forms
  ∧ added_forms warnings = []
  ∧ (NoDup (FormStartup.form_key <$> forms) →
     (∀ form, form ∈ forms → FormStartup.form_key form ∉ seen) →
     kept = forms ∧ warnings = []).
Proof.
  revert seen kept warnings final.
  induction forms as [|form forms IH]; intros seen kept warnings final; simpl.
  - intros [= <- <- <-].
    split_and!; first [done | by constructor | set_solver].
  - destruct (decide (FormStartup.form_key form ∈ seen)) as [Hseen|Hnew].
    + destruct (FormStartup.filter_unique seen forms) as [[kept' warnings'] final'] eqn:Hrest.
      intros [= <- <- <-].
      destruct (IH _ _ _ _ Hrest) as (Hsub & Hnodup & Hfresh & Hfinal & Hkeys & Hlen & Hadd & _).
      split_and!.
      * by apply sublist_cons.
      * done.
      * done.
      * done.
      * intros f [->|Hf]%elem_of_cons; [|by apply Hkeys]. subst final'. set_solver.
      * simpl. lia.
      * done.
      * intros _ Hfresh'. destruct (Hfresh' form); [left | done].
    + destruct (FormStartup.filter_unique ({[FormStartup.form_key form]} ∪ seen) forms)
        as [[kept' warnings'] final'] eqn:Hrest.
      intros [= <- <- <-].
      destruct (IH _ _ _ _ Hrest)
        as (Hsub & Hnodup & Hfresh & Hfinal & Hkeys & Hlen & Hadd & Hall).
      split_and!.
      * by apply sublist_skip.
      * csimpl. apply NoDup_cons. split; [|done].
        intros (f & Hkey & Hf)%list_elem_of_fmap. apply (Hfresh f Hf). set_solver.
      * intros f [->|Hf]%elem_of_cons; [done|]. specialize (Hfresh f Hf). set_solver.
      * subst final'. csimpl. set_solver.
      * intros f [->|Hf]%elem_of_cons; [|by apply Hkeys]. subst final'. set_solver.
      * simpl. lia.
      * done.
      * intros Hnd Hfresh'. csimpl in Hnd. apply NoDup_cons in Hnd as [Hhead Hnd].
        destruct Hall as [-> ->]; [done| |done].
        intros f Hf. assert (FormStartup.form_key f ≠ FormStartup.form_key form).
        { intros Heq. apply Hhead. rewrite <- Heq. by apply list_elem_of_fmap_2. }
        specialize (Hfresh' f). set_solver.
Qed.

Lemma added_forms_app (events1 events2 : list FormStartup.loader_event) :
  added_forms (events1 ++ events2) = added_forms events1 ++ added_forms events2.
Proof. apply omap_app. Qed.

Lemma added_forms_calls (forms : list FormStartup.Form) :
  added_forms (FormStartup.EvAddForm <$> forms) = forms.
Proof. induction forms as [|f forms IH]; csimpl; [done|]. by rewrite IH. Qed.

Lemma warnings_logged_calls (forms : list FormStartup.Form) :
  warnings_logged (FormStartup.EvAddForm <$> forms) = [].
Proof. induction forms as [|f forms IH]; csimpl; [done|]. by rewrite IH. Qed.

Lemma warnings_logged_length (events : list FormStartup.loader_event) :
  added_forms events = [] → length (warnings_logged events) = length events.
Proof.
  induction events as [|[message|form] events IH]; csimpl; [done| |done].
  intros Hnone. by rewrite IH.
Qed.

(** X12: [addAllForms] hands to the loader a sub-sequence of the forms in
    which no key [id-slug] occurs twice and every key of the input occurs;
    each form is either added or warned about; when the loader accepts
    every form the number returned is the number of forms added; and a list
    without duplicate keys is added whole, without a warning. *)
Theorem addAllForms_adds_each_key_once (loader_addForm : FormStartup.Form → outcome unit)
    (forms : list FormStartup.Form) :
  let run := FormStartup.addAllForms loader_addForm forms in
  sublist (added_forms (snd run)) forms
  ∧ NoDup (FormStartup.form_key <$> added_forms (snd run))
  ∧ (∀ form, form ∈ forms →
       FormStartup.form_key form ∈ FormStartup.form_key <$> added_forms (snd run))
  ∧ length (warnings_logged (snd run)) + length (added_forms (snd run)) = length forms
  ∧ (∀ count, fst run = Returned count → count = length (added_forms (snd run)))
  ∧ (NoDup (FormStartup.form_key <$> forms) →
     added_forms (snd run) = forms ∧ warnings_logged (snd run) = []).
Proof.
  cbv zeta. unfold FormStartup.addAllForms.
  destruct (FormStartup.filter_unique ∅ forms) as [[kept warnings] final] eqn:Hfilter.
  destruct (filter_unique_spec _ _ _ _ _ Hfilter)
    as (Hsub & Hnodup & _ & Hfinal & Hkeys & Hlen & Hadd & Hall).
  assert (added_forms (warnings ++ (FormStartup.EvAddForm <$> kept)) = kept) as Hadded.
  { by rewrite added_forms_app, Hadd, added_forms_calls. }
  assert (warnings_logged (warnings ++ (FormStartup.EvAddForm <$> kept))
          = warnings_logged warnings) as Hwarned.
  { unfold warnings_logged. rewrite omap_app.
    fold (warnings_logged (FormStartup.EvAddForm <$> kept)).
    by rewrite warnings_logged_calls, app_nil_r. }
  assert (size final = length kept) as Hsize.
  { subst final. rewrite union_empty_r_L.
    rewrite <- (length_fmap FormStartup.form_key kept).
    by apply size_list_to_set. }
  destruct (FormStartup.all_settled _) as [[]|e]; simpl; rewrite Hadded, Hwarned;
    (split; [done|]); (split; [done|]); (split; [|split; [|split]]).
  - intros form Hform. specialize (Hkeys form Hform). subst final. set_solver.
  - by rewrite warnings_logged_length.
  - by intros count [= <-].
  - intros Hnd. destruct Hall as [-> ->]; [done|set_solver|done].
  - intros form Hform. specialize (Hkeys form Hform). subst final. set_solver.
  - by rewrite warnings_logged_length.
  - done.
  - intros Hnd. destruct Hall as [-> ->]; [done|set_solver|done].
Qed.

(** A witness of X12: the two forms of [UNIQUE_FORMS_ARRAY] are both added
    and nothing is logged. *)
Lemma addAllForms_adds_each_key_once_witness :
  NoDup (FormStartup.form_key <$>
           [FormStartup.mkForm "path/to/form1.yaml" (Some "form-id-1") "form-slug-1" (Some "Form 1");
            FormStartup.mkForm "path/to/form2.yaml" (Some "form-id-2") "form-slug-2" (Some "Form 2")])
  ∧ added_forms
      (snd (FormStartup.addAllForms (fun _ => Returned tt)
              [FormStartup.mkForm "path/to/form1.yaml" (Some "form-id-1") "form-slug-1" (Some "Form 1");
               FormStartup.mkForm "path/to/form2.yaml" (Some "form-id-2") "form-slug-2" (Some "Form 2")]))
    = [FormStartup.mkForm "path/to/form1.yaml" (Some "form-id-1") "form-slug-1" (Some "Form 1");
       FormStartup.mkForm "path/to/form2.yaml" (Some "form-id-2") "form-slug-2" (Some "Form 2")]
  ∧ warnings_logged
      (snd (FormStartup.addAllForms (fun _ => Returned tt)
              [FormStartup.mkForm "path/to/form1.yaml" (Some "form-id-1") "form-slug-1" (Some "Form 1");
               FormStartup.mkForm "path/to/form2.yaml" (Some "form-id-2") "form-slug-2" (Some "Form 2")]))
    = [].
Proof.
  assert (NoDup (FormStartup.form_key <$>
           [FormStartup.mkForm "path/to/form1.yaml" (Some "form-id-1") "form-slug-1" (Some "Form 1");
            FormStartup.mkForm "path/to/form2.yaml" (Some "form-id-2") "form-slug-2" (Some "Form 2")]))
    as Hnodup.
  { apply NoDup_cons. split; [|apply NoDup_singleton].
    intros Hin. apply elem_of_cons in Hin as [Hin|Hin]; [discriminate Hin|].
    by apply elem_of_nil in Hin. }
  split; [exact Hnodup|].
  exact (proj2 (proj2 (proj2 (proj2 (proj2
           (addAllForms_adds_each_key_once (fun _ => Returned tt)
              [FormStartup.mkForm "path/to/form1.yaml" (Some "form-id-1") "form-slug-1" (Some "Form 1");
               FormStartup.mkForm "path/to/form2.yaml" (Some "form-id-2") "form-slug-2" (Some "Form 2")])))))
         Hnodup).
Defined.

(** 'skips duplicate forms': of the four forms of [TEST_FORMS_ARRAY] three
    are added, and the duplicate is warned about. *)
Example addAllForms_skips_duplicate :
  let form1 := FormStartup.mkForm "path/to/form1.yaml" (Some "form-id-1") "form-slug-1" (Some "Form 1") in
  let form2 := FormStartup.mkForm "path/to/form2.yaml" (Some "form-id-2") "form-slug-2" (Some "Form 2") in
  let duplicate :=
    FormStartup.mkForm "path/to/form1-duplicate.yaml" (Some "form-id-1") "form-slug-1"
      (Some "Form 1 Duplicate") in
  let form3 := FormStartup.mkForm "path/to/form3.yaml" (Some "form-id-3") "form-slug-3" (Some "Form 3") in
  FormStartup.addAllForms (fun _ => Returned tt) [form1; form2; duplicate; form3]
  = (Returned 3,
     [FormStartup.EvWarn "Skipping duplicate form: form-slug-1 with id form-id-1";
      FormStartup.EvAddForm form1; FormStartup.EvAddForm form2; FormStartup.EvAddForm form3]).
Proof. by vm_compute. Qed.

(** ** The shared redirect rules *)

Lemma resolve_placeholder_other (baseUrl : string) (rule : RedirectRule) :
  toPath rule ≠ Some FormStartup.AGREEMENTS_PLACEHOLDER →
  FormStartup.resolve_placeholder baseUrl rule = rule.
Proof.
  intros Hother. unfold FormStartup.resolve_placeholder.
  rewrite decide_False by done. by destruct rule.
Qed.

(** X13: loading the shared rules keeps every rule in its place and leaves
    all but placeholder paths as they are; a rule whose path is the
    placeholder [__AGREEMENTS_BASE_URL__] gets the agreements base URL as
    its path.  When GAS answers for a SUBMITTED application, such a rule is
    the one matched and the status write, if there is one, succeeds, the
    orchestrator redirects the applicant to exactly that URL, without a slug
    in front, or continues when the request is already there.  Such a rule
    satisfies the path schema of the start-up validation only if the base
    URL starts with a slash.  What the orchestrator does with such a rule
    after a failed GAS call is no part of this property. *)
Theorem shared_placeholder_resolved (env : Env) (shared : option GrantRedirectRules)
    (rules : list RedirectRule) (Hpost : shared ≫= postSubmission = Some rules) :
  let loaded := FormStartup.loadSharedRedirectRules (agreements_baseUrl env) shared in
  preSubmission loaded = shared ≫= preSubmission
  ∧ ∃ resolved,
      postSubmission loaded = Some resolved
      ∧ length resolved = length rules
      ∧ ∀ i rule, rules !! i = Some rule →
          ∃ rule', resolved !! i = Some rule'
            ∧ fromGrantsStatus rule' = fromGrantsStatus rule
            ∧ gasStatus rule' = gasStatus rule
            ∧ toGrantsStatus rule' = toGrantsStatus rule
            ∧ (toPath rule ≠ Some FormStartup.AGREEMENTS_PLACEHOLDER → rule' = rule)
            ∧ (toPath rule = Some FormStartup.AGREEMENTS_PLACEHOLDER →
               toPath rule' = Some (agreements_baseUrl env)
               ∧ (∀ request context slug grantCode gas tr tr',
                    served request slug grantCode →
                    previous_status context = VStr "SUBMITTED" →
                    getApplicationStatus env grantCode
                      (JS.toLowerCase (referenceNumber context)) = Returned gas →
                    mapStatusToUrl "SUBMITTED" gas (post_rules request) = Returned rule' →
                    persistStatus env request (toGrantsStatus rule') "SUBMITTED" (Some slug)
                      (tr ++ [gas_query grantCode context]) = (Returned tt, tr') →
                    formsStatusCallback env request context tr
                    = (Returned (if decide (path request = agreements_baseUrl env)
                                 then Continue
                                 else Redirect (agreements_baseUrl env)), tr'))
               ∧ (FormService.postSubmissionRuleSchema rule' = true →
                  ∃ rest, agreements_baseUrl env = "/" +:+ rest)).
Proof.
  cbv zeta. unfold FormStartup.loadSharedRedirectRules.
  destruct shared as [shared|]; [|done]. simpl in *. rewrite Hpost.
  split; [done|]. eexists. split; [done|]. split; [by rewrite length_fmap|].
  intros i rule Hi. exists (FormStartup.resolve_placeholder (agreements_baseUrl env) rule).
  split; [by rewrite list_lookup_fmap, Hi|]. split; [done|]. split; [done|]. split; [done|].
  split; [apply resolve_placeholder_other|].
  intros Hplaceholder.
  assert (toPath (FormStartup.resolve_placeholder (agreements_baseUrl env) rule)
          = Some (agreements_baseUrl env)) as Hpath.
  { unfold FormStartup.resolve_placeholder. simpl. by rewrite (decide_True _ _ Hplaceholder). }
  split_and!.
  - exact Hpath.
  - intros request context slug grantCode gas tr tr' Hserved Hprev Hgas Hrule Hpersist.
    rewrite (formsStatusCallback_success _ _ _ _ _ _ _ _ _ _
               Hserved Hprev Hgas Hrule Hpersist Hpath).
    assert (destination (agreements_baseUrl env) slug (agreements_baseUrl env)
            = agreements_baseUrl env) as ->; [|done].
    unfold destination. by destruct (decide _).
  - unfold FormService.postSubmissionRuleSchema. rewrite Hpath.
    intros [_ Hschema]%andb_true_iff.
    apply joi_path_some in Hschema as (p & [= <-] & Hstart).
    by apply startsWith_slash.
Qed.

(** A witness of X13: the shared offer rule and the base URL of the
    test-suite; the offer of 'redirects to the agreements service' is then
    answered with the base URL itself. *)
Lemma shared_placeholder_resolved_witness :
  postSubmission
    (FormStartup.loadSharedRedirectRules
       (agreements_baseUrl (Fixtures.gas_returns "OFFER_SENT"))
       (Some (mkRules None
                (Some [mkRule (Some "SUBMITTED") (Some "OFFER_SENT,OFFER_WITHDRAWN,OFFER_ACCEPTED")
                              (Some "SUBMITTED") (Some FormStartup.AGREEMENTS_PLACEHOLDER)]))))
  = Some [mkRule (Some "SUBMITTED") (Some "OFFER_SENT,OFFER_WITHDRAWN,OFFER_ACCEPTED")
                 (Some "SUBMITTED") (Some "/agreement")]
  ∧ formsStatusCallback (Fixtures.gas_returns "OFFER_SENT")
      (Fixtures.request "farm-payments" "/farm-payments/start")
      (Fixtures.context (Fixtures.status_only "SUBMITTED")) []
    = (Returned (Redirect "/agreement"),
       [EvGetApplicationStatus "grant-a-code" "ref-001"]).
Proof.
  destruct (shared_placeholder_resolved (Fixtures.gas_returns "OFFER_SENT")
              (Some (mkRules None
                       (Some [mkRule (Some "SUBMITTED")
                                     (Some "OFFER_SENT,OFFER_WITHDRAWN,OFFER_ACCEPTED")
                                     (Some "SUBMITTED")
                                     (Some FormStartup.AGREEMENTS_PLACEHOLDER)])))
              _ eq_refl) as (_ & resolved & Hresolved & _ & Hrules).
  destruct (Hrules 0 _ eq_refl) as (rule' & Hrule' & _ & _ & _ & _ & Hplaceholder).
  destruct (Hplaceholder eq_refl) as (_ & Hredirect & _).
  rewrite Hresolved. injection Hresolved as <-. injection Hrule' as <-.
  split; [reflexivity|].
  rewrite (Hredirect (Fixtures.request "farm-payments" "/farm-payments/start")
             (Fixtures.context (Fixtures.status_only "SUBMITTED"))
             "farm-payments" "grant-a-code" "OFFER_SENT" []
             [EvGetApplicationStatus "grant-a-code" "ref-001"]).
  - reflexivity.
  - repeat split; discriminate.
  - reflexivity.
  - reflexivity.
  - by vm_compute.
  - by vm_compute.
Defined.



(** * Further properties of the pre-submission guard *)

Lemma bool_eq_iff (b1 b2 : bool) : (b1 = true ↔ b2 = true) → b1 = b2.
Proof. destruct b1, b2; intros [H1 H2]; try done; [by rewrite H1 | by rewrite H2]. Qed.

Lemma landParcels_not_bookkeeping : "landParcels" ∉ bookkeeping_keys.
Proof.
  intros Hin. unfold bookkeeping_keys in Hin.
  repeat (apply elem_of_cons in Hin as [Hin|Hin]; [discriminate Hin|]).
  by apply elem_of_nil in Hin.
Qed.

(** X15: [hasMeaningfulState] does not see the bookkeeping keys
    ([$$__referenceNumber], [applicationStatus], [applicant],
    [selectedLandParcel], [payment], [draftApplicationAnnualTotalPence]):
    setting or removing one never changes its answer, and a state made of
    them alone is not meaningful; any other key makes the state meaningful,
    [landParcels] only when its value has an entry. *)
Theorem bookkeeping_keys_are_ignored (state : js_object) (key : string) (value : js_value) :
  (key ∈ bookkeeping_keys →
     hasMeaningfulState (<[key := value]> state) = hasMeaningfulState state
     ∧ hasMeaningfulState (delete key state) = hasMeaningfulState state)
  ∧ ((∀ k, k ∈ Object_keys state → k ∈ bookkeeping_keys) →
     hasMeaningfulState state = false)
  ∧ (key ∉ bookkeeping_keys → key ≠ "landParcels" →
     hasMeaningfulState (<[key := value]> state) = true)
  ∧ (hasMeaningfulState (<["landParcels" := value]> state) = true
     ↔ ¬ no_entries value ∨ hasMeaningfulState (delete "landParcels" state) = true).
Proof.
  split; [|split; [|split]].
  - intros Hkey. split; apply bool_eq_iff; rewrite !hasMeaningfulState_spec;
      unfold meaningful_state; split; intros (k & v & Hlookup & Hbook & Hland);
      assert (key ≠ k) by (by intros ->); exists k, v; (split; [|done]).
    + by rewrite lookup_insert_ne in Hlookup.
    + by rewrite lookup_insert_ne.
    + by rewrite lookup_delete_ne in Hlookup.
    + by rewrite lookup_delete_ne.
  - intros Hall. apply not_true_is_false. rewrite hasMeaningfulState_spec.
    intros (k & v & Hlookup & Hbook & _). apply Hbook, Hall, Object_keys_lookup.
    by exists v.
  - intros Hbook Hland. apply hasMeaningfulState_spec. exists key, value.
    split; [by rewrite lookup_insert_eq|]. split; [done|]. by intros [? _].
  - rewrite !hasMeaningfulState_spec. unfold meaningful_state. split.
    + intros (k & v & Hlookup & Hbook & Hland).
      destruct (decide (k = "landParcels")) as [->|Hk].
      * rewrite lookup_insert_eq in Hlookup. injection Hlookup as <-.
        left. intros Hnone. by apply Hland.
      * right. exists k, v. rewrite lookup_insert_ne in Hlookup by done.
        by rewrite lookup_delete_ne.
    + intros [Hentries|(k & v & Hlookup & Hbook & Hland)].
      * exists "landParcels", value. split; [by rewrite lookup_insert_eq|].
        split; [apply landParcels_not_bookkeeping | by intros [_ ?]].
      * assert (k ≠ "landParcels") as Hk.
        { intros ->. by rewrite lookup_delete_eq in Hlookup. }
        exists k, v. rewrite lookup_delete_ne in Hlookup by done.
        by rewrite lookup_insert_ne.
Qed.

(** A witness of X15: the applicant's details added to a state with one
    answer leave it meaningful, added to an empty state leave it not
    meaningful. *)
Lemma bookkeeping_keys_are_ignored_witness :
  "applicant" ∈ bookkeeping_keys
  ∧ hasMeaningfulState (<["applicant" := VObj ∅]> ({[ "question" := VStr "answer" ]})) = true
  ∧ hasMeaningfulState (<["applicant" := VObj ∅]> ∅) = false.
Proof.
  assert ("applicant" ∈ bookkeeping_keys) as Hkey by (do 2 right; left).
  split; [exact Hkey|]. split.
  - rewrite (proj1 (proj1 (bookkeeping_keys_are_ignored
               {[ "question" := VStr "answer" ]} "applicant" (VObj ∅)) Hkey)).
    by vm_compute.
  - rewrite (proj1 (proj1 (bookkeeping_keys_are_ignored ∅ "applicant" (VObj ∅)) Hkey)).
    by vm_compute.
Defined.

(** ** After a withdrawal *)

Lemma persistStatus_setState env request newStatus previousStatus grantId tr newState :
  EvSetState newState ∈ snd (persistStatus env request newStatus previousStatus grantId tr) →
  EvSetState newState ∈ tr ∨ newState = cleared_state.
Proof.
  unfold persistStatus.
  destruct (decide (newStatus = Some previousStatus)); [by left|].
  destruct (decide (newStatus = Some "CLEARED")); simpl.
  - intros [Hin|Hin]%elem_of_app; [by left|]. right.
    apply elem_of_cons in Hin as [Heq|Hin]; [by injection Heq | by apply elem_of_nil in Hin].
  - intros [Hin|Hin]%elem_of_app; [by left|].
    apply elem_of_cons in Hin as [Heq|Hin]; [discriminate Heq | by apply elem_of_nil in Hin].
Qed.

Lemma handlePostSubmission_setState env request context previousStatus grantCode rules tr
    newState :
  EvSetState newState
    ∈ snd (handlePostSubmission env request context previousStatus grantCode rules tr) →
  EvSetState newState ∈ tr ∨ newState = cleared_state.
Proof.
  unfold handlePostSubmission. run.
  assert (∀ l, EvSetState newState
                 ∈ l ++ [EvGetApplicationStatus grantCode
                           (JS.toLowerCase (referenceNumber context))] →
               EvSetState newState ∈ l) as Hquery.
  { intros l [Hin|Hin]%elem_of_app; [done|].
    apply elem_of_cons in Hin as [Heq|Hin]; [discriminate Heq | by apply elem_of_nil in Hin]. }
  destruct (getApplicationStatus env grantCode _) as [gas|e]; [|by left; apply Hquery].
  destruct (mapStatusToUrl _ _ _) as [rule|e]; simpl; [|by left; apply Hquery].
  pose proof (persistStatus_setState env request (toGrantsStatus rule) previousStatus
                (params_slug request)
                (tr ++ [EvGetApplicationStatus grantCode
                          (JS.toLowerCase (referenceNumber context))]) newState) as Hpersist.
  destruct (persistStatus env request _ _ _ _) as [[[]|e] tr1]; simpl in Hpersist.
  - intros Hin.
    assert (EvSetState newState ∈ tr1) as Hin1.
    { destruct (shouldContinueDefault _ _ _); [done|].
      pose proof (redirectUrl_of_rule_snd env (params_slug request) rule tr1) as Hsnd.
      destruct (redirectUrl_of_rule env _ rule tr1) as [[dest|e] tr2];
        simpl in Hsnd; subst tr2; [|done].
      by destruct (decide _). }
    destruct (Hpersist Hin1) as [Hin2| ->]; [left; by apply Hquery | by right].
  - intros Hin. destruct (Hpersist Hin) as [Hin2| ->]; [left; by apply Hquery | by right].
Qed.

(** Whatever state the orchestrator hands to [setState], it is the state
    with the status CLEARED alone. *)
Lemma formsStatusCallback_setState env request context tr newState :
  EvSetState newState ∈ snd (formsStatusCallback env request context tr) →
  EvSetState newState ∈ tr ∨ newState = cleared_state.
Proof.
  unfold formsStatusCallback.
  destruct (params_slug request) as [grantId|]; [|by left].
  destruct (String.eqb grantId ""); [by left|]. run.
  destruct (getGrantCode request) as [grantCode|e]; [|by left].
  destruct (shouldHandlePreSubmission _).
  { rewrite preSubmissionRedirect_pure. by left. }
  destruct (get_field (state context) "applicationStatus") as [| | | |s| |];
    try by left.
  destruct (negb (bool_decide (s = "SUBMITTED"))); [by left|].
  pose proof (handlePostSubmission_setState env request context s grantCode
                (request_grantRedirectRules request) tr newState) as Hpost.
  destruct (handlePostSubmission env request context s grantCode _ tr)
    as [[answer|e] tr1]; simpl in Hpost; [done|].
  pose proof (handlePostSubmissionError_calls e request context grantId grantCode
                (request_grantRedirectRules request) tr1) as [->|(entry & Hentry & ->)];
    [done|].
  intros [Hin|Hin]%elem_of_app; [by apply Hpost|].
  destruct Hentry as (? & ? & ? & ->).
  apply elem_of_cons in Hin as [Heq|Hin]; [discriminate Heq | by apply elem_of_nil in Hin].
Qed.

(** X16: the only state the orchestrator ever hands to the cache's
    [setState] is [{applicationStatus: CLEARED}], and a later request that
    finds this state is left alone: for a served grant with a resume rule the
    orchestrator continues on every path and calls nobody, so a withdrawn
    application is not sent to the resume page. *)
Theorem withdrawn_state_is_left_alone (env : Env) (request : Request) (context : Context)
    (newState : js_object)
    (Hwritten : EvSetState newState ∈ snd (formsStatusCallback env request context [])) :
  newState = cleared_state
  ∧ ∀ env' request' context' slug grantCode resumePath tr,
      served request' slug grantCode →
      resumes_at request' resumePath →
      state context' = newState →
      formsStatusCallback env' request' context' tr = (Returned Continue, tr).
Proof.
  destruct (formsStatusCallback_setState _ _ _ _ _ Hwritten) as [Hnil| ->];
    [by apply elem_of_nil in Hnil|].
  split; [done|].
  intros env' request' context' slug grantCode resumePath tr Hserved Hresume Hstate.
  assert (pre_submission (previous_status context')) as Hpre.
  { unfold previous_status. rewrite Hstate. right. by left. }
  rewrite (formsStatusCallback_guard _ _ _ _ _ _ _ Hserved Hresume Hpre).
  rewrite Hstate.
  by assert (hasMeaningfulState cleared_state = false) as -> by (by vm_compute).
Qed.

(** A witness of X16: the withdrawal of the test-suite, then the start
    page. *)
Lemma withdrawn_state_is_left_alone_witness :
  EvSetState cleared_state
    ∈ snd (formsStatusCallback (Fixtures.gas_returns "APPLICATION_WITHDRAWN")
             (Fixtures.request "grant-a" "/grant-a/confirmation")
             (Fixtures.context (Fixtures.status_only "SUBMITTED")) [])
  ∧ formsStatusCallback (Fixtures.gas_returns "APPLICATION_WITHDRAWN")
      (Fixtures.request "grant-a" "/grant-a/start")
      (Fixtures.context cleared_state) []
    = (Returned Continue, []).
Proof.
  assert (EvSetState cleared_state
            ∈ snd (formsStatusCallback (Fixtures.gas_returns "APPLICATION_WITHDRAWN")
                     (Fixtures.request "grant-a" "/grant-a/confirmation")
                     (Fixtures.context (Fixtures.status_only "SUBMITTED")) []))
    as Hwritten.
  { assert (snd (formsStatusCallback (Fixtures.gas_returns "APPLICATION_WITHDRAWN")
                   (Fixtures.request "grant-a" "/grant-a/confirmation")
                   (Fixtures.context (Fixtures.status_only "SUBMITTED")) [])
            = [EvGetApplicationStatus "grant-a-code" "ref-001"; EvSetState cleared_state])
      as -> by (by vm_compute).
    right. left. }
  split; [exact Hwritten|].
  refine (proj2 (withdrawn_state_is_left_alone _ _ _ _ Hwritten)
            (Fixtures.gas_returns "APPLICATION_WITHDRAWN")
            (Fixtures.request "grant-a" "/grant-a/start")
            (Fixtures.context cleared_state)
            "grant-a" "grant-a-code" "/check-selected-land-actions" [] _ _ eq_refl).
  - repeat split; discriminate.
  - eexists _, _; split; reflexivity.
Defined.

(** ** Configuring a form definition *)

Lemma strip_prefix_spec (p s rest : string) :
  JS.strip_prefix p s = Some rest ↔ s = p +:+ rest.
Proof.
  revert s. induction p as [|a p IH]; intros s.
  - change ("" +:+ rest) with rest. destruct s; simpl; split; congruence.
  - rewrite append_cons. destruct s as [|b s]; simpl; [split; congruence|].
    destruct (Ascii.eqb_spec a b) as [->|Hne].
    + rewrite IH. split; congruence.
    + split; congruence.
Qed.

Lemma split_at_first_sound (pattern s before after : string) :
  FormDefinitions.split_at_first pattern s = Some (before, after) →
  s = before +:+ pattern +:+ after.
Proof.
  revert before. induction s as [|c s IH]; intros before; simpl.
  - destruct (JS.strip_prefix pattern "") as [r|] eqn:Hstrip; [|done].
    intros [= <- <-]. by apply strip_prefix_spec in Hstrip.
  - destruct (JS.strip_prefix pattern (String c s)) as [r|] eqn:Hstrip.
    + intros [= <- <-]. by apply strip_prefix_spec in Hstrip.
    + destruct (FormDefinitions.split_at_first pattern s) as [[b a]|]; [|done].
      intros [= <- <-]. rewrite append_cons. f_equal. by apply IH.
Qed.

Lemma split_at_first_finds (pattern before after : string) :
  ∃ before' after',
    FormDefinitions.split_at_first pattern (before +:+ pattern +:+ after)
    = Some (before', after')
    ∧ (String.length before' ≤ String.length before)%nat.
Proof.
  induction before as [|c before IH].
  - change ("" +:+ pattern +:+ after) with (pattern +:+ after).
    exists "", after. split; [|done].
    assert (JS.strip_prefix pattern (pattern +:+ after) = Some after) as Hstrip
      by by apply strip_prefix_spec.
    destruct (pattern +:+ after); simpl; by rewrite Hstrip.
  - rewrite append_cons. simpl.
    destruct (JS.strip_prefix pattern (String c (before +:+ pattern +:+ after))) as [r|].
    + exists "", r. split; [done|]. simpl. lia.
    + destruct IH as (b & a & -> & Hle). exists (String c b), a. split; [done|].
      simpl. lia.
Qed.

Lemma split_at_first_absent (pattern s : string) :
  ¬ occurs_in pattern s → FormDefinitions.split_at_first pattern s = None.
Proof.
  intros Habsent.
  destruct (FormDefinitions.split_at_first pattern s) as [[b a]|] eqn:Hsplit; [|done].
  destruct Habsent. exists b, a. by apply split_at_first_sound.
Qed.

Lemma append_same_length (b b' x y : string) :
  b +:+ x = b' +:+ y → String.length b = String.length b' → b = b' ∧ x = y.
Proof.
  revert b'. induction b as [|c b IH]; intros [|c' b']; simpl; try done.
  rewrite !append_cons. intros [= -> Heq] [= Hlen].
  destruct (IH _ Heq Hlen) as [-> ->]. done.
Qed.

Lemma split_at_first_first (pattern before after s : string) :
  first_occurrence pattern before after s →
  FormDefinitions.split_at_first pattern s = Some (before, after).
Proof.
  intros [-> Hfirst].
  destruct (split_at_first_finds pattern before after) as (b & a & Hsplit & Hle).
  rewrite Hsplit. pose proof (split_at_first_sound _ _ _ _ Hsplit) as Heq.
  pose proof (Hfirst _ _ Heq) as Hge.
  destruct (append_same_length _ _ _ _ Heq) as [-> Hrest]; [lia|].
  destruct (append_same_length pattern pattern after a Hrest eq_refl) as [_ ->].
  done.
Qed.

Lemma getSubstitution_plain (matched before after template : string) :
  free_of "$" template →
  FormDefinitions.getSubstitution matched before after template = template.
Proof.
  unfold free_of. induction template as [|c template IH]; simpl; [done|].
  intros Hfree. apply not_elem_of_cons in Hfree as [Hne Hfree].
  destruct (Ascii.eqb_spec c "$") as [->|_]; [done|]. by rewrite IH.
Qed.

Lemma configure_pages_lookup (environment : string) (pages pages' : list FormDefinitions.Page)
    (warnings : list string) (i : nat) (page : FormDefinitions.Page) :
  FormDefinitions.configure_pages environment pages = (Returned pages', warnings) →
  pages !! i = Some page →
  ∃ page' warnings',
    pages' !! i = Some page'
    ∧ FormDefinitions.configure_page environment page = (Returned page', warnings').
Proof.
  revert pages' warnings i. induction pages as [|first rest IH]; intros pages' warnings i;
    [done|]. simpl.
  destruct (FormDefinitions.configure_page environment first) as [[first'|e] w] eqn:Hfirst;
    [|done].
  destruct (FormDefinitions.configure_pages environment rest) as [[rest'|e] w'] eqn:Hrest;
    [|done].
  intros [= <- <-]. destruct i as [|i]; simpl.
  - intros [= <-]. by exists first', w.
  - by apply (IH rest' w').
Qed.

Ltac destruct_page page :=
  let u := fresh "u" in
  destruct page as [[[[[[[[u|]]|]]|]]|]].

Lemma configure_page_url (environment : string) (page page' : FormDefinitions.Page)
    (warnings : list string) :
  FormDefinitions.configure_page environment page = (Returned page', warnings) →
  ¬ unset (page_url page) →
  page_url page'
  = Some (if decide (environment = "local") then FormDefinitions.LOCAL_SCORING_URL
          else FormDefinitions.replace "cdpEnvironment" environment
                 (template (page_url page))).
Proof.
  unfold FormDefinitions.configure_page, page_url. rewrite <- falsy_unset.
  destruct_page page; csimpl; try done.
  destruct (String.eqb u "") eqn:Hfalsy; [done|]. intros Hpage _. simpl in Hpage.
  destruct (decide (environment = "local")) as [->|Hother].
  - by injection Hpage as <- <-.
  - rewrite bool_decide_eq_false_2 in Hpage by done. by injection Hpage as <- <-.
Qed.

Lemma configure_page_returns (environment : string) (page : FormDefinitions.Page) :
  ¬ onLoad_without_options page →
  ∃ page',
    FormDefinitions.configure_page environment page
    = (Returned page',
       if decide (events_without_url page) then [unexpected_environment environment]
       else [])
    ∧ (unset (page_url page) → page' = page).
Proof.
  intros Hoptions. unfold FormDefinitions.configure_page.
  destruct (decide (events_without_url page)) as [[Hevents Hunset]|Hevents];
    unfold events_without_url, unset, page_url in *; destruct_page page; csimpl in *.
  - destruct Hunset as [?|[= ->]]; [done|]. by eexists.
  - by eexists.
  - destruct Hoptions. by eexists.
  - by eexists.
  - by destruct Hevents as [? [=]].
  - destruct (String.eqb_spec u "") as [->|Hurl].
    + destruct Hevents. split; [by eexists|by right].
    + simpl. destruct (bool_decide (environment = "local")); simpl;
        eexists; (split; [done|]); intros [?|?]; congruence.
  - destruct Hevents. split; [by eexists|by left].
  - destruct Hoptions. by eexists.
  - destruct Hevents. split; [by eexists|by left].
  - by eexists.
Qed.

Lemma configure_pages_returns (environment : string) (pages : list FormDefinitions.Page) :
  Forall (λ page, ¬ onLoad_without_options page) pages →
  ∃ pages',
    FormDefinitions.configure_pages environment pages
    = (Returned pages',
       replicate (length (filter events_without_url pages))
         (unexpected_environment environment))
    ∧ length pages' = length pages
    ∧ ∀ i page, pages !! i = Some page → unset (page_url page) → pages' !! i = Some page.
Proof.
  induction 1 as [|first rest Hfirst _ (rest' & Hrest & Hlength & Hkept)]; simpl.
  - by exists [].
  - destruct (configure_page_returns environment first Hfirst) as (first' & -> & Hsame).
    rewrite Hrest, filter_cons. exists (first' :: rest'). split_and!.
    + by destruct (decide (events_without_url first)).
    + simpl. by rewrite Hlength.
    + intros [|i] page; simpl.
      * intros [= ->] Hunset. by rewrite (Hsame Hunset).
      * apply Hkept.
Qed.

Lemma configureFormDefinition_returned (environment : string)
    (pages pages' : list FormDefinitions.Page) (warnings : list string) :
  FormDefinitions.configureFormDefinition environment (Some pages)
  = (Returned (Some pages'), warnings) →
  FormDefinitions.configure_pages environment pages = (Returned pages', warnings).
Proof.
  unfold FormDefinitions.configureFormDefinition.
  destruct (FormDefinitions.configure_pages environment pages) as [[ps|e] w]; [|done].
  by intros [= -> ->].
Qed.

(** X17: when no page has an [onLoad] handler without options,
    [configureFormDefinition] returns as many pages as it was given, in
    every environment; a page without a non-empty [onLoad] URL comes back
    as it was; and the warnings logged are one [Unexpected environment
    value] per page that has events but no such URL, whatever the
    environment is. *)
Theorem configureFormDefinition_keeps_pages (environment : string)
    (pages : list FormDefinitions.Page)
    (Hoptions : Forall (λ page, ¬ onLoad_without_options page) pages) :
  ∃ pages',
    FormDefinitions.configureFormDefinition environment (Some pages)
    = (Returned (Some pages'),
       replicate (length (filter events_without_url pages))
         (unexpected_environment environment))
    ∧ length pages' = length pages
    ∧ ∀ i page, pages !! i = Some page → unset (page_url page) → pages' !! i = Some page.
Proof.
  destruct (configure_pages_returns environment pages Hoptions)
    as (pages' & Hpages & Hlength & Hkept).
  exists pages'. unfold FormDefinitions.configureFormDefinition. by rewrite Hpages.
Qed.

(** A witness of X17: the page with only an [onSubmit] event of the
    test-suite, beside a page without events and one with a URL. *)
Lemma configureFormDefinition_keeps_pages_witness :
  ∃ pages',
    FormDefinitions.configureFormDefinition "dev"
      (Some [FormDefinitions.mkPage (Some (FormDefinitions.mkEvents None));
             FormDefinitions.mkPage None;
             FormDefinitions.with_url "http://cdpEnvironment.example.com"])
    = (Returned (Some pages'), ["Unexpected environment value: dev"])
    ∧ length pages' = 3
    ∧ pages' !! 0 = Some (FormDefinitions.mkPage (Some (FormDefinitions.mkEvents None))).
Proof.
  destruct (configureFormDefinition_keeps_pages "dev"
              [FormDefinitions.mkPage (Some (FormDefinitions.mkEvents None));
               FormDefinitions.mkPage None;
               FormDefinitions.with_url "http://cdpEnvironment.example.com"])
    as (pages' & Hpages & Hlength & Hkept).
  - repeat constructor; by intros (? & [= <-] & [=]).
  - exists pages'. split_and!; [exact Hpages|exact Hlength|].
    apply Hkept; [done|by left].
Defined.

(** X18: in the local environment every page with a non-empty [onLoad] URL
    is given the scoring URL of the local stack, whatever its URL was. *)
Theorem local_environment_scoring_url (pages pages' : list FormDefinitions.Page)
    (warnings : list string) (i : nat) (page : FormDefinitions.Page)
    (Hreturned : FormDefinitions.configureFormDefinition "local" (Some pages)
                 = (Returned (Some pages'), warnings))
    (Hpage : pages !! i = Some page)
    (Hurl : ¬ unset (page_url page)) :
  ∃ page',
    pages' !! i = Some page'
    ∧ page_url page' = Some FormDefinitions.LOCAL_SCORING_URL.
Proof.
  apply configureFormDefinition_returned in Hreturned.
  destruct (configure_pages_lookup _ _ _ _ _ _ Hreturned Hpage) as (page' & w & Hi & Hconf).
  exists page'. split; [done|].
  by rewrite (configure_page_url _ _ _ _ Hconf Hurl).
Qed.

(** A witness of X18: the two pages of the test-suite. *)
Lemma local_environment_scoring_url_witness :
  ∃ page',
    [FormDefinitions.with_url FormDefinitions.LOCAL_SCORING_URL;
     FormDefinitions.with_url FormDefinitions.LOCAL_SCORING_URL] !! 1 = Some page'
    ∧ page_url page' = Some FormDefinitions.LOCAL_SCORING_URL.
Proof.
  apply (local_environment_scoring_url
           [FormDefinitions.with_url "http://cdpEnvironment.example.com";
            FormDefinitions.with_url "http://cdpEnvironment.example.com"]
           _ [] 1 (FormDefinitions.with_url "http://cdpEnvironment.example.com")).
  - by vm_compute.
  - done.
  - intros [?|?]; discriminate.
Defined.

(** X19: outside the local environment a page's non-empty [onLoad] URL
    without the text [cdpEnvironment] is left as it is; and when the
    environment's name holds no dollar sign, the first occurrence of
    [cdpEnvironment] in the URL, and only that one, is replaced by the
    name. *)
Theorem environment_replaces_placeholder (environment : string)
    (pages pages' : list FormDefinitions.Page) (warnings : list string) (i : nat)
    (page : FormDefinitions.Page) (pageUrl : string)
    (Henvironment : environment ≠ "local")
    (Hreturned : FormDefinitions.configureFormDefinition environment (Some pages)
                 = (Returned (Some pages'), warnings))
    (Hpage : pages !! i = Some page)
    (Hurl : page_url page = Some pageUrl)
    (Hset : pageUrl ≠ "") :
  ∃ page',
    pages' !! i = Some page'
    ∧ (¬ occurs_in "cdpEnvironment" pageUrl → page_url page' = Some pageUrl)
    ∧ ∀ before after,
        free_of "$" environment →
        first_occurrence "cdpEnvironment" before after pageUrl →
        page_url page' = Some (before +:+ environment +:+ after).
Proof.
  apply configureFormDefinition_returned in Hreturned.
  destruct (configure_pages_lookup _ _ _ _ _ _ Hreturned Hpage) as (page' & w & Hi & Hconf).
  exists page'. split; [done|].
  assert (¬ unset (page_url page)) as Hnot by (rewrite Hurl; intros [?|?]; congruence).
  rewrite (configure_page_url _ _ _ _ Hconf Hnot), decide_False, Hurl by done.
  unfold FormDefinitions.replace. simpl template. split.
  - intros Habsent. by rewrite (split_at_first_absent _ _ Habsent).
  - intros before after Hfree Hfirst.
    by rewrite (split_at_first_first _ _ _ _ Hfirst), getSubstitution_plain.
Qed.

(** A witness of X19: the URL of the test-suite in the [dev] environment. *)
Lemma environment_replaces_placeholder_witness :
  ∃ page',
    [FormDefinitions.with_url "http://dev.example.com"] !! 0 = Some page'
    ∧ page_url page' = Some "http://dev.example.com".
Proof.
  destruct (environment_replaces_placeholder "dev"
              [FormDefinitions.with_url "http://cdpEnvironment.example.com"]
              [FormDefinitions.with_url "http://dev.example.com"] [] 0
              (FormDefinitions.with_url "http://cdpEnvironment.example.com")
              "http://cdpEnvironment.example.com")
    as (page' & Hpage' & _ & Hreplaced); [done|by vm_compute|done|done|done|].
  exists page'. split; [exact Hpage'|].
  apply (Hreplaced "http://" ".example.com").
  - unfold free_of. simpl. not_listed.
  - split; [done|]. intros before' after' Hoccurs.
    destruct (split_at_first_finds "cdpEnvironment" before' after')
      as (b & a & Hsplit & Hle).
    rewrite <- Hoccurs in Hsplit. vm_compute in Hsplit. injection Hsplit as <- <-.
    exact Hle.
Defined.

(** X20: a page whose [onLoad] handler has no options makes
    [configureFormDefinition] throw a TypeError on reading [url], in every
    environment, when no earlier page has done so. *)
Theorem onLoad_without_options_throws (environment : string)
    (front rest : list FormDefinitions.Page) (page : FormDefinitions.Page)
    (Hfront : Forall (λ page, ¬ onLoad_without_options page) front)
    (Hpage : onLoad_without_options page) :
  fst (FormDefinitions.configureFormDefinition environment (Some (front ++ page :: rest)))
  = Thrown (TypeError "url").
Proof.
  unfold FormDefinitions.configureFormDefinition.
  assert (fst (FormDefinitions.configure_pages environment (front ++ page :: rest))
          = Thrown (TypeError "url")) as Hthrown.
  { induction Hfront as [|first front Hfirst _ IH]; simpl.
    - destruct Hpage as (pageEvents & Hevents & HonLoad).
      unfold FormDefinitions.configure_page. by rewrite Hevents, HonLoad.
    - destruct (configure_page_returns environment first Hfirst) as (first' & -> & _).
      destruct (FormDefinitions.configure_pages environment (front ++ page :: rest))
        as [[ps|e] w]; [done|]. simpl in *. by rewrite IH. }
  destruct (FormDefinitions.configure_pages environment (front ++ page :: rest))
    as [[ps|e] w]; [done|]. simpl in *. by injection Hthrown as ->.
Qed.

(** A witness of X20: a handler without options behind a page without
    events. *)
Lemma onLoad_without_options_throws_witness :
  fst (FormDefinitions.configureFormDefinition "local"
         (Some ([FormDefinitions.mkPage None]
                ++ FormDefinitions.mkPage
                     (Some (FormDefinitions.mkEvents (Some (FormDefinitions.mkHandler None))))
                   :: [])))
  = Thrown (TypeError "url").
Proof.
  apply onLoad_without_options_throws.
  - repeat constructor. by intros (? & [=] & _).
  - by eexists.
Defined.
